(** * RAG chatbot front end: a shallow embedding of the React handlers

    The development follows the JavaScript sources of the repository:
    - [Js]            the fragment of JavaScript values and string operations
                      the handlers rely on;
    - [Chat]          pages/Chat.jsx (sendMessage, loadConversations, chart
                      extraction and rendering guards);
    - [Api]           services/apiService.js (routes of the methods the
                      handlers call);
    - [KnowledgeBase] pages/KnowledgeBase.jsx (URL submission handlers and
                      the web-URL field list);
    - [Tally]         components/TallyDataFetcher.jsx (polling handlers and
                      the ledger alias expressions of TallyAnalytics);
    - [Analytics]     the TallyAnalytics component (loadTallyData,
                      handleRefresh, the ledger chart);
    - [App]           App.jsx and contexts/AuthContext.jsx (theme, session
                      restore, logout, route guards);
    - [Upload]        the stand-alone EnhancedDocumentUpload component;
    - [Backend]       the document registry, vector index and chat
                      orchestrator, which live in the Python back end;
    - [Spec]          the wording of the specification where a property
                      compares it with the code.

    React state is modelled by explicit state passing: a handler is a
    function from the component state (and the outcome of the awaited
    calls) to the next component state.  Side effects that matter for the
    properties (toasts, API calls) are appended to a log kept in the
    state. *)

From stdpp Require Import base option list strings gmap.
From Stdlib Require Import ZArith NArith DecimalString.

Set Warnings "-register-all".

(* ===================================================================== *)
(** ** JavaScript values *)
(* ===================================================================== *)

Module Js.

(** A JavaScript string is a sequence of UTF-16 code units; [length],
    [substring], [trim] and [includes] all count code units. *)
Abbreviation jsstring := (list N).

(** Code units of an ASCII literal of the source. *)
Fixpoint lit (s : string) : jsstring :=
  match s with
  | EmptyString => []
  | String a r => Ascii.N_of_ascii a :: lit r
  end.

(** Values as they come out of JSON.parse, plus [undefined].  Numbers are
    the integer-valued ones; objects are finite maps from property names
    to values. *)
Inductive JsValue : Type :=
  | JUndefined
  | JNull
  | JBool (b : bool)
  | JNum (z : Z)
  | JStr (s : jsstring)
  | JArr (l : list JsValue)
  | JObj (m : gmap string JsValue).

(** ToBoolean. *)
Definition truthy (v : JsValue) : bool :=
  match v with
  | JUndefined | JNull => false
  | JBool b => b
  | JNum z => negb (z =? 0)%Z
  | JStr s => match s with [] => false | _ :: _ => true end
  | JArr _ | JObj _ => true
  end.

(** [a || b] and [a && b] return one of their operands. *)
Definition jsOr (a b : JsValue) : JsValue := if truthy a then a else b.
Definition jsAnd (a b : JsValue) : JsValue := if truthy a then b else a.

(** [typeof v]. *)
Definition typeof (v : JsValue) : string :=
  match v with
  | JUndefined => "undefined"
  | JNull => "object"
  | JBool _ => "boolean"
  | JNum _ => "number"
  | JStr _ => "string"
  | JArr _ | JObj _ => "object"
  end.

(** [a === b].  Objects and arrays compare by reference; the handlers only
    ever compare a value of the component state with a value decoded from
    a fresh response or with a fresh string, so two structured values are
    never the same reference. *)
Definition strictEq (a b : JsValue) : bool :=
  match a, b with
  | JUndefined, JUndefined => true
  | JNull, JNull => true
  | JBool x, JBool y => Bool.eqb x y
  | JNum x, JNum y => (x =? y)%Z
  | JStr x, JStr y => bool_decide (x = y)
  | _, _ => false
  end.

Definition strictNeq (a b : JsValue) : bool := negb (strictEq a b).

(** Property read [v.k] for a name [k] that is not a built-in property of
    strings or arrays.  [None] is the TypeError raised on [null] and
    [undefined]. *)
Definition prop (v : JsValue) (k : string) : option JsValue :=
  match v with
  | JUndefined | JNull => None
  | JObj m => Some (default JUndefined (m !! k))
  | _ => Some JUndefined
  end.

(** [v.length]. *)
Definition lengthOf (v : JsValue) : option JsValue :=
  match v with
  | JUndefined | JNull => None
  | JArr l => Some (JNum (Z.of_nat (length l)))
  | JStr s => Some (JNum (Z.of_nat (length s)))
  | JObj m => Some (default JUndefined (m !! "length"))
  | _ => Some JUndefined
  end.

(** [Object.keys(v).length] for a value whose typeof is "object". *)
Definition keysLength (v : JsValue) : nat :=
  match v with
  | JArr l => length l
  | JObj m => size m
  | _ => 0
  end.

(** WhiteSpace and LineTerminator code units, the ones [trim] strips. *)
Definition isWhiteSpace (c : N) : bool :=
  ((c =? 9) || (c =? 10) || (c =? 11) || (c =? 12) || (c =? 13)
   || (c =? 32) || (c =? 160) || (c =? 5760)
   || ((8192 <=? c) && (c <=? 8202))
   || (c =? 8232) || (c =? 8233) || (c =? 8239) || (c =? 8287)
   || (c =? 12288) || (c =? 65279))%N.

Fixpoint trimStart (s : jsstring) : jsstring :=
  match s with
  | [] => []
  | c :: r => if isWhiteSpace c then trimStart r else s
  end.

Definition trimEnd (s : jsstring) : jsstring := rev (trimStart (rev s)).

Definition trim (s : jsstring) : jsstring := trimEnd (trimStart s).

(** [s.substring(0, n)]. *)
Definition substring0 (n : nat) (s : jsstring) : jsstring := take n s.

Fixpoint startsWith (s p : jsstring) : bool :=
  match p, s with
  | [], _ => true
  | _ :: _, [] => false
  | a :: p', b :: s' => (a =? b)%N && startsWith s' p'
  end.

(** [s.includes(p)]. *)
Fixpoint includes (s p : jsstring) : bool :=
  startsWith s p ||
  match s with
  | [] => false
  | _ :: s' => includes s' p
  end.

(** Decimal rendering of a non-negative integer inside a template
    literal. *)
Definition decimal (n : N) : jsstring := lit (NilZero.string_of_uint (N.to_uint n)).

(** Outcome of an awaited promise. *)
Inductive Awaited (A : Type) : Type :=
  | Resolved (a : A)
  | Rejected (err : JsValue).
Arguments Resolved {A} a.
Arguments Rejected {A} err.

(** Observable effects of a handler. *)
Inductive ToastKind := TError | TSuccess | TLoading.

Inductive Effect : Type :=
  | Toast (kind : ToastKind) (text : jsstring)
  | ToastWith (kind : ToastKind) (text : jsstring) (detail : JsValue)
  | ApiCall (endpoint : string) (args : list JsValue).

End Js.

Import Js.

(* ===================================================================== *)
(** ** pages/Chat.jsx *)
(* ===================================================================== *)

Module Chat.

(** An entry of the [messages] state.  Fields a message does not carry are
    [JUndefined]. *)
Record Message : Type := mkMessage {
  id : JsValue;
  role : JsValue;
  content : JsValue;
  created_at : JsValue;
  sources : JsValue;
  charts : JsValue;
  context_used : JsValue;
}.

(** The object stored in [currentConversation]. *)
Record Conversation : Type := mkConversation {
  conv_id : JsValue;
  conv_title : JsValue;
}.

(** State of the [Chat] component (the useState cells the handlers touch)
    together with the log of effects. *)
Record State : Type := mkState {
  messages : list Message;
  currentMessage : jsstring;
  conversations : JsValue;
  currentConversation : option Conversation;
  loading : bool;
  conversationsLoading : bool;
  chatMode : jsstring;
  effects : list Effect;
}.

Definition setMessages (f : list Message -> list Message) (s : State) : State :=
  mkState (f (messages s)) (currentMessage s) (conversations s)
    (currentConversation s) (loading s) (conversationsLoading s) (chatMode s)
    (effects s).

Definition setCurrentMessage (v : jsstring) (s : State) : State :=
  mkState (messages s) v (conversations s) (currentConversation s) (loading s)
    (conversationsLoading s) (chatMode s) (effects s).

Definition setConversations (v : JsValue) (s : State) : State :=
  mkState (messages s) (currentMessage s) v (currentConversation s) (loading s)
    (conversationsLoading s) (chatMode s) (effects s).

Definition setCurrentConversation (v : option Conversation) (s : State) : State :=
  mkState (messages s) (currentMessage s) (conversations s) v (loading s)
    (conversationsLoading s) (chatMode s) (effects s).

Definition setLoading (v : bool) (s : State) : State :=
  mkState (messages s) (currentMessage s) (conversations s)
    (currentConversation s) v (conversationsLoading s) (chatMode s) (effects s).

Definition setConversationsLoading (v : bool) (s : State) : State :=
  mkState (messages s) (currentMessage s) (conversations s)
    (currentConversation s) (loading s) v (chatMode s) (effects s).

Definition setChatMode (v : jsstring) (s : State) : State :=
  mkState (messages s) (currentMessage s) (conversations s)
    (currentConversation s) (loading s) (conversationsLoading s) v (effects s).

Definition emit (e : Effect) (s : State) : State :=
  mkState (messages s) (currentMessage s) (conversations s)
    (currentConversation s) (loading s) (conversationsLoading s) (chatMode s)
    (effects s ++ [e]).

(** Initial state of the component (the useState defaults). *)
Definition initial : State :=
  mkState [] [] (JArr []) None false true (lit "rag") [].

(** One reading of the clock: [Date.now()] and
    [new Date().toISOString()]. *)
Record Clock : Type := mkClock {
  now : N;
  iso : jsstring;
}.

(** What the environment hands to one run of [sendMessage]: the clock at
    the three places messages are built, the outcome of
    [apiService.sendMessage] and the outcome of
    [apiService.getConversations] (used when the conversation list is
    reloaded). *)
Record Env : Type := mkEnv {
  clock_temp : Clock;
  clock_user : Clock;
  clock_assistant : Clock;
  reply : Awaited JsValue;
  reloaded : Awaited JsValue;
}.

(** [loadConversations] (lines 51-63). *)
Definition loadConversations (r : Awaited JsValue) (s : State) : State :=
  let s := setConversationsLoading true s in
  let s := emit (ApiCall "getConversations" []) s in
  let s :=
    match r with
    | Resolved data =>
        let s := setConversations (jsOr data (JArr [])) s in
        if negb (truthy data)
           || match lengthOf data with
              | Some n => strictEq n (JNum 0)
              | None => false
              end
        then setChatMode (lit "general") s
        else s
    | Rejected _ => emit (Toast TError (lit "Failed to load chat history")) s
    end in
  setConversationsLoading false s.

(** The value of the local variable [chartData] after lines 110-120.
    [None] is the TypeError of reading a property of a [null] or
    [undefined] response. *)
Definition chartData (response : JsValue) : option JsValue :=
  c ← prop response "charts";
  let chartData0 :=
    if truthy c && String.eqb (typeof c) "object" then c else JNull in
  fi ← prop response "financial_insights";
  if truthy fi then
    fic ← prop fi "charts";
    Some (if truthy fic then fic else chartData0)
  else Some chartData0.

(** The guard in front of the chart block of a rendered message
    (line 377): [m.charts && typeof m.charts === 'object' &&
    Object.keys(m.charts).length > 0]. *)
Definition chartsDisplayed (m : Message) : bool :=
  truthy (charts m) && String.eqb (typeof (charts m)) "object"
  && (0 <? keysLength (charts m))%nat.

(** The guard in front of the "Used knowledge base" line (line 390). *)
Definition contextBadgeDisplayed (m : Message) : bool :=
  strictEq (role m) (JStr (lit "assistant")) && truthy (context_used m).

(** The temporary message pushed before the request (lines 89-94). *)
Definition tempMessage (env : Env) (userMessage : jsstring) : Message :=
  mkMessage (JStr (lit "temp-" ++ decimal (now (clock_temp env))))
    (JStr (lit "user")) (JStr userMessage) (JStr (iso (clock_temp env)))
    JUndefined JUndefined JUndefined.

(** The two messages appended after a response (lines 125-141).  The
    response is known not to be [null] or [undefined] at this point, so
    its properties are read with a default of [JUndefined]. *)
Definition newMessages (env : Env) (userMessage : jsstring)
    (response cd : JsValue) : list Message :=
  let get k := default JUndefined (prop response k) in
  [ mkMessage (JStr (lit "user-" ++ decimal (now (clock_user env))))
      (JStr (lit "user")) (JStr userMessage) (JStr (iso (clock_user env)))
      JUndefined JUndefined JUndefined;
    mkMessage (JStr (lit "assistant-" ++ decimal (now (clock_assistant env))))
      (JStr (lit "assistant"))
      (jsOr (get "message") (JStr (lit "No response from assistant.")))
      (JStr (iso (clock_assistant env)))
      (jsOr (get "sources") (JArr []))
      cd
      (jsOr (get "context_used") (JBool false)) ].

(** The title given to a conversation that starts with [userMessage]
    (lines 149-151). *)
Definition title (userMessage : jsstring) : jsstring :=
  substring0 50 userMessage
  ++ (if (50 <? length userMessage)%nat then lit "..." else lit "").

(** Result of running a [try] block: it either ran to its end or threw,
    in both cases leaving a state behind. *)
Inductive Outcome : Type :=
  | Done (s : State)
  | Threw (s : State).

(** [currentConversation?.id]. *)
Definition currentConversationId (s : State) : JsValue :=
  match currentConversation s with
  | Some c => conv_id c
  | None => JUndefined
  end.

(** The [try] block of [sendMessage] (lines 97-154). *)
Definition sendMessage_try (env : Env) (userMessage : jsstring)
    (tmp : Message) (s : State) : Outcome :=
  let s := emit (ApiCall "sendMessage"
                   [JStr userMessage; currentConversationId s;
                    JStr (chatMode s)]) s in
  match reply env with
  | Rejected _ => Threw s
  | Resolved response =>
      let s' := setMessages
                 (List.filter (fun msg => strictNeq (id msg) (id tmp))) s in
      match chartData response with
      | None => Threw s'
      | Some cd =>
          let s' := setMessages
                     (fun prev => prev ++ newMessages env userMessage response cd)
                     s' in
          let rid := default JUndefined (prop response "conversation_id") in
          if match currentConversation s with
             | None => true
             | Some c => strictNeq (conv_id c) rid
             end
          then
            let s' := setCurrentConversation
                        (Some (mkConversation rid (JStr (title userMessage))))
                        s' in
            Done (loadConversations (reloaded env) s')
          else Done s'
      end
  end.

(** The [catch] block of [sendMessage] (lines 155-158). *)
Definition sendMessage_catch (tmp : Message) (s : State) : State :=
  let s := emit (Toast TError (lit "Failed to send message")) s in
  setMessages (List.filter (fun msg => strictNeq (id msg) (id tmp))) s.

(** [sendMessage] (lines 80-162). *)
Definition sendMessage (env : Env) (s : State) : State :=
  if negb (truthy (JStr (trim (currentMessage s)))) || loading s then s
  else
    let userMessage := trim (currentMessage s) in
    let s := setCurrentMessage [] s in
    let s := setLoading true s in
    let tmp := tempMessage env userMessage in
    let s := setMessages (fun prev => prev ++ [tmp]) s in
    let s :=
      match sendMessage_try env userMessage tmp s with
      | Done s' => s'
      | Threw s' => sendMessage_catch tmp s'
      end in
    setLoading false s.

(** [startNewConversation] (lines 221-225); the sidebar flag is not part
    of the modelled state. *)
Definition startNewConversation (s : State) : State :=
  setMessages (fun _ => []) (setCurrentConversation None s).

(** The messages a run of [sendMessage] adds for good: the two of
    [newMessages] when the request resolves with a value whose properties
    can be read, none otherwise. *)
Definition added (env : Env) (s : State) : list Message :=
  match reply env with
  | Resolved response =>
      match chartData response with
      | Some cd => newMessages env (trim (currentMessage s)) response cd
      | None => []
      end
  | Rejected _ => []
  end.

(** The same environment with another outcome of the chat request. *)
Definition withReply (r : Awaited JsValue) (env : Env) : Env :=
  mkEnv (clock_temp env) (clock_user env) (clock_assistant env) r
    (reloaded env).

(** Sample inputs: a page on which the user typed " hello ", with one
    earlier message on screen, and the clock readings of one turn. *)
Definition sampleState : State :=
  mkState
    [mkMessage (JNum 41) (JStr (lit "assistant")) (JStr (lit "Welcome"))
       (JStr (lit "2025-01-01T00:00:00.000Z")) (JArr []) JNull (JBool false)]
    (lit " hello ") (JArr []) None false false (lit "rag") [].

Definition sampleEnv (r : Awaited JsValue) : Env :=
  mkEnv (mkClock 1700000000000 (lit "2025-01-01T00:00:01.000Z"))
    (mkClock 1700000000900 (lit "2025-01-01T00:00:01.900Z"))
    (mkClock 1700000000900 (lit "2025-01-01T00:00:01.900Z"))
    r (Resolved (JArr [])).

(** A response without charts and without [context_used]. *)
Definition plainResponse : gmap string JsValue :=
  <["message" := JStr (lit "Hi there")]> (<["conversation_id" := JNum 7]> ∅).

(** A response with charts at both places. *)
Definition chartResponse : gmap string JsValue :=
  <["charts" := JObj (<["top" := JNum 1]> ∅)]>
    (<["financial_insights" :=
         JObj (<["charts" := JObj (<["nested" := JNum 2]> ∅)]> ∅)]>
       plainResponse).

(** The guard of line 82 lets the handler run: the trimmed input is not
    empty and no request is in flight. *)
Definition accepts (s : State) : Prop :=
  trim (currentMessage s) ≠ [] ∧ loading s = false.

End Chat.

(* ===================================================================== *)
(** ** services/apiService.js: the methods the handlers call *)
(* ===================================================================== *)

Module Api.

(** Route behind each apiService method used below, as the service
    declares it. *)
Definition route (method : string) : option string :=
  if String.eqb method "processPdfUrl" then Some "/documents/process-pdf-url"
  else if String.eqb method "processGoogleDriveFile"
       then Some "/documents/process-google-drive-file"
  else if String.eqb method "processGoogleDriveFolder"
       then Some "/documents/process-google-drive-folder"
  else if String.eqb method "processMultipleSources"
       then Some "/documents/process-multiple-sources"
  else if String.eqb method "getDocuments" then Some "/documents"
  else if String.eqb method "getDocumentStats" then Some "/documents/stats"
  else if String.eqb method "sendMessage" then Some "/chat/"
  else if String.eqb method "getConversations" then Some "/chat/conversations"
  else None.

(** The methods the [ApiService] class declares, in the order of the
    source; [apiService.m] is [undefined] for any other name, and calling
    it throws. *)
Definition methods : list string :=
  ["register"; "login"; "getCurrentUser"; "uploadDocument"; "getDocuments";
   "getDocumentStats"; "analyzeFinancialExcel"; "deleteDocument";
   "processPdfUrl"; "processWebUrl"; "processGoogleDriveFile";
   "processGoogleDriveFolder"; "processWebUrlEnhanced";
   "processMultipleSources"; "previewGoogleDrive"; "previewWebEnhanced";
   "previewSource"; "sendMessage"; "getConversations";
   "getConversationMessages"; "deleteConversation"; "getChatStats";
   "testTallyConnection"; "getTallyCompanies"; "getTallyFinancialMetrics";
   "getTallyLedgers"; "getTallyVouchers"; "getTallyStockItems";
   "getTallyLiveData"; "getTallyFinancialSummary"].

Definition declared (method : string) : bool :=
  existsb (String.eqb method) methods.

(** The methods that submit a source for ingestion. *)
Definition isIngestion (method : string) : bool :=
  String.eqb method "processPdfUrl"
  || String.eqb method "processGoogleDriveFile"
  || String.eqb method "processGoogleDriveFolder"
  || String.eqb method "processMultipleSources".

(** The ingestion calls recorded in a log, in order. *)
Fixpoint ingestionCalls (log : list Effect) : list (string * list JsValue) :=
  match log with
  | [] => []
  | ApiCall m args :: r =>
      if isIngestion m then (m, args) :: ingestionCalls r
      else ingestionCalls r
  | _ :: r => ingestionCalls r
  end.

(** [error.response?.data?.detail || error.message] of a caught error.
    [error.response] is read without optional chaining: on a [null] or
    [undefined] error it throws ([None]); the two [?.] after it give
    [undefined] on a missing [response] or [data]. *)
Definition errorDetail (err : JsValue) : option JsValue :=
  response ← prop err "response";
  let get v k := default JUndefined (prop v k) in
  Some (jsOr (get (get response "data") "detail") (get err "message")).

End Api.

(* ===================================================================== *)
(** ** pages/KnowledgeBase.jsx *)
(* ===================================================================== *)

Module KnowledgeBase.

(** A position of the [webUrls] array: an empty slot left by an
    assignment past the end, [undefined] (what spreading turns an empty
    slot into), or a string. *)
Inductive Slot : Type :=
  | Hole
  | Undef
  | Url (u : jsstring).

(** State of the [KnowledgeBase] component and the log of effects. *)
Record State : Type := mkState {
  documents : JsValue;
  stats : JsValue;
  loading : bool;
  isProcessing : bool;
  fileUrl : jsstring;
  webUrls : list Slot;
  effects : list Effect;
}.

Definition setDocuments (v : JsValue) (s : State) : State :=
  mkState v (stats s) (loading s) (isProcessing s) (fileUrl s) (webUrls s)
    (effects s).

Definition setStats (v : JsValue) (s : State) : State :=
  mkState (documents s) v (loading s) (isProcessing s) (fileUrl s) (webUrls s)
    (effects s).

Definition setLoading (v : bool) (s : State) : State :=
  mkState (documents s) (stats s) v (isProcessing s) (fileUrl s) (webUrls s)
    (effects s).

Definition setIsProcessing (v : bool) (s : State) : State :=
  mkState (documents s) (stats s) (loading s) v (fileUrl s) (webUrls s)
    (effects s).

Definition setFileUrl (v : jsstring) (s : State) : State :=
  mkState (documents s) (stats s) (loading s) (isProcessing s) v (webUrls s)
    (effects s).

Definition setWebUrls (v : list Slot) (s : State) : State :=
  mkState (documents s) (stats s) (loading s) (isProcessing s) (fileUrl s) v
    (effects s).

Definition emit (e : Effect) (s : State) : State :=
  mkState (documents s) (stats s) (loading s) (isProcessing s) (fileUrl s)
    (webUrls s) (effects s ++ [e]).

(** Initial state (the useState defaults): one empty web URL field. *)
Definition initial : State :=
  mkState (JArr []) JNull true false [] [Url (lit "")] [].

(** Outcome of the two requests of [loadKnowledgeBase]; getDocumentStats
    catches its own failures and always resolves. *)
Record Reload : Type := mkReload {
  docsReply : Awaited JsValue;
  statsReply : JsValue;
}.

(** [loadKnowledgeBase] (lines 85-100). *)
Definition loadKnowledgeBase (r : Reload) (s : State) : State :=
  let s := setLoading true s in
  let s := emit (ApiCall "getDocuments" []) s in
  let s := emit (ApiCall "getDocumentStats" []) s in
  let s :=
    match docsReply r with
    | Resolved docs => setStats (statsReply r) (setDocuments docs s)
    | Rejected _ => emit (Toast TError (lit "Failed to load knowledge base")) s
    end in
  setLoading false s.

(** The branch taken by lines 136-155: the apiService method and the two
    toast texts around it. *)
Definition fileUrlBranch (fileUrl : jsstring) : string * jsstring * jsstring :=
  if includes fileUrl (lit "drive.google.com/drive/folders/") then
    ("processGoogleDriveFolder",
     lit "Processing Google Drive folder (all file types)...",
     lit "Google Drive folder processed successfully!")
  else if includes fileUrl (lit "drive.google.com/file/")
          || includes fileUrl (lit "drive.google.com/uc?id=") then
    ("processGoogleDriveFile",
     lit "Processing Google Drive file...",
     lit "File processed successfully!")
  else
    ("processPdfUrl",
     lit "Processing file...",
     lit "File processed successfully!").

(** [handleFileUrlSubmit] (lines 129-166).  [processed] is the outcome of
    the awaited processing request, [r] the outcome of the reload.  When
    building the failure text throws inside the catch block no toast is
    shown; the finally block runs all the same. *)
Definition handleFileUrlSubmit (processed : Awaited JsValue) (r : Reload)
    (s : State) : State :=
  if negb (truthy (JStr (trim (fileUrl s)))) then s
  else
    let url := fileUrl s in
    let s := setIsProcessing true s in
    let '(method, loadingText, successText) := fileUrlBranch url in
    let s := emit (Toast TLoading loadingText) s in
    let s := emit (ApiCall method [JStr url]) s in
    let s :=
      match processed with
      | Resolved _ =>
          let s := emit (Toast TSuccess successText) s in
          let s := setFileUrl (lit "") s in
          loadKnowledgeBase r s
      | Rejected err =>
          match Api.errorDetail err with
          | Some detail =>
              emit (ToastWith TError (lit "Processing failed: ") detail) s
          | None => s
          end
      end in
    setIsProcessing false s.

(** [webUrls.filter((url) => url.trim())]: empty slots are skipped, and
    calling [trim] on [undefined] throws ([None]). *)
Fixpoint validUrls (a : list Slot) : option (list jsstring) :=
  match a with
  | [] => Some []
  | Hole :: r => validUrls r
  | Undef :: _ => None
  | Url u :: r =>
      rest ← validUrls r;
      Some (if truthy (JStr (trim u)) then u :: rest else rest)
  end.

(** One element of [sources]: [{ url: url.trim(), type: "web_url" }]. *)
Definition source (url : jsstring) : JsValue :=
  JObj (<["url" := JStr (trim url)]> (<["type" := JStr (lit "web_url")]> ∅)).

(** The request body [{ sources }]. *)
Definition batchBody (urls : list jsstring) : JsValue :=
  JObj (<["sources" := JArr (source <$> urls)]> ∅).

(** [handleWebUrlsSubmit] (lines 168-183). *)
Definition handleWebUrlsSubmit (processed : Awaited JsValue) (r : Reload)
    (s : State) : State :=
  match validUrls (webUrls s) with
  | None => s
  | Some [] => s
  | Some urls =>
      let s := setIsProcessing true s in
      let s := emit (ApiCall "processMultipleSources" [batchBody urls]) s in
      let s :=
        match processed with
        | Resolved _ =>
            let s := emit (Toast TSuccess (lit "Web URLs processed!")) s in
            let s := setWebUrls [Url (lit "")] s in
            loadKnowledgeBase r s
        | Rejected err =>
            match Api.errorDetail err with
            | Some detail =>
                emit (ToastWith TError (lit "Web URL processing failed: ")
                        detail) s
            | None => s
            end
        end in
      setIsProcessing false s
  end.

(** [[...a]]: spreading copies the array and reads empty slots as
    [undefined]. *)
Definition spread (a : list Slot) : list Slot :=
  (fun x => match x with Hole => Undef | _ => x end) <$> a.

(** [a[i] = v] on an array: in range it overwrites, past the end the array
    grows to length [i + 1] and the positions in between stay empty. *)
Definition assign (a : list Slot) (i : nat) (v : Slot) : list Slot :=
  if (i <? length a)%nat then <[i := v]> a
  else a ++ replicate (i - length a) Hole ++ [v].

(** [a.filter((_, i) => i !== index)], the callback being skipped on
    empty slots; [k] is the position of the head of [a]. *)
Fixpoint filterOut (index k : nat) (a : list Slot) : list Slot :=
  match a with
  | [] => []
  | Hole :: r => filterOut index (S k) r
  | x :: r =>
      if (k =? index)%nat then filterOut index (S k) r
      else x :: filterOut index (S k) r
  end.

(** [addWebUrlField] (lines 197-199). *)
Definition addWebUrlField (s : State) : State :=
  if (length (webUrls s) <? 5)%nat
  then setWebUrls (spread (webUrls s) ++ [Url (lit "")]) s
  else s.

(** [removeWebUrlField] (lines 200-202). *)
Definition removeWebUrlField (index : nat) (s : State) : State :=
  if (1 <? length (webUrls s))%nat
  then setWebUrls (filterOut index 0 (webUrls s)) s
  else s.

(** [updateWebUrl] (lines 203-207). *)
Definition updateWebUrl (index : nat) (value : jsstring) (s : State) : State :=
  let newUrls := spread (webUrls s) in
  let newUrls := assign newUrls index (Url value) in
  setWebUrls newUrls s.

(** The operations on the web URL fields. *)
Inductive Op : Type :=
  | Add
  | Remove (index : nat)
  | Update (index : nat) (value : jsstring)
  | Submit (processed : Awaited JsValue) (r : Reload).

Definition apply (o : Op) (s : State) : State :=
  match o with
  | Add => addWebUrlField s
  | Remove i => removeWebUrlField i s
  | Update i v => updateWebUrl i v s
  | Submit p r => handleWebUrlsSubmit p r s
  end.

(** The page calls [removeWebUrlField] and [updateWebUrl] with the index of
    a rendered field (lines 401-425): a position of the current array. *)
Definition rendered (o : Op) (s : State) : bool :=
  match o with
  | Remove i | Update i _ => (i <? length (webUrls s))%nat
  | Add | Submit _ _ => true
  end.

(** Running a sequence of operations, each checked against the state it
    is issued in; [None] when one of them names a field that is not
    rendered. *)
Fixpoint run (ops : list Op) (s : State) : option State :=
  match ops with
  | [] => Some s
  | o :: r => if rendered o s then run r (apply o s) else None
  end.

(** The array holds strings only, as it does on the page. *)
Definition allUrls (a : list Slot) : Prop :=
  Forall (fun x => match x with Url _ => True | _ => False end) a.

(** What the operations keep true of the page. *)
Definition fieldsOk (s : State) : Prop :=
  allUrls (webUrls s) /\ 1 <= length (webUrls s) <= 5.

(** Sample inputs: a Google Drive file link typed into the file URL
    field, and three web URL fields of which the second is blank. *)
Definition sampleState : State :=
  mkState (JArr []) JNull false false
    (lit "https://drive.google.com/file/d/abc/view")
    [Url (lit " https://a.example/x "); Url (lit "   ");
     Url (lit "https://b.example")]
    [].

Definition sampleReload : Reload := mkReload (Resolved (JArr [])) JNull.

(** Sample errors: what axios rejects with when the server cannot be
    reached (no [response]), and when the server answers with a detail. *)
Definition networkError : JsValue :=
  JObj (<["message" := JStr (lit "Network Error")]> ∅).

Definition serverError : JsValue :=
  JObj (<["message" := JStr (lit "Request failed with status code 400")]>
          (<["response" :=
               JObj (<["data" :=
                         JObj (<["detail" := JStr (lit "Unsupported link")]> ∅)]>
                       ∅)]> ∅)).

End KnowledgeBase.

(* ===================================================================== *)
(** ** components/TallyDataFetcher.jsx *)
(* ===================================================================== *)

Module Tally.

(** What a fetch was started by: the call in [startDataFetching] or the
    callback of the interval timer with the given handle. *)
Inductive Origin : Type :=
  | Initial
  | Periodic (timer : nat).

(** Observable actions of the component. *)
Inductive Action : Type :=
  | ShowMessage (text : jsstring) (type : string)
  | ShowMessageWith (text : jsstring) (detail : JsValue) (type : string)
  | Fetch (o : Origin)
  | SetInterval (timer : nat) (seconds : Z)
  | ClearInterval (timer : nat).

(** State of the [TallyDataFetcher] component, the part of the browser it
    drives (the live interval timers) and the asynchronous calls that are
    suspended at an [await].  The cells no handler reads
    (connectionDetails, lastUpdated, loading and the banner text) are left
    out; the banner is observed through the [ShowMessage] actions. *)
Record State : Type := mkState {
  isConnected : bool;
  isDataFetching : bool;
  realTimeData : JsValue;
  refreshInterval : Z;
  intervalRef : option nat;
  timers : list nat;
  nextTimer : nat;
  startsAwaiting : list Z;
  ticksAwaiting : nat;
  actions : list Action;
}.

Definition setIsConnected (v : bool) (s : State) : State :=
  mkState v (isDataFetching s) (realTimeData s) (refreshInterval s)
    (intervalRef s) (timers s) (nextTimer s) (startsAwaiting s)
    (ticksAwaiting s) (actions s).

Definition setIsDataFetching (v : bool) (s : State) : State :=
  mkState (isConnected s) v (realTimeData s) (refreshInterval s)
    (intervalRef s) (timers s) (nextTimer s) (startsAwaiting s)
    (ticksAwaiting s) (actions s).

Definition setRealTimeData (v : JsValue) (s : State) : State :=
  mkState (isConnected s) (isDataFetching s) v (refreshInterval s)
    (intervalRef s) (timers s) (nextTimer s) (startsAwaiting s)
    (ticksAwaiting s) (actions s).

Definition setIntervalRef (v : option nat) (s : State) : State :=
  mkState (isConnected s) (isDataFetching s) (realTimeData s)
    (refreshInterval s) v (timers s) (nextTimer s) (startsAwaiting s)
    (ticksAwaiting s) (actions s).

Definition setTimers (v : list nat) (n : nat) (s : State) : State :=
  mkState (isConnected s) (isDataFetching s) (realTimeData s)
    (refreshInterval s) (intervalRef s) v n (startsAwaiting s)
    (ticksAwaiting s) (actions s).

Definition setAwaiting (starts : list Z) (ticks : nat) (s : State) : State :=
  mkState (isConnected s) (isDataFetching s) (realTimeData s)
    (refreshInterval s) (intervalRef s) (timers s) (nextTimer s) starts ticks
    (actions s).

Definition act (a : Action) (s : State) : State :=
  mkState (isConnected s) (isDataFetching s) (realTimeData s)
    (refreshInterval s) (intervalRef s) (timers s) (nextTimer s)
    (startsAwaiting s) (ticksAwaiting s) (actions s ++ [a]).

(** Initial state (the useState and useRef defaults).  Timer handles are
    positive integers. *)
Definition initial : State :=
  mkState false false JNull 30 None [] 1 [] 0 [].

(** [showMessage] (lines 17-21); the delayed clearing of the banner is
    not part of the model. *)
Definition showMessage (text : jsstring) (type : string) (s : State) : State :=
  act (ShowMessage text type) s.

(** [fetchTallyData] (lines 23-39), up to its [await]. *)
Definition fetchTallyData_call (o : Origin) (s : State) : State :=
  act (Fetch o) s.

(** [fetchTallyData] from its [await] on, [r] being the outcome of
    [apiService.getTallyLiveData()]. *)
Definition fetchTallyData_resume (r : Awaited JsValue) (s : State) : State :=
  let lost s :=
    showMessage ([10060%N] ++ lit " Lost connection to Tally") "error"
      (setIsConnected false s) in
  match r with
  | Rejected _ => lost s
  | Resolved response =>
      match prop response "success" with
      | None => lost s
      | Some ok =>
          if truthy ok
          then setRealTimeData (default JUndefined (prop response "data")) s
          else showMessage ([9888%N; 65039%N] ++ lit " Data fetch failed") "warning"
                 (setIsConnected false s)
      end
  end.

(** [clearInterval(t)]. *)
Definition clearInterval (t : nat) (s : State) : State :=
  act (ClearInterval t)
    (setTimers (List.filter (fun u => negb (u =? t)%nat) (timers s))
       (nextTimer s) s).

(** [setInterval(callback, seconds * 1000)]: registers a new live timer
    and returns its handle. *)
Definition setInterval (seconds : Z) (s : State) : nat * State :=
  let t := nextTimer s in
  (t, act (SetInterval t seconds) (setTimers (timers s ++ [t]) (S t) s)).

(** [stopDataFetching] (lines 41-48). *)
Definition stopDataFetching (s : State) : State :=
  let s :=
    match intervalRef s with
    | Some t =>
        if negb (t =? 0)%nat
        then setIntervalRef None (clearInterval t s)
        else s
    | None => s
    end in
  let s := setIsDataFetching false s in
  showMessage ([9209%N; 65039%N] ++ lit " Stopped real-time data fetching") "info" s.

(** [startDataFetching] (lines 50-64), up to its [await]: the call is
    recorded as suspended together with the [refreshInterval] it
    captured. *)
Definition startDataFetching_call (s : State) : State :=
  if negb (isConnected s) then
    showMessage ([9888%N; 65039%N] ++ lit " Please connect to Tally first")
      "warning" s
  else
    let s := setIsDataFetching true s in
    let s := showMessage ([55357%N; 56580%N] ++ lit " Started real-time data fetching")
               "success" s in
    let s := fetchTallyData_call Initial s in
    setAwaiting (startsAwaiting s ++ [refreshInterval s]) (ticksAwaiting s) s.

(** [startDataFetching] from its [await] on: the awaited fetch finishes,
    then the interval timer is created and stored in [intervalRef]. *)
Definition startDataFetching_resume (k : nat) (r : Awaited JsValue)
    (s : State) : State :=
  match startsAwaiting s !! k with
  | None => s
  | Some seconds =>
      let s := setAwaiting (delete k (startsAwaiting s)) (ticksAwaiting s) s in
      let s := fetchTallyData_resume r s in
      let '(t, s) := setInterval seconds s in
      setIntervalRef (Some t) s
  end.

(** The callback of the interval timer [t] (lines 61-63). *)
Definition tick (t : nat) (s : State) : State :=
  if bool_decide (t ∈ timers s) then
    let s := fetchTallyData_call (Periodic t) s in
    setAwaiting (startsAwaiting s) (S (ticksAwaiting s)) s
  else s.

Definition tick_resume (r : Awaited JsValue) (s : State) : State :=
  match ticksAwaiting s with
  | O => s
  | S n =>
      fetchTallyData_resume r (setAwaiting (startsAwaiting s) n s)
  end.

(** An error object made by the engine (a property read of [null], a
    call of a method the object does not have); the text of its message
    is not modelled and reads as [JUndefined]. *)
Definition typeError : JsValue := JObj ∅.

(** [connectToTally] (lines 73-108), [r] being the outcome of the awaited
    connection request.  Reading [success] of a [null] response throws
    inside the [try]; reading [message] of a [null] error throws inside
    the [catch], before anything is shown or set. *)
Definition connectToTally (r : Awaited JsValue) (s : State) : State :=
  let thrown err s :=
    match prop err "message" with
    | Some message =>
        setIsConnected false
          (act (ShowMessageWith ([10060%N] ++ lit " Connection error: ")
                  message "error") s)
    | None => s
    end in
  match r with
  | Rejected err => thrown err s
  | Resolved response =>
      match prop response "success" with
      | None => thrown typeError s
      | Some ok =>
          if truthy ok
          then showMessage ([9989%N] ++ lit " Connected to Tally successfully!")
                 "success" (setIsConnected true s)
          else setIsConnected false
                 (act (ShowMessageWith ([10060%N] ++ lit " Connection failed: ")
                         (default JUndefined (prop response "error")) "error") s)
      end
  end.

(** [disconnectFromTally] (lines 110-120). *)
Definition disconnectFromTally (r : Awaited JsValue) (s : State) : State :=
  match r with
  | Resolved _ =>
      let s := setIsConnected false s in
      let s := stopDataFetching s in
      showMessage ([55357%N; 56588%N] ++ lit " Disconnected from Tally") "info" s
  | Rejected err =>
      match prop err "message" with
      | Some message =>
          act (ShowMessageWith ([10060%N] ++ lit " Disconnect error: ")
                 message "error") s
      | None => s
      end
  end.

(** What can happen to the component: a handler is invoked, a timer
    fires, or an awaited request settles. *)
Inductive Event : Type :=
  | Connect (r : Awaited JsValue)
  | Disconnect (r : Awaited JsValue)
  | CallStart
  | StartFetchSettles (k : nat) (r : Awaited JsValue)
  | CallStop
  | Tick (t : nat)
  | TickFetchSettles (r : Awaited JsValue).

Definition step (e : Event) (s : State) : State :=
  match e with
  | Connect r => connectToTally r s
  | Disconnect r => disconnectFromTally r s
  | CallStart => startDataFetching_call s
  | StartFetchSettles k r => startDataFetching_resume k r s
  | CallStop => stopDataFetching s
  | Tick t => tick t s
  | TickFetchSettles r => tick_resume r s
  end.

Definition run (es : list Event) (s : State) : State :=
  foldl (fun st e => step e st) s es.

(** *** TallyAnalytics: the ledger alias expressions *)

(** A ledger record as received from the accounting system. *)
Abbreviation Ledger := (gmap string JsValue).

(** [l.k] on a record. *)
Definition field (l : Ledger) (k : string) : JsValue :=
  default JUndefined (l !! k).

(** [ledger.opening_balance || ledger.balance || 0]: the expression passed
    to parseFloat for the table and the chart (lines 595 and 789) and
    interpolated into the CSV export (line 557). *)
Definition ledgerBalance (l : Ledger) : JsValue :=
  jsOr (jsOr (field l "opening_balance") (field l "balance")) (JNum 0).

(** [ledger.parent || ledger.group || 'N/A'] (lines 557 and 796). *)
Definition ledgerGroup (l : Ledger) : JsValue :=
  jsOr (jsOr (field l "parent") (field l "group")) (JStr (lit "N/A")).

(** [ledger.name || ledger.ledger_name || 'N/A'] (line 793). *)
Definition ledgerName (l : Ledger) : JsValue :=
  jsOr (jsOr (field l "name") (field l "ledger_name")) (JStr (lit "N/A")).

(** At most one interval timer is live, and it is the one [intervalRef]
    holds; timer handles are positive. *)
Definition tidy (s : State) : Prop :=
  match intervalRef s with
  | None => timers s = []
  | Some t => t <> 0 /\ timers s = [t]
  end
  /\ nextTimer s <> 0.

(** A request resolved with a response whose [success] is truthy. *)
Definition succeeded (r : Awaited JsValue) : bool :=
  match r with
  | Resolved response =>
      match prop response "success" with
      | Some ok => truthy ok
      | None => false
      end
  | Rejected _ => false
  end.

(** An event is a successful connection: [connectToTally] whose request
    resolved with a truthy [success]. *)
Definition connects (e : Event) : Prop :=
  exists response ok,
    e = Connect (Resolved response)
    /\ prop response "success" = Some ok /\ truthy ok = true.

(** An awaited request that ended in the handler's [catch]. *)
Definition rejected {A : Type} (r : Awaited A) : bool :=
  match r with
  | Rejected _ => true
  | Resolved _ => false
  end.

(** The events the page can receive with the service as it is shipped.
    A request made through a method the service does not declare throws
    inside the [try] of its handler, so it always ends as a rejection;
    this is the case of [connectTallyOdbc] (line 86) and
    [disconnectTallyOdbc] (line 112).  The other events are not
    restricted. *)
Definition shipped (e : Event) : bool :=
  match e with
  | Connect r => Api.declared "connectTallyOdbc" || rejected r
  | Disconnect r => Api.declared "disconnectTallyOdbc" || rejected r
  | CallStart | StartFetchSettles _ _ | CallStop | Tick _
  | TickFetchSettles _ => true
  end.




(** Sample inputs: a successful reply of the accounting service, a ledger
    whose opening balance is zero and a ledger whose parent is empty. *)
Definition okReply : JsValue :=
  JObj (<["success" := JBool true]> (<["data" := JObj ∅]> ∅)).

Definition failedReply : JsValue :=
  JObj (<["success" := JBool false]> ∅).

Definition zeroOpeningLedger : Ledger :=
  <["name" := JStr (lit "Cash")]>
    (<["opening_balance" := JNum 0]> (<["balance" := JNum 500]> ∅)).

Definition emptyParentLedger : Ledger :=
  <["name" := JStr (lit "Cash")]>
    (<["parent" := JStr (lit "")]> (<["group" := JStr (lit "Assets")]> ∅)).

End Tally.

(* ===================================================================== *)
(** ** The back end: document registry, vector index, chat orchestrator *)
(* ===================================================================== *)

Module Backend.

(** Modelled from the spec: the processing status of a Document (section
    3: pending, processing, completed or failed); the Python back end that
    implements it is not among the sources. *)
Inductive Status : Type :=
  | Pending
  | Processing
  | Completed
  | Failed.

(** Modelled from the spec: the origin type of a Document (section 3). *)
Inductive OriginType : Type :=
  | Upload
  | PdfUrl
  | WebUrl
  | DriveFile
  | DriveFolder.

(** Modelled from the spec: Document metadata kept by the Document
    Registry (section 3). *)
Record Document : Type := mkDocument {
  origin : OriginType;
  name : string;
  status : Status;
  chunk_count : nat;
  failure_reason : option string;
}.

(** Modelled from the spec: a Chunk of the Vector Index (section 3): its
    identifier, its owning document, its sequence index and its text. *)
Record Chunk : Type := mkChunk {
  chunk_id : nat;
  document_id : nat;
  sequence : nat;
  text : string;
}.

(** Modelled from the spec: a persisted Message of a conversation
    (section 3), with the error marker of section 4.7. *)
Record Message : Type := mkMessage {
  from_user : bool;
  body : string;
  cited : list Chunk;
  error_marker : bool;
}.

(** Modelled from the spec: the stores the back-end components own: the
    Document Registry, the Vector Index and the Conversation Manager's
    message logs. *)
Record Store : Type := mkStore {
  registry : gmap nat Document;
  index : list Chunk;
  conversations : gmap nat (string * list Message);
  nextDocument : nat;
  nextChunk : nat;
  nextConversation : nat;
}.

(** Modelled from the spec: the empty system. *)
Definition empty : Store := mkStore ∅ [] ∅ 0 0 0.

(** Modelled from the spec: the Chunker of section 4.3, passages of
    [size] characters whose starts are [stride] apart ([stride] is the
    passage length minus the overlap); [fuel] bounds the number of
    passages. *)
Fixpoint passages (fuel size stride : nat) (t : string) : list string :=
  match fuel with
  | O => []
  | S fuel' =>
      if (String.length t =? 0)%nat then []
      else
        String.substring 0 size t ::
          (if (String.length t <=? size)%nat then []
           else passages fuel' size stride
                  (String.substring stride (String.length t - stride) t))
  end.

(** Modelled from the spec: the chunker on a whole text, with passage
    length [size] and overlap [overlap]. *)
Definition chunker (size overlap : nat) (t : string) : list string :=
  passages (String.length t) size (size - overlap) t.

(** Modelled from the spec: the chunks of document [d] made from a list
    of passages, numbered from sequence index 0 and given fresh
    identifiers from [c] on. *)
Fixpoint chunksOf (d c k : nat) (ps : list string) : list Chunk :=
  match ps with
  | [] => []
  | p :: r => mkChunk c d k p :: chunksOf d (S c) (S k) r
  end.

(** Modelled from the spec: [delete_by_document] of the Vector Index
    (section 4.5). *)
Definition delete_by_document (d : nat) (ix : list Chunk) : list Chunk :=
  List.filter (fun c => negb (document_id c =? d)%nat) ix.

(** Modelled from the spec: Document Registry create (section 4.4): a new
    Document starts pending with no chunks. *)
Definition create (o : OriginType) (n : string) (st : Store) : Store :=
  mkStore (<[nextDocument st := mkDocument o n Pending 0 None]> (registry st))
    (index st) (conversations st) (S (nextDocument st)) (nextChunk st)
    (nextConversation st).

(** Modelled from the spec: a registry update of one document. *)
Definition update (d : nat) (f : Document -> Document) (st : Store) : Store :=
  mkStore (alter f d (registry st)) (index st) (conversations st)
    (nextDocument st) (nextChunk st) (nextConversation st).

(** Modelled from the spec: pending to processing. *)
Definition begin (d : nat) (st : Store) : Store :=
  match registry st !! d with
  | Some doc =>
      match status doc with
      | Pending =>
          update d (fun x => mkDocument (origin x) (name x) Processing
                               (chunk_count x) (failure_reason x)) st
      | _ => st
      end
  | None => st
  end.

(** Modelled from the spec: the end of ingestion of a processing document
    whose extraction produced [extracted] (sections 3, 4.2 and 4.3): an
    extraction error or an extraction yielding no passage moves the
    document to failed; otherwise its chunks enter the index and it
    becomes completed with their number as chunk count. *)
Definition ingest (size overlap d : nat) (extracted : option string)
    (st : Store) : Store :=
  match registry st !! d with
  | Some doc =>
      match status doc with
      | Processing =>
          let fail reason :=
            update d (fun x => mkDocument (origin x) (name x) Failed 0
                                 (Some reason)) st in
          match extracted with
          | None => fail "extraction failed"
          | Some t =>
              match chunker size overlap t with
              | [] => fail "no usable text"
              | ps =>
                  mkStore
                    (alter (fun x => mkDocument (origin x) (name x) Completed
                                       (length ps) None) d (registry st))
                    (index st ++ chunksOf d (nextChunk st) 0 ps)
                    (conversations st) (nextDocument st)
                    (nextChunk st + length ps) (nextConversation st)
              end
          end
      | _ => st
      end
  | None => st
  end.

(** Modelled from the spec: Document Registry delete (section 4.4), which
    removes the document's chunks from the Vector Index together with the
    registry entry. *)
Definition delete_document (d : nat) (st : Store) : Store :=
  mkStore (delete d (registry st)) (delete_by_document d (index st))
    (conversations st) (nextDocument st) (nextChunk st) (nextConversation st).

(** Modelled from the spec: the operations on documents. *)
Inductive Command : Type :=
  | Create (o : OriginType) (n : string)
  | Begin (d : nat)
  | Ingest (d : nat) (extracted : option string)
  | Delete (d : nat).

(** Modelled from the spec: one operation, for a chunker configured with
    passage length [size] and overlap [overlap]. *)
Definition exec (size overlap : nat) (c : Command) (st : Store) : Store :=
  match c with
  | Create o n => create o n st
  | Begin d => begin d st
  | Ingest d e => ingest size overlap d e st
  | Delete d => delete_document d st
  end.

(** Modelled from the spec: a history of operations from the empty
    system. *)
Definition history (size overlap : nat) (cs : list Command) : Store :=
  foldl (fun st c => exec size overlap c st) empty cs.

(** Modelled from the spec: the number of chunks of an index that
    reference document [d]. *)
Definition referencing (d : nat) (ix : list Chunk) : nat :=
  length (List.filter (fun c => (document_id c =? d)%nat) ix).

(** Modelled from the spec: the number of chunks of the Vector Index
    that reference document [d]. *)
Definition chunksReferencing (d : nat) (st : Store) : nat :=
  referencing d (index st).

(** Modelled from the spec: the registry and the index agree: every chunk
    belongs to a completed document of the registry (exclusive ownership,
    no orphan chunk), and a completed document has as many chunks in the
    index as its chunk count says, at least one. *)
Definition consistent (st : Store) : Prop :=
  (forall d, nextDocument st <= d -> registry st !! d = None)
  /\ (forall c, c ∈ index st ->
        exists doc, registry st !! document_id c = Some doc
                    /\ status doc = Completed)
  /\ (forall d doc, registry st !! d = Some doc -> status doc = Completed ->
        chunk_count doc = chunksReferencing d st /\ 1 <= chunk_count doc).

(** Modelled from the spec: every registered identifier is below the next
    identifier to be handed out. *)
Definition fresh (st : Store) : Prop :=
  forall d, nextDocument st <= d -> registry st !! d = None.

(** Modelled from the spec: how ingestion of one source ends, given what
    its extraction produced: completed when there is at least one passage,
    failed otherwise. *)
Definition outcome (size overlap : nat) (extracted : option string) : Status :=
  match extracted with
  | None => Failed
  | Some t =>
      match chunker size overlap t with
      | [] => Failed
      | _ :: _ => Completed
      end
  end.

(** Modelled from the spec: the single-source path of sections 4.1 to
    4.4: a Document is created for the source, taken into processing and
    ends completed or failed with what [extract] returns for it (None: the
    source is unreachable, unsupported or yields an extraction error). *)
Definition submit (size overlap : nat) (extract : string -> option string)
    (src : OriginType * string) (st : Store) : Store :=
  let d := nextDocument st in
  ingest size overlap d (extract src.2) (begin d (create src.1 src.2 st)).

(** Modelled from the spec: a batch submission, a thin fan-out over the
    single-source path (section 4.1). *)
Definition submitBatch (size overlap : nat) (extract : string -> option string)
    (srcs : list (OriginType * string)) (st : Store) : Store :=
  foldl (fun acc src => submit size overlap extract src acc) st srcs.

(** Modelled from the spec: chat mode, a per-request flag (section 4.6). *)
Inductive Mode : Type :=
  | General
  | Rag.

(** Modelled from the spec: the chat request of section 6. *)
Record Request : Type := mkRequest {
  message : string;
  conversation_id : option nat;
  mode : Mode;
}.

(** Modelled from the spec: what the model is invoked with (section 4.7):
    conversation history, retrieved context and the message. *)
Record Prompt : Type := mkPrompt {
  past : list Message;
  context : list Chunk;
  question : string;
}.

(** Modelled from the spec: the chat response of section 6; a failed
    request carries no assistant message. *)
Record Response : Type := mkResponse {
  answer : Message;
  sources : list Chunk;
  conversation : nat;
  context_used : bool;
}.

(** Modelled from the spec: whether at least one document is completed. *)
Definition hasCompleted (st : Store) : bool :=
  existsb (fun entry => match status entry.2 with Completed => true | _ => false end)
    (map_to_list (registry st)).

(** Modelled from the spec: the title of a conversation, the truncated
    first user message. *)
Definition titleOf (m : string) : string := String.substring 0 50 m.

(** Modelled from the spec: the Chat Orchestrator of section 4.7.
    [model] is the language model (None: the invocation fails) and
    [retrieve] the Retriever's answer for a message. *)
Definition orchestrate (model : Prompt -> option string)
    (retrieve : list Chunk -> string -> list Chunk)
    (req : Request) (st : Store) : Response * Store :=
  let cid := default (nextConversation st) (conversation_id req) in
  let log := default (titleOf (message req), []) (conversations st !! cid) in
  let found :=
    match mode req with
    | Rag => if hasCompleted st then retrieve (index st) (message req) else []
    | General => []
    end in
  let asked := mkMessage true (message req) [] false in
  let reply :=
    match model (mkPrompt log.2 found (message req)) with
    | Some t => mkMessage false t found false
    | None => mkMessage false "The assistant could not answer." [] true
    end in
  (mkResponse reply found cid (match found with [] => false | _ :: _ => true end),
   mkStore (registry st) (index st)
     (<[cid := (log.1, log.2 ++ [asked; reply])]> (conversations st))
     (nextDocument st) (nextChunk st)
     (if bool_decide (cid = nextConversation st) then S cid
      else nextConversation st)).

(** Modelled from the spec: a sample history: an upload that is ingested
    and a web page whose extraction fails. *)
Definition sampleHistory : list Command :=
  [Create Upload "notes.txt"; Begin 0;
   Ingest 0 (Some "revenue grew while expenses fell"); Create WebUrl "http://x";
   Begin 1; Ingest 1 None].

(** Modelled from the spec: a sample extractor for which only
    "http://down" is unreachable. *)
Definition sampleExtract (url : string) : option string :=
  if String.eqb url "http://down" then None else Some "some page text".

(** Modelled from the spec: a sample model that always answers. *)
Definition sampleModel (p : Prompt) : option string := Some "An answer.".

(** Modelled from the spec: a sample retriever returning the whole
    index. *)
Definition sampleRetrieve (ix : list Chunk) (m : string) : list Chunk := ix.

(** Modelled from the spec: a sample history that leaves documents but no
    completed one: a web page whose extraction fails and an upload that is
    still pending. *)
Definition failedHistory : list Command :=
  [Create WebUrl "http://x"; Begin 0; Ingest 0 None; Create Upload "notes.txt"].

(** Modelled from the spec: a sample model whose invocation fails. *)
Definition failingModel (p : Prompt) : option string := None.

(** Modelled from the spec: a sample retriever that finds a passage
    whatever the index holds. *)
Definition eagerRetrieve (ix : list Chunk) (m : string) : list Chunk :=
  [mkChunk 7 7 0 "a passage"].

End Backend.

(* ===================================================================== *)
(** ** TallyAnalytics (second component of the Tally file) *)
(* ===================================================================== *)

Module Analytics.

(** The Tally methods of apiService (getTallyLedgers, getTallyVouchers
    and getTallyFinancialMetrics, lines 480-521 of the bundle that holds
    the service): each catches a failed request and answers with a fixed
    fallback, so it always resolves.  [http] is the outcome of the request,
    already reduced to [response.data]. *)
Definition getTallyLedgers (http : Awaited JsValue) : JsValue :=
  match http with
  | Resolved data => data
  | Rejected _ =>
      JObj (<["status" := JStr (lit "error")]> (<["ledgers" := JArr []]> ∅))
  end.

Definition getTallyVouchers (http : Awaited JsValue) : JsValue :=
  match http with
  | Resolved data => data
  | Rejected _ =>
      JObj (<["status" := JStr (lit "error")]> (<["vouchers" := JArr []]> ∅))
  end.

Definition getTallyFinancialMetrics (http : Awaited JsValue) : JsValue :=
  match http with
  | Resolved data => data
  | Rejected _ =>
      JObj (<["success" := JBool false]>
              (<["data" :=
                   JObj (<["totalRevenue" := JNum 0]>
                           (<["totalExpenses" := JNum 0]>
                              (<["netProfit" := JNum 0]>
                                 (<["cashBalance" := JNum 0]> ∅))))]> ∅))
  end.

(** State of the [TallyAnalytics] component (the cells [loadTallyData]
    and [handleRefresh] read or write) and the log of effects. *)
Record State : Type := mkState {
  loading : bool;
  refreshing : bool;
  financialData : JsValue;
  ledgers : JsValue;
  vouchers : JsValue;
  dataSource : JsValue;
  selectedCompany : JsValue;
  dateFrom : JsValue;
  dateTo : JsValue;
  effects : list Effect;
}.

Definition setLoading (v : bool) (s : State) : State :=
  mkState v (refreshing s) (financialData s) (ledgers s) (vouchers s)
    (dataSource s) (selectedCompany s) (dateFrom s) (dateTo s) (effects s).

Definition setRefreshing (v : bool) (s : State) : State :=
  mkState (loading s) v (financialData s) (ledgers s) (vouchers s)
    (dataSource s) (selectedCompany s) (dateFrom s) (dateTo s) (effects s).

(** The four setters of lines 501-504. *)
Definition setData (l v m src : JsValue) (s : State) : State :=
  mkState (loading s) (refreshing s) m l v src (selectedCompany s)
    (dateFrom s) (dateTo s) (effects s).

Definition emit (e : Effect) (s : State) : State :=
  mkState (loading s) (refreshing s) (financialData s) (ledgers s)
    (vouchers s) (dataSource s) (selectedCompany s) (dateFrom s) (dateTo s)
    (effects s ++ [e]).

(** Initial state (the useState defaults). *)
Definition initial : State :=
  mkState true false JNull (JArr []) (JArr []) (JStr (lit "unknown"))
    (JStr (lit "")) (JStr (lit "20240401")) (JStr (lit "20250331")) [].

(** [v?.k]. *)
Definition optional (v : JsValue) (k : string) : JsValue :=
  match v with
  | JUndefined | JNull => JUndefined
  | _ => default JUndefined (prop v k)
  end.

(** [Array.isArray(v)]. *)
Definition isArray (v : JsValue) : bool :=
  match v with JArr _ => true | _ => false end.

(** The list taken out of a result (lines 462-480, with [key] "ledgers"
    or "vouchers"): [result.key], else [result.data?.key], else
    [result.data] when it is an array, else the empty array.  [None] is
    the TypeError of reading a property of a [null] result. *)
Definition extractList (key : string) (result : JsValue) : option JsValue :=
  top ← prop result key;
  if truthy top then Some top
  else
    data ← prop result "data";
    if truthy (optional data key) then Some (optional data key)
    else if isArray data then Some data
    else Some (JArr []).

(** The metrics and their source taken out of a result (lines
    482-497). *)
Definition extractMetrics (result : JsValue) : option (JsValue * JsValue) :=
  status ← prop result "status";
  success ← prop result "success";
  if truthy (jsOr (JBool (strictEq status (JStr (lit "success")))) success) then
    let get k := default JUndefined (prop result k) in
    let live := JStr (lit "tally_live") in
    if truthy (get "metrics") then
      Some (get "metrics", jsOr (get "data_source") live)
    else if truthy (optional (get "data") "metrics") then
      Some (optional (get "data") "metrics",
            jsOr (jsOr (optional (get "data") "data_source")
                    (get "data_source")) live)
    else if truthy (get "data") && String.eqb (typeof (get "data")) "object" then
      Some (get "data", jsOr (get "data_source") live)
    else Some (JNull, JStr (lit "unknown"))
  else Some (JNull, JStr (lit "unknown")).

(** The parameters of the three requests (lines 446-458). *)
Definition companyParams (s : State) : JsValue :=
  JObj (<["company_name" := selectedCompany s]> ∅).

Definition voucherParams (s : State) : JsValue :=
  JObj (<["company_name" := selectedCompany s]>
          (<["from_date" := dateFrom s]> (<["to_date" := dateTo s]> ∅))).

(** The body of the [try] block of [loadTallyData] once the three
    requests have settled (lines 460-513); [None] when it throws. *)
Definition loadTallyData_try (l v m : Awaited JsValue) (s : State)
    : option State :=
  ledgersData ← extractList "ledgers" (getTallyLedgers l);
  vouchersData ← extractList "vouchers" (getTallyVouchers v);
  '(metrics, source) ← extractMetrics (getTallyFinancialMetrics m);
  let s := setData ledgersData vouchersData metrics source s in
  Some (if strictEq source (JStr (lit "demo"))
        then emit (Toast TSuccess
                     (lit "Using demo data. Connect Tally for real data.")) s
        else if truthy metrics
             then emit (Toast TSuccess (lit "Financial data loaded successfully")) s
             else s).

(** [loadTallyData] (lines 434-521); [l], [v] and [m] are the outcomes
    of the three requests. *)
Definition loadTallyData (l v m : Awaited JsValue) (s : State) : State :=
  let s := setLoading true s in
  let s :=
    if negb (truthy (selectedCompany s))
    then emit (Toast TError (lit "Please select a company")) s
    else
      let s := emit (ApiCall "getTallyLedgers" [companyParams s]) s in
      let s := emit (ApiCall "getTallyVouchers" [voucherParams s]) s in
      let s := emit (ApiCall "getTallyFinancialMetrics" [companyParams s]) s in
      match loadTallyData_try l v m s with
      | Some s' => s'
      | None => emit (Toast TError (lit "Failed to load Tally data")) s
      end in
  setLoading false s.

(** [handleRefresh] (lines 523-528). *)
Definition handleRefresh (l v m : Awaited JsValue) (s : State) : State :=
  let s := setRefreshing true s in
  let s := loadTallyData l v m s in
  let s := setRefreshing false s in
  emit (Toast TSuccess (lit "Data refreshed successfully")) s.

(** The test of the filter of [topLedgers] (line 591):
    [l && (l.name || l.ledger_name)]. *)
Definition named (l : JsValue) : bool :=
  truthy l
  && truthy (jsOr (default JUndefined (prop l "name"))
               (default JUndefined (prop l "ledger_name"))).

(** The ledgers charted by [topLedgers] (lines 590-592), before each is
    mapped to its name and balance: [ledgers.filter(...).slice(0, 10)]. *)
Definition topLedgers (ledgers : list JsValue) : list JsValue :=
  take 10 (List.filter named ledgers).

(** Sample inputs: a page with a company selected and earlier data on
    screen. *)
Definition sampleState : State :=
  mkState false false (JObj (<["revenue" := JNum 100]> ∅))
    (JArr [JObj (<["name" := JStr (lit "Cash")]> ∅)]) (JArr [])
    (JStr (lit "tally_live")) (JStr (lit "Acme Co"))
    (JStr (lit "20240401")) (JStr (lit "20250331")) [].

End Analytics.

(* ===================================================================== *)
(** ** App.jsx and contexts/AuthContext.jsx *)
(* ===================================================================== *)

Module App.

(** localStorage: string keys to string values. *)
Abbreviation Storage := (gmap string (list N)).

(** The value of the [darkMode] cell: a boolean, or [undefined] (None)
    when it was initialised on a browser without [window.matchMedia]. *)
Abbreviation DarkMode := (option bool).

(** The initialiser of the [darkMode] cell (App component, lines 96-100
    of the bundle that holds App.jsx); [matchMedia] is [None] when
    [window.matchMedia] is missing and the [matches] flag of the query
    otherwise. *)
Definition initialDarkMode (storage : Storage) (matchMedia : option bool)
    : DarkMode :=
  match storage !! "darkMode" with
  | Some saved => Some (bool_decide (saved = lit "true"))
  | None => matchMedia
  end.

(** The text [localStorage.setItem] stores for a value of the cell. *)
Definition stored (d : DarkMode) : list N :=
  match d with
  | Some true => lit "true"
  | Some false => lit "false"
  | None => lit "undefined"
  end.

(** The effect that follows every change of [darkMode] (lines 103-110):
    the stored value, and whether the [dark] class is on the document. *)
Definition syncDarkMode (d : DarkMode) (storage : Storage) : Storage * bool :=
  (<["darkMode" := stored d]> storage, default false d).

(** The toggle button (line 115): [setDarkMode(!darkMode)]. *)
Definition toggleDarkMode (d : DarkMode) : DarkMode :=
  Some (negb (default false d)).

(** State of the [AuthProvider] (the three useState cells) together with
    localStorage and the log of effects. *)
Record Auth : Type := mkAuth {
  user : JsValue;
  loading : bool;
  isAuthenticated : bool;
  storage : Storage;
  effects : list Effect;
}.

(** Initial state of the provider over a given localStorage. *)
Definition initialAuth (st : Storage) : Auth :=
  mkAuth JNull true false st [].

(** [initializeAuth] (lines 22-44 of AuthContext.jsx); [current] is the
    outcome of [apiService.getCurrentUser()].  [getItem] answers [null]
    for a missing key and the stored string otherwise, so [token &&
    savedUser] holds when both are stored and not empty.  The redirect
    made by the service's interceptor on a 401 answer is outside the
    model. *)
Definition initializeAuth (current : Awaited JsValue) (a : Auth) : Auth :=
  let filled k :=
    match storage a !! k with
    | Some (_ :: _) => true
    | _ => false
    end in
  if filled "token" && filled "user" then
    let a' := mkAuth (user a) (loading a) (isAuthenticated a) (storage a)
                (effects a ++ [ApiCall "getCurrentUser" []]) in
    match current with
    | Resolved userData =>
        mkAuth userData false true (storage a') (effects a')
    | Rejected _ =>
        mkAuth JNull false false
          (delete "user" (delete "token" (storage a'))) (effects a')
    end
  else mkAuth (user a) false (isAuthenticated a) (storage a) (effects a).

(** [logout] (lines 84-90). *)
Definition logout (a : Auth) : Auth :=
  mkAuth JNull (loading a) false
    (delete "user" (delete "token" (storage a)))
    (effects a ++ [Toast TSuccess (lit "Logged out successfully")]).

(** The routes of the application (lines 128-193).  A value of this
    type is the route the router matched; how a URL is matched to a route
    is the router's business and outside the model. *)
Inductive Route : Type :=
  | LoginRoute
  | RegisterRoute
  | DashboardRoute
  | TallyAnalyticsRoute
  | KnowledgeBaseRoute
  | ChatRoute
  | TallyRealtimeRoute
  | RootRoute
  | UnknownRoute.

(** What a route renders. *)
Inductive View : Type :=
  | Spinner
  | Page (r : Route)
  | Navigate (r : Route).

(** [ProtectedRoute] (lines 75-83). *)
Definition ProtectedRoute (a : Auth) (children : View) : View :=
  if loading a then Spinner
  else if isAuthenticated a then children else Navigate LoginRoute.

(** [PublicRoute] (lines 85-93). *)
Definition PublicRoute (a : Auth) (children : View) : View :=
  if loading a then Spinner
  else if isAuthenticated a then Navigate DashboardRoute else children.

(** The element of each route. *)
Definition element (a : Auth) (r : Route) : View :=
  match r with
  | LoginRoute | RegisterRoute => PublicRoute a (Page r)
  | DashboardRoute | TallyAnalyticsRoute | KnowledgeBaseRoute | ChatRoute
  | TallyRealtimeRoute => ProtectedRoute a (Page r)
  | RootRoute | UnknownRoute => Navigate DashboardRoute
  end.

(** Following [Navigate] elements, at most [fuel] times; [None] when
    redirects are left after that. *)
Fixpoint render (fuel : nat) (a : Auth) (r : Route) : option View :=
  match element a r with
  | Navigate r' =>
      match fuel with
      | O => None
      | S fuel' => render fuel' a r'
      end
  | v => Some v
  end.

(** Sample storage: a signed-in browser that also stored a theme. *)
Definition sampleStorage : Storage :=
  <["token" := lit "abc"]>
    (<["user" := lit "{}"]> (<["darkMode" := lit "true"]> ∅)).

End App.

(* ===================================================================== *)
(** ** EnhancedDocumentUpload (the stand-alone upload component) *)
(* ===================================================================== *)

Module Upload.

(** What the component does to the outside: a request, or a call of one
    of the two callbacks it was given. *)
Inductive Event : Type :=
  | Post (path : string) (body : JsValue)
  | OnUploadSuccess (data : JsValue)
  | OnError (message : JsValue).

(** State of the component (the cells [handleWebUrlsSubmit] touches) and
    the log of events. *)
Record State : Type := mkState {
  isProcessing : bool;
  webUrls : list KnowledgeBase.Slot;
  events : list Event;
}.

(** [error.response?.data?.detail || 'Web URL processing failed'];
    [None] when reading [response] of a [null] or [undefined] error
    throws. *)
Definition failure (err : JsValue) : option JsValue :=
  response ← prop err "response";
  let get v k := default JUndefined (prop v k) in
  Some (jsOr (get (get response "data") "detail")
          (JStr (lit "Web URL processing failed"))).

(** [handleWebUrlsSubmit] (lines 68-95 of the component); [posted] is the
    outcome of the request, reduced to [response.data]. *)
Definition handleWebUrlsSubmit (posted : Awaited JsValue) (s : State) : State :=
  match KnowledgeBase.validUrls (webUrls s) with
  | None => s
  | Some [] => s
  | Some urls =>
      let body := JArr (KnowledgeBase.source <$> urls) in
      let log := events s
                 ++ [Post "/api/v1/documents/process-multiple-sources" body] in
      match posted with
      | Resolved data =>
          if truthy data
          then mkState false [KnowledgeBase.Url (lit "")]
                 (log ++ [OnUploadSuccess data])
          else mkState false (webUrls s) log
      | Rejected err =>
          match failure err with
          | Some message => mkState false (webUrls s) (log ++ [OnError message])
          | None => mkState false (webUrls s) log
          end
      end
  end.

End Upload.

(* ===================================================================== *)
(** ** The specification's wording, for comparison with the code *)
(* ===================================================================== *)

Module Spec.

(** The chart payload of a response as the specification words it:
    response.financial_insights.charts when that exists, otherwise
    response.charts when that is an object, otherwise null. *)
Definition chartPayload (response : gmap string JsValue) : JsValue :=
  let insights := default JUndefined (response !! "financial_insights") in
  let nested :=
    match insights with
    | JObj m => default JUndefined (m !! "charts")
    | _ => JUndefined
    end in
  let top := default JUndefined (response !! "charts") in
  if truthy nested then nested
  else match top with
       | JArr _ | JObj _ => top
       | _ => JNull
       end.

(** A non-empty object: an array with an element or an object with a
    property. *)
Definition nonEmptyObject (v : JsValue) : Prop :=
  match v with
  | JArr l => l ≠ []
  | JObj m => m ≠ ∅
  | _ => False
  end.

(** The title of a conversation as the specification words it: the first
    50 characters of the trimmed message, with "..." appended exactly when
    the trimmed message exceeds 50 characters. *)
Definition truncatedTitle (trimmed : jsstring) : jsstring :=
  if decide (50 < length trimmed) then take 50 trimmed ++ lit "..."
  else take 50 trimmed.

(** The fan-out of a list of entered web URLs as the specification words
    it: the trimmed non-empty URLs, in their original order, each tagged
    with type "web_url". *)
Definition fanOut (entered : list jsstring) : list JsValue :=
  (fun u => JObj (<["url" := JStr u]> (<["type" := JStr (lit "web_url")]> ∅)))
    <$> filter (fun u => u ≠ []) (trim <$> entered).

(** A string contains another as the specification words it: the second
    occurs somewhere inside the first. *)
Definition contains (s p : jsstring) : Prop := exists a b, s = a ++ p ++ b.

(** First match wins over the truthy values of an ordered list of
    candidates, with a default. *)
Fixpoint firstTruthy (candidates : list JsValue) (dflt : JsValue) : JsValue :=
  match candidates with
  | [] => dflt
  | v :: r => if truthy v then v else firstTruthy r dflt
  end.

End Spec.

(* ===================================================================== *)
(** ** Properties of pages/Chat.jsx *)
(* ===================================================================== *)

Section ChatFacts.

Import Chat.

Lemma accepts_guard s :
  accepts s ->
  negb (truthy (JStr (trim (currentMessage s)))) || loading s = false.
Proof.
  intros [Hm Hl]. rewrite Hl. simpl.
  destruct (trim (currentMessage s)); [done | reflexivity].
Qed.

Lemma strictNeq_self_string (x : jsstring) : strictNeq (JStr x) (JStr x) = false.
Proof. unfold strictNeq. simpl. by rewrite bool_decide_eq_true_2. Qed.

Lemma filter_drops_temp (tmp : Message) (l : list Message) x :
  id tmp = JStr x ->
  List.filter (fun msg => strictNeq (id msg) (id tmp)) (l ++ [tmp])
  = List.filter (fun msg => strictNeq (id msg) (id tmp)) l.
Proof.
  intros Hid. rewrite List.filter_app. simpl.
  rewrite Hid, strictNeq_self_string. by rewrite app_nil_r.
Qed.

Lemma filter_all {A} (p : A -> bool) (l : list A) :
  (forall a, a ∈ l -> p a = true) -> List.filter p l = l.
Proof.
  induction l as [|a l IH]; intros H; [done |]. simpl.
  rewrite (H a) by constructor. f_equal. apply IH.
  intros b Hb. apply H. by constructor.
Qed.

Lemma loadConversations_messages r s :
  messages (loadConversations r s) = messages s.
Proof.
  unfold loadConversations. destruct r as [data|err]; simpl; [|done].
  by destruct (negb (truthy data) || _).
Qed.

Lemma loadConversations_currentConversation r s :
  currentConversation (loadConversations r s) = currentConversation s.
Proof.
  unfold loadConversations. destruct r as [data|err]; simpl; [|done].
  by destruct (negb (truthy data) || _).
Qed.

Lemma loadConversations_loading r s :
  loading (loadConversations r s) = loading s.
Proof.
  unfold loadConversations. destruct r as [data|err]; simpl; [|done].
  by destruct (negb (truthy data) || _).
Qed.

(** The first test (line 113) keeps exactly the arrays and objects. *)
Lemma top_charts_object (c : JsValue) :
  (if truthy c && String.eqb (typeof c) "object" then c else JNull)
  = match c with JArr _ | JObj _ => c | _ => JNull end.
Proof.
  destruct c as [| |b|z|str|l|m]; simpl; try reflexivity.
  - by rewrite andb_false_r.
  - by rewrite andb_false_r.
  - by rewrite andb_false_r.
Qed.

(** A response that is an object never makes the chart extraction throw,
    and the extraction follows the specified precedence. *)
Lemma chartData_object (r : gmap string JsValue) :
  chartData (JObj r) = Some (Spec.chartPayload r).
Proof.
  unfold chartData, Spec.chartPayload.
  cbn [prop mbind option_bind].
  rewrite top_charts_object.
  destruct (default JUndefined (r !! "financial_insights"))
    as [| |b|z|str|l|m] eqn:Hfi; cbn [truthy prop mbind option_bind];
    try reflexivity.
  all: repeat case_match; reflexivity.
Qed.

Lemma chartData_defined response k v :
  prop response k = Some v -> exists cd, chartData response = Some cd.
Proof.
  intros H. destruct response as [| |b|z|str|l|m]; try discriminate H.
  1-4: by eexists.
  rewrite chartData_object. by eexists.
Qed.

(** The rendering guard of the chart block holds exactly for non-empty
    objects. *)
Lemma chartsDisplayed_nonEmpty (m : Message) :
  chartsDisplayed m = true <-> Spec.nonEmptyObject (charts m).
Proof.
  unfold chartsDisplayed, Spec.nonEmptyObject.
  destruct (charts m) as [| |b|z|str|l|o]; simpl;
    rewrite ?andb_false_r; try (split; [discriminate | tauto]).
  - destruct l; simpl; split; try done.
  - rewrite Nat.ltb_lt. split.
    + intros H ->. rewrite map_size_empty in H. lia.
    + intros H. apply map_size_non_empty_iff in H. lia.
Qed.

(** The failing path of [sendMessage]: the [await] rejects. *)
Lemma sendMessage_rejected env s err :
  accepts s -> reply env = Rejected err ->
  sendMessage env s
  = setLoading false
      (sendMessage_catch (tempMessage env (trim (currentMessage s)))
         (emit (ApiCall "sendMessage"
                  [JStr (trim (currentMessage s)); currentConversationId s;
                   JStr (chatMode s)])
            (setMessages
               (fun prev => prev ++ [tempMessage env (trim (currentMessage s))])
               (setLoading true (setCurrentMessage [] s))))).
Proof.
  intros Ha Hr. unfold sendMessage. rewrite (accepts_guard _ Ha).
  unfold sendMessage_try. rewrite Hr. reflexivity.
Qed.

(** The successful path of [sendMessage]: the [await] resolves with a
    value whose properties can be read. *)
Lemma sendMessage_resolved env s response cd :
  accepts s -> reply env = Resolved response ->
  chartData response = Some cd ->
  let userMessage := trim (currentMessage s) in
  let tmp := tempMessage env userMessage in
  let rid := default JUndefined (prop response "conversation_id") in
  messages (sendMessage env s)
  = List.filter (fun msg => strictNeq (id msg) (id tmp)) (messages s)
    ++ newMessages env userMessage response cd
  /\ currentConversation (sendMessage env s)
     = (if match currentConversation s with
            | None => true
            | Some c => strictNeq (conv_id c) rid
            end
        then Some (mkConversation rid (JStr (title userMessage)))
        else currentConversation s)
  /\ loading (sendMessage env s) = false.
Proof.
  intros Ha Hr Hcd. cbv zeta. unfold sendMessage. rewrite (accepts_guard _ Ha).
  unfold sendMessage_try. rewrite Hr, Hcd.
  change (currentConversation (emit _ _)) with (currentConversation s).
  destruct (match currentConversation s with
            | None => true
            | Some c => strictNeq (conv_id c) _
            end) eqn:Hnew.
  - change (messages (setLoading false ?x)) with (messages x).
    change (currentConversation (setLoading false ?x))
      with (currentConversation x).
    rewrite loadConversations_messages, loadConversations_currentConversation.
    cbn [emit messages setMessages setLoading setCurrentMessage
         setCurrentConversation currentConversation loading].
    rewrite (filter_drops_temp _ _
               (lit "temp-" ++ decimal (now (clock_temp env))))
      by reflexivity.
    repeat split; reflexivity.
  - cbn [emit messages setMessages setLoading setCurrentMessage
         setCurrentConversation currentConversation loading].
    rewrite (filter_drops_temp _ _
               (lit "temp-" ++ decimal (now (clock_temp env))))
      by reflexivity.
    repeat split; reflexivity.
Qed.

Lemma title_truncated (m : jsstring) : title m = Spec.truncatedTitle m.
Proof.
  unfold title, Spec.truncatedTitle, substring0.
  destruct (decide (50 < length m)) as [H|H].
  - apply Nat.ltb_lt in H. by rewrite H.
  - apply Nat.ltb_nlt in H. rewrite H. simpl. by rewrite app_nil_r.
Qed.

(** [loadConversations] switches the page to general mode when the
    conversation list comes back empty or missing; the switch depends on
    conversations, not on documents, and stays until the user changes the
    mode. *)
Lemma loadConversations_empty_sets_general s :
  chatMode (loadConversations (Resolved (JArr [])) s) = lit "general"
  /\ chatMode (loadConversations (Resolved JNull) s) = lit "general"
  /\ forall c cs,
       chatMode (loadConversations (Resolved (JArr (c :: cs))) s) = chatMode s.
Proof. repeat split. Qed.

Example trim_sample : trim (lit "  a b  ") = lit "a b".
Proof. reflexivity. Qed.

Example title_short : title (lit "hello") = lit "hello".
Proof. reflexivity. Qed.

Example title_long :
  title (lit "0123456789012345678901234567890123456789012345678901")
  = lit "01234567890123456789012345678901234567890123456789...".
Proof. reflexivity. Qed.

Example chartPayload_nested_first :
  Spec.chartPayload chartResponse = JObj (<["nested" := JNum 2]> ∅).
Proof. reflexivity. Qed.

Example includes_sample :
  includes (lit "https://drive.google.com/uc?id=1") (lit "drive.google.com/uc?id=")
  = true.
Proof. reflexivity. Qed.

(** C1 (amended): when the chat request of a turn fails, the handler
    takes the temporary user message out of the message list again and adds
    no message (so the list is the earlier one, filtered of the temporary
    id, and equal to it when no earlier message carries that id); the
    failure is reported by the error toast "Failed to send message", the
    loading flag is cleared and the current conversation is unchanged. *)
Theorem sendMessage_failure_rolls_back env s err :
  accepts s -> reply env = Rejected err ->
  let tmp := tempMessage env (trim (currentMessage s)) in
  let s' := sendMessage env s in
  messages s' = List.filter (fun msg => strictNeq (id msg) (id tmp)) (messages s)
  /\ (forall m, m ∈ messages s' -> m ∈ messages s)
  /\ ((forall m, m ∈ messages s -> strictNeq (id m) (id tmp) = true) ->
      messages s' = messages s)
  /\ effects s'
     = effects s
       ++ [ApiCall "sendMessage"
             [JStr (trim (currentMessage s)); currentConversationId s;
              JStr (chatMode s)];
           Toast TError (lit "Failed to send message")]
  /\ loading s' = false
  /\ currentConversation s' = currentConversation s.
Proof.
  intros Ha Hr tmp s'. subst s'. rewrite (sendMessage_rejected _ _ _ Ha Hr).
  fold tmp. unfold sendMessage_catch.
  cbn [emit messages setMessages setLoading setCurrentMessage effects loading
       currentConversation].
  rewrite (filter_drops_temp tmp _
             (lit "temp-" ++ decimal (now (clock_temp env)))) by reflexivity.
  split; [reflexivity |]. split.
  { intros m Hm. apply list_elem_of_In in Hm. apply List.filter_In in Hm.
    apply list_elem_of_In. tauto. }
  split; [intros Hall; by apply filter_all |].
  split; [by rewrite <- app_assoc |]. split; reflexivity.
Qed.

Lemma sendMessage_failure_rolls_back_witness :
  accepts sampleState /\ reply (sampleEnv (Rejected JNull)) = Rejected JNull
  /\ messages (sendMessage (sampleEnv (Rejected JNull)) sampleState)
     = messages sampleState.
Proof.
  assert (Ha : accepts sampleState) by (split; [vm_compute; discriminate | reflexivity]).
  split; [exact Ha |]. split; [reflexivity |].
  apply (sendMessage_failure_rolls_back (sampleEnv (Rejected JNull))
           sampleState JNull Ha eq_refl).
  intros m Hm. apply list_elem_of_singleton in Hm. subst m. reflexivity.
Defined.

(** C1 as stated fails: after a failed request the message list holds
    neither the user's message of the turn nor any message produced for
    it. *)
Lemma sendMessage_failure_counterexample :
  let s' := sendMessage (sampleEnv (Rejected JNull)) sampleState in
  reply (sampleEnv (Rejected JNull)) = Rejected JNull
  /\ ~ (exists m, m ∈ messages s' /\ content m = JStr (lit "hello"))
  /\ ~ (exists m, m ∈ messages s' /\ role m = JStr (lit "assistant")
                  /\ m ∉ messages sampleState).
Proof.
  cbv zeta. split; [reflexivity |].
  assert (Hm : messages (sendMessage (sampleEnv (Rejected JNull)) sampleState)
               = messages sampleState) by (vm_compute; reflexivity).
  rewrite Hm. split.
  - intros (m & Hin & Hc). apply list_elem_of_singleton in Hin. subst m.
    vm_compute in Hc. discriminate Hc.
  - intros (m & Hin & _ & Hnot). contradiction.
Qed.

(** C5: when a message starts a new conversation (there was none, or the
    response carries another conversation id), the current conversation
    becomes the one of the response and its title is the first 50
    characters of the trimmed message, followed by "..." exactly when the
    trimmed message is longer than 50 characters. *)
Theorem sendMessage_new_conversation_title env s response rid :
  accepts s -> reply env = Resolved response ->
  prop response "conversation_id" = Some rid ->
  (currentConversation s = None
   \/ exists c, currentConversation s = Some c /\ strictNeq (conv_id c) rid = true) ->
  currentConversation (sendMessage env s)
  = Some (mkConversation rid
            (JStr (Spec.truncatedTitle (trim (currentMessage s))))).
Proof.
  intros Ha Hr Hid Hnew.
  destruct (chartData_defined _ _ _ Hid) as [cd Hcd].
  destruct (sendMessage_resolved env s response cd Ha Hr Hcd) as (_ & Hc & _).
  rewrite Hc, Hid. change (default JUndefined (Some rid)) with rid.
  rewrite title_truncated.
  destruct Hnew as [Hn | (c & Hn & Hne)]; rewrite Hn; [done | by rewrite Hne].
Qed.

Lemma sendMessage_new_conversation_title_witness :
  currentConversation
    (sendMessage (sampleEnv (Resolved (JObj plainResponse))) sampleState)
  = Some (mkConversation (JNum 7) (JStr (lit "hello"))).
Proof.
  assert (Ha : accepts sampleState) by (split; [vm_compute; discriminate | reflexivity]).
  apply (sendMessage_new_conversation_title
           (sampleEnv (Resolved (JObj plainResponse))) sampleState
           (JObj plainResponse) (JNum 7) Ha eq_refl eq_refl).
  left. reflexivity.
Defined.

(** C6: the chart payload of the rendered assistant message follows a
    fixed precedence: response.financial_insights.charts when that exists,
    otherwise response.charts when that is an object, otherwise null; and
    the chart block is displayed exactly when that payload is a non-empty
    object. *)
Theorem sendMessage_chart_precedence env s (response : gmap string JsValue) :
  accepts s -> reply env = Resolved (JObj response) ->
  exists u a,
    messages (sendMessage env s)
    = List.filter
        (fun msg => strictNeq (id msg)
                      (id (tempMessage env (trim (currentMessage s)))))
        (messages s) ++ [u; a]
    /\ role u = JStr (lit "user")
    /\ role a = JStr (lit "assistant")
    /\ charts a = Spec.chartPayload response
    /\ (chartsDisplayed a = true <-> Spec.nonEmptyObject (Spec.chartPayload response)).
Proof.
  intros Ha Hr.
  destruct (sendMessage_resolved env s (JObj response) _ Ha Hr
              (chartData_object response)) as (Hm & _ & _).
  eexists _, _. split; [exact Hm |].
  split; [reflexivity |]. split; [reflexivity |]. split; [reflexivity |].
  apply chartsDisplayed_nonEmpty.
Qed.

Lemma sendMessage_chart_precedence_witness :
  accepts sampleState
  /\ exists u a,
       messages (sendMessage (sampleEnv (Resolved (JObj chartResponse)))
                   sampleState)
       = List.filter
           (fun msg =>
              strictNeq (id msg)
                (id (tempMessage (sampleEnv (Resolved (JObj chartResponse)))
                       (trim (currentMessage sampleState)))))
           (messages sampleState) ++ [u; a]
       /\ role u = JStr (lit "user")
       /\ role a = JStr (lit "assistant")
       /\ charts a = Spec.chartPayload chartResponse
       /\ (chartsDisplayed a = true
           <-> Spec.nonEmptyObject (Spec.chartPayload chartResponse)).
Proof.
  assert (Ha : accepts sampleState) by (split; [vm_compute; discriminate | reflexivity]).
  split; [exact Ha |].
  exact (sendMessage_chart_precedence
           (sampleEnv (Resolved (JObj chartResponse))) sampleState
           chartResponse Ha eq_refl).
Defined.

End ChatFacts.

(* ===================================================================== *)
(** ** Properties of pages/KnowledgeBase.jsx *)
(* ===================================================================== *)

Section KnowledgeBaseFacts.

Import KnowledgeBase.

Lemma ingestionCalls_app (l1 l2 : list Effect) :
  Api.ingestionCalls (l1 ++ l2) = Api.ingestionCalls l1 ++ Api.ingestionCalls l2.
Proof.
  induction l1 as [|e l1 IH]; [done |].
  destruct e as [k t|k t d|m args]; simpl; try exact IH.
  destruct (Api.isIngestion m); simpl; by rewrite IH.
Qed.

(** Reloading the documents submits nothing for ingestion. *)
Lemma loadKnowledgeBase_ingestion r s :
  Api.ingestionCalls (effects (loadKnowledgeBase r s))
  = Api.ingestionCalls (effects s).
Proof.
  unfold loadKnowledgeBase. destruct (docsReply r); simpl;
    rewrite !ingestionCalls_app; simpl; by rewrite !app_nil_r.
Qed.

Lemma blank_guard (u : jsstring) :
  negb (truthy (JStr (trim u))) = bool_decide (trim u = []).
Proof. destruct (trim u); reflexivity. Qed.

(** [startsWith] decides being a prefix. *)
Lemma startsWith_prefix (p : jsstring) : forall s,
  startsWith s p = true <-> exists b, s = p ++ b.
Proof.
  induction p as [|x p IH]; intros s.
  - destruct s; (split; [intros _; by eexists | done]).
  - destruct s as [|y s]; simpl.
    + split; [discriminate | intros [b Hb]; discriminate].
    + rewrite andb_true_iff, N.eqb_eq, IH. split.
      * intros [-> [b ->]]. by exists b.
      * intros [b Hb]. injection Hb as -> ->. split; [done | by exists b].
Qed.

(** [includes] decides the occurrence of the pattern anywhere in the
    string. *)
Lemma includes_contains (s p : jsstring) :
  includes s p = true <-> Spec.contains s p.
Proof.
  unfold Spec.contains. induction s as [|x s IH].
  - cbn [includes]. rewrite orb_false_r, startsWith_prefix. split.
    + intros [b Hb]. by exists [], b.
    + intros (a & b & Hab). symmetry in Hab.
      apply app_eq_nil in Hab as [-> Hpb]. by exists b.
  - cbn [includes]. rewrite orb_true_iff, startsWith_prefix, IH. split.
    + intros [[b Hb] | (a & b & Hab)].
      * by exists [], b.
      * exists (x :: a), b. by rewrite Hab.
    + intros (a & b & Hab). destruct a as [|y a].
      * left. by exists b.
      * right. injection Hab as _ ->. by exists a, b.
Qed.

Lemma not_includes_contains (s p : jsstring) :
  includes s p = false <-> ~ Spec.contains s p.
Proof.
  rewrite <- includes_contains. by destruct (includes s p).
Qed.

(** The method chosen by the ordered substring tests. *)
Lemma fileUrlBranch_method (url : jsstring) :
  let folder := includes url (lit "drive.google.com/drive/folders/") in
  let file := includes url (lit "drive.google.com/file/") in
  let uc := includes url (lit "drive.google.com/uc?id=") in
  (fileUrlBranch url).1.1
  = if folder then "processGoogleDriveFolder"
    else if file || uc then "processGoogleDriveFile"
    else "processPdfUrl".
Proof.
  cbv zeta. unfold fileUrlBranch.
  destruct (includes url (lit "drive.google.com/drive/folders/")); [done |].
  by destruct (includes url (lit "drive.google.com/file/")
               || includes url (lit "drive.google.com/uc?id=")).
Qed.

Lemma fileUrlBranch_ingestion (url : jsstring) :
  Api.isIngestion (fileUrlBranch url).1.1 = true.
Proof.
  rewrite fileUrlBranch_method. cbv zeta.
  by repeat case_match.
Qed.

Lemma handleFileUrlSubmit_calls processed r s :
  trim (fileUrl s) <> [] ->
  Api.ingestionCalls (effects (handleFileUrlSubmit processed r s))
  = Api.ingestionCalls (effects s)
    ++ [((fileUrlBranch (fileUrl s)).1.1, [JStr (fileUrl s)])].
Proof.
  intros Hnb. unfold handleFileUrlSubmit.
  rewrite blank_guard, bool_decide_eq_false_2 by done.
  pose proof (fileUrlBranch_ingestion (fileUrl s)) as Hing.
  destruct (fileUrlBranch (fileUrl (setIsProcessing true s)))
    as [[method loadingText] successText] eqn:Hb.
  change (fileUrl (setIsProcessing true s)) with (fileUrl s) in Hb.
  rewrite Hb in Hing |- *. cbn [fst snd] in Hing |- *.
  destruct processed as [v|err]; [| destruct (Api.errorDetail err)].
  - change (effects (setIsProcessing false ?x)) with (effects x).
    rewrite loadKnowledgeBase_ingestion. cbn [effects emit setFileUrl setIsProcessing].
    rewrite !ingestionCalls_app. cbn [Api.ingestionCalls]. rewrite Hing.
    by rewrite !app_nil_r.
  - cbn [effects emit setFileUrl setIsProcessing].
    rewrite !ingestionCalls_app. cbn [Api.ingestionCalls]. rewrite Hing.
    by rewrite !app_nil_r.
  - cbn [effects emit setFileUrl setIsProcessing].
    rewrite !ingestionCalls_app. cbn [Api.ingestionCalls]. rewrite Hing.
    by rewrite !app_nil_r.
Qed.

(** The branch on sample links: a folder link, a file link, a download
    link, a link that names both a folder and a file (the folder test
    comes first), and two links to other hosts. *)
Example fileUrlBranch_samples :
  (fileUrlBranch (lit "https://drive.google.com/drive/folders/1AbC")).1.1
  = "processGoogleDriveFolder"
  /\ (fileUrlBranch (lit "https://drive.google.com/file/d/abc/view")).1.1
     = "processGoogleDriveFile"
  /\ (fileUrlBranch (lit "https://drive.google.com/uc?id=abc")).1.1
     = "processGoogleDriveFile"
  /\ (fileUrlBranch
        (lit "https://drive.google.com/file/d/1?from=drive.google.com/drive/folders/2")).1.1
     = "processGoogleDriveFolder"
  /\ (fileUrlBranch (lit "https://example.org/report.pdf")).1.1
     = "processPdfUrl"
  /\ (fileUrlBranch (lit "https://docs.google.com/file/d/abc")).1.1
     = "processPdfUrl".
Proof. repeat split; vm_compute; reflexivity. Qed.

(** C7: a non-blank file URL makes the handler invoke exactly one ingestion
    endpoint with that URL, chosen by the ordered substring tests: the
    Google Drive folder endpoint iff the URL contains
    "drive.google.com/drive/folders/"; otherwise the Google Drive file
    endpoint iff it contains "drive.google.com/file/" or
    "drive.google.com/uc?id="; otherwise the pdf_url endpoint.  A blank URL
    leaves the page as it is, so no endpoint is invoked.  To contain is
    to have the pattern occur somewhere in the URL. *)
Theorem handleFileUrlSubmit_selects_endpoint processed r s :
  let url := fileUrl s in
  let s' := handleFileUrlSubmit processed r s in
  let folder := Spec.contains url (lit "drive.google.com/drive/folders/") in
  let file := Spec.contains url (lit "drive.google.com/file/") in
  let uc := Spec.contains url (lit "drive.google.com/uc?id=") in
  (trim url <> [] ->
   exists method,
     Api.ingestionCalls (effects s')
     = Api.ingestionCalls (effects s) ++ [(method, [JStr url])]
     /\ (method = "processGoogleDriveFolder" <-> folder)
     /\ (method = "processGoogleDriveFile" <-> ~ folder /\ (file \/ uc))
     /\ (method = "processPdfUrl" <-> ~ folder /\ ~ file /\ ~ uc)
     /\ (folder ->
         Api.route method = Some "/documents/process-google-drive-folder")
     /\ (~ folder -> file \/ uc ->
         Api.route method = Some "/documents/process-google-drive-file")
     /\ (~ folder -> ~ file -> ~ uc ->
         Api.route method = Some "/documents/process-pdf-url"))
  /\ (trim url = [] ->
      s' = s /\ Api.ingestionCalls (effects s') = Api.ingestionCalls (effects s)).
Proof.
  cbv zeta. split.
  - intros Hnb. exists (fileUrlBranch (fileUrl s)).1.1.
    split; [by apply handleFileUrlSubmit_calls |].
    rewrite fileUrlBranch_method. cbv zeta.
    pose proof (includes_contains (fileUrl s)
                  (lit "drive.google.com/drive/folders/")) as Hfolder.
    pose proof (includes_contains (fileUrl s)
                  (lit "drive.google.com/file/")) as Hfile.
    pose proof (includes_contains (fileUrl s)
                  (lit "drive.google.com/uc?id=")) as Huc.
    destruct (includes (fileUrl s) (lit "drive.google.com/drive/folders/"));
      destruct (includes (fileUrl s) (lit "drive.google.com/file/"));
      destruct (includes (fileUrl s) (lit "drive.google.com/uc?id="));
      cbn [orb];
      repeat match goal with
             | H : true = true <-> ?P |- _ =>
                 assert P by (by apply H); clear H
             | H : false = true <-> ?P |- _ =>
                 assert (~ P) by (intros HP; by apply H in HP); clear H
             end;
      repeat split; intros; try reflexivity; try discriminate; try tauto.
  - intros Hb. unfold handleFileUrlSubmit.
    by rewrite blank_guard, bool_decide_eq_true_2.
Qed.

Lemma handleFileUrlSubmit_selects_endpoint_witness :
  trim (fileUrl sampleState) <> []
  /\ Api.ingestionCalls
       (effects (handleFileUrlSubmit (Resolved JNull) sampleReload sampleState))
     = [("processGoogleDriveFile",
         [JStr (lit "https://drive.google.com/file/d/abc/view")])]
  /\ Api.route "processGoogleDriveFile"
     = Some "/documents/process-google-drive-file".
Proof.
  assert (H : trim (fileUrl sampleState) <> []) by (vm_compute; discriminate).
  split; [exact H |].
  destruct (proj1 (handleFileUrlSubmit_selects_endpoint (Resolved JNull)
                     sampleReload sampleState) H)
    as (method & Hcalls & _ & Hfile & _ & _ & Hroute & _).
  assert (Hnot : ~ Spec.contains (fileUrl sampleState)
                     (lit "drive.google.com/drive/folders/"))
    by (apply not_includes_contains; vm_compute; reflexivity).
  assert (His : Spec.contains (fileUrl sampleState)
                  (lit "drive.google.com/file/"))
    by (exists (lit "https://"), (lit "d/abc/view"); reflexivity).
  assert (Hm : method = "processGoogleDriveFile")
    by (apply Hfile; split; [exact Hnot | left; exact His]).
  rewrite Hm in Hcalls, Hroute. split; [exact Hcalls |].
  apply Hroute; [exact Hnot | left; exact His].
Defined.

(** *** The web URL fields *)

Lemma spread_allUrls (a : list Slot) : allUrls a -> spread a = a.
Proof.
  unfold allUrls, spread. induction 1 as [|x a Hx _ IH]; [done |].
  rewrite fmap_cons, IH. by destruct x.
Qed.

Lemma length_spread (a : list Slot) : length (spread a) = length a.
Proof. unfold spread. by rewrite length_fmap. Qed.

Lemma filterOut_allUrls (index k : nat) (a : list Slot) :
  allUrls a ->
  allUrls (filterOut index k a)
  /\ length (filterOut index k a)
     = if bool_decide (k <= index < k + length a) then length a - 1
       else length a.
Proof.
  unfold allUrls. intros H. revert k.
  induction H as [|x a Hx Ha IH]; intros k.
  - simpl. split; [constructor |]. by case_bool_decide.
  - destruct x as [| |u]; try contradiction. simpl.
    destruct (IH (S k)) as [IH1 IH2].
    destruct (k =? index)%nat eqn:E.
    + apply Nat.eqb_eq in E. subst k. split; [exact IH1 |].
      rewrite IH2. rewrite (bool_decide_eq_false_2 (S index <= index < _)) by lia.
      rewrite bool_decide_eq_true_2 by lia. lia.
    + apply Nat.eqb_neq in E. split; [by constructor |].
      simpl. rewrite IH2.
      repeat case_bool_decide; lia.
Qed.

Lemma assign_in_range (a : list Slot) (i : nat) (v : Slot) :
  i < length a -> assign a i v = <[i := v]> a.
Proof. intros H. unfold assign. apply Nat.ltb_lt in H. by rewrite H. Qed.

Lemma length_assign (a : list Slot) (i : nat) (v : Slot) :
  length (assign a i v) = if (i <? length a)%nat then length a else S i.
Proof.
  unfold assign. destruct (i <? length a)%nat eqn:E.
  - by rewrite length_insert.
  - apply Nat.ltb_nlt in E.
    rewrite !length_app, length_replicate. simpl. lia.
Qed.

(** [updateWebUrl] on any array: the length is kept for the index of an
    existing position and becomes [index + 1] otherwise. *)
Lemma length_updateWebUrl index value s :
  length (webUrls (updateWebUrl index value s))
  = if (index <? length (webUrls s))%nat then length (webUrls s) else S index.
Proof.
  unfold updateWebUrl. cbn [webUrls setWebUrls].
  by rewrite length_assign, length_spread.
Qed.

Lemma loadKnowledgeBase_webUrls r s :
  webUrls (loadKnowledgeBase r s) = webUrls s.
Proof. unfold loadKnowledgeBase. by destruct (docsReply r). Qed.

Lemma handleWebUrlsSubmit_webUrls p r s :
  webUrls (handleWebUrlsSubmit p r s) = webUrls s
  \/ webUrls (handleWebUrlsSubmit p r s) = [Url (lit "")].
Proof.
  unfold handleWebUrlsSubmit.
  destruct (validUrls (webUrls s)) as [[|u us]|]; [by left | | by left].
  destruct p as [v|err]; [right | left].
  - change (webUrls (setIsProcessing false ?x)) with (webUrls x).
    by rewrite loadKnowledgeBase_webUrls.
  - by destruct (Api.errorDetail err).
Qed.

Lemma apply_fieldsOk o s :
  rendered o s = true -> fieldsOk s -> fieldsOk (apply o s).
Proof.
  intros Hr [Hu Hl]. destruct o as [|i|i v|p r]; simpl in *.
  - unfold addWebUrlField.
    destruct (length (webUrls s) <? 5)%nat eqn:E; [| by split].
    apply Nat.ltb_lt in E. split; cbn [webUrls setWebUrls].
    + rewrite spread_allUrls by done. apply Forall_app. split; [done |].
      by repeat constructor.
    + rewrite length_app, length_spread. simpl. lia.
  - unfold removeWebUrlField.
    destruct (1 <? length (webUrls s))%nat eqn:E; [| by split].
    apply Nat.ltb_lt in E. apply Nat.ltb_lt in Hr.
    destruct (filterOut_allUrls i 0 (webUrls s) Hu) as [H1 H2].
    split; cbn [webUrls setWebUrls]; [done |].
    rewrite H2, bool_decide_eq_true_2 by lia. lia.
  - apply Nat.ltb_lt in Hr. split.
    + unfold updateWebUrl. cbn [webUrls setWebUrls].
      rewrite spread_allUrls by done. rewrite assign_in_range by done.
      apply Forall_insert; done.
    + rewrite length_updateWebUrl.
      apply Nat.ltb_lt in Hr. by rewrite Hr.
  - unfold fieldsOk.
    destruct (handleWebUrlsSubmit_webUrls p r s) as [-> | ->]; [done |].
    split; [by repeat constructor | simpl; lia].
Qed.

Lemma run_fieldsOk ops : forall s s',
  fieldsOk s -> run ops s = Some s' -> fieldsOk s'.
Proof.
  induction ops as [|o ops IH]; intros s s' Hs Hrun; simpl in Hrun.
  - by injection Hrun as <-.
  - destruct (rendered o s) eqn:Hr; [| discriminate].
    eapply IH; [| exact Hrun]. by apply apply_fieldsOk.
Qed.

Lemma initial_fieldsOk : fieldsOk initial.
Proof. split; [by repeat constructor | simpl; lia]. Qed.

(** C10: the web URL field list starts with one entry; addWebUrlField
    appends one entry when the length is below 5 and does nothing
    otherwise; removeWebUrlField does nothing unless the length is above 1;
    updateWebUrl, called as the page calls it with the index of a rendered
    field (line 406), keeps the length; so every sequence of these
    operations on the page keeps the length between 1 and 5. *)
Theorem webUrls_between_one_and_five :
  length (webUrls initial) = 1
  /\ (forall s,
        (length (webUrls s) < 5 ->
         length (webUrls (addWebUrlField s)) = S (length (webUrls s)))
        /\ (5 <= length (webUrls s) -> addWebUrlField s = s))
  /\ (forall index s, length (webUrls s) <= 1 -> removeWebUrlField index s = s)
  /\ (forall index value s,
        index < length (webUrls s) ->
        length (webUrls (updateWebUrl index value s)) = length (webUrls s))
  /\ (forall ops s',
        run ops initial = Some s' -> 1 <= length (webUrls s') <= 5).
Proof.
  split; [reflexivity |]. split.
  { intros s. unfold addWebUrlField. split; intros H.
    - apply Nat.ltb_lt in H. rewrite H. cbn [webUrls setWebUrls].
      rewrite length_app, length_spread. simpl. lia.
    - apply Nat.ltb_ge in H. by rewrite H. }
  split.
  { intros index s H. unfold removeWebUrlField.
    apply Nat.ltb_ge in H. by rewrite H. }
  split.
  { intros index value s H. rewrite length_updateWebUrl.
    apply Nat.ltb_lt in H. by rewrite H. }
  intros ops s' Hrun.
  exact (proj2 (run_fieldsOk ops initial s' initial_fieldsOk Hrun)).
Qed.

Lemma webUrls_between_one_and_five_witness :
  exists s',
    run [Add; Update 1 (lit "https://a.example"); Add; Remove 0; Add] initial
    = Some s'
    /\ 1 <= length (webUrls s') <= 5.
Proof.
  eexists. split; [vm_compute; reflexivity |].
  apply (proj2 (proj2 (proj2 (proj2 webUrls_between_one_and_five)))
           [Add; Update 1 (lit "https://a.example"); Add; Remove 0; Add]).
  vm_compute. reflexivity.
Defined.

(** *** Batch submission of web URLs *)

Lemma validUrls_entered (entered : list jsstring) :
  validUrls (Url <$> entered)
  = Some (List.filter (fun u => truthy (JStr (trim u))) entered).
Proof.
  induction entered as [|u us IH]; [done |].
  rewrite fmap_cons. cbn [validUrls]. rewrite IH. cbn [mbind option_bind].
  cbn [List.filter]. by destruct (truthy (JStr (trim u))).
Qed.

Lemma sources_fanOut (entered : list jsstring) :
  source <$> List.filter (fun u => truthy (JStr (trim u))) entered
  = Spec.fanOut entered.
Proof.
  unfold Spec.fanOut. induction entered as [|u us IH]; [done |].
  rewrite fmap_cons. cbn [List.filter].
  destruct (trim u) as [|c t] eqn:E.
  - change (truthy (JStr [])) with false. cbv iota.
    rewrite filter_cons_False by (intros H; by apply H).
    exact IH.
  - change (truthy (JStr (c :: t))) with true. cbv iota.
    rewrite filter_cons_True by done.
    rewrite !fmap_cons, IH. unfold source. by rewrite E.
Qed.

Lemma handleWebUrlsSubmit_calls processed r s (entered : list jsstring) :
  webUrls s = Url <$> entered ->
  (Spec.fanOut entered <> [] ->
   Api.ingestionCalls (effects (handleWebUrlsSubmit processed r s))
   = Api.ingestionCalls (effects s)
     ++ [("processMultipleSources",
          [JObj (<["sources" := JArr (Spec.fanOut entered)]> ∅)])])
  /\ (Spec.fanOut entered = [] -> handleWebUrlsSubmit processed r s = s).
Proof.
  intros Hw. unfold handleWebUrlsSubmit.
  rewrite Hw, validUrls_entered. rewrite <- sources_fanOut.
  destruct (List.filter _ entered) as [|u us] eqn:E.
  - split; [intros H; by contradiction H | done].
  - split; [intros _ | intros H; discriminate H].
    unfold batchBody. destruct processed as [v|err].
    + change (effects (setIsProcessing false ?x)) with (effects x).
      rewrite loadKnowledgeBase_ingestion.
      cbn [effects emit setWebUrls setIsProcessing].
      rewrite !ingestionCalls_app. cbn [Api.ingestionCalls].
      change (Api.isIngestion "processMultipleSources") with true.
      cbn iota. by rewrite !app_nil_r.
    + destruct (Api.errorDetail err);
        cbn [effects emit setWebUrls setIsProcessing];
        rewrite !ingestionCalls_app; cbn [Api.ingestionCalls];
        change (Api.isIngestion "processMultipleSources") with true;
        cbn iota; by rewrite ?app_nil_r.
Qed.

End KnowledgeBaseFacts.

(* ===================================================================== *)
(** ** Properties of the back end as the specification describes it *)
(* ===================================================================== *)

Section BackendFacts.

Import Backend.

Lemma referencing_app d ix1 ix2 :
  referencing d (ix1 ++ ix2) = referencing d ix1 + referencing d ix2.
Proof. unfold referencing. by rewrite List.filter_app, length_app. Qed.

Lemma referencing_chunksOf d d' ps : forall c k,
  referencing d' (chunksOf d c k ps) = if (d =? d')%nat then length ps else 0.
Proof.
  unfold referencing. induction ps as [|p ps IH]; intros c k; simpl.
  - by destruct (d =? d')%nat.
  - specialize (IH (S c) (S k)).
    destruct (d =? d')%nat eqn:E; simpl; lia.
Qed.

Lemma referencing_none d ix :
  (forall c, c ∈ ix -> document_id c <> d) -> referencing d ix = 0.
Proof.
  unfold referencing. induction ix as [|c ix IH]; intros H; [done |]. simpl.
  assert (document_id c <> d) as Hc by (apply H; constructor).
  apply Nat.eqb_neq in Hc. rewrite Hc. apply IH.
  intros c' Hc'. apply H. by constructor.
Qed.

Lemma elem_of_delete_by_document c d ix :
  c ∈ delete_by_document d ix <-> c ∈ ix /\ document_id c <> d.
Proof.
  unfold delete_by_document. rewrite !list_elem_of_In, List.filter_In.
  rewrite negb_true_iff, Nat.eqb_neq. tauto.
Qed.

Lemma referencing_delete_same d ix :
  referencing d (delete_by_document d ix) = 0.
Proof.
  apply referencing_none. intros c Hc.
  by apply elem_of_delete_by_document in Hc as [_ Hc].
Qed.

Lemma referencing_delete_other d d' ix :
  d <> d' -> referencing d' (delete_by_document d ix) = referencing d' ix.
Proof.
  intros Hne. unfold referencing, delete_by_document.
  induction ix as [|c ix IH]; [done |]. simpl.
  destruct (document_id c =? d)%nat eqn:E1; simpl.
  - apply Nat.eqb_eq in E1.
    assert (document_id c <> d') as E2 by congruence.
    apply Nat.eqb_neq in E2. by rewrite E2.
  - destruct (document_id c =? d')%nat; simpl; by rewrite IH.
Qed.

Lemma chunksOf_owner d ps : forall c k x,
  x ∈ chunksOf d c k ps -> document_id x = d.
Proof.
  induction ps as [|p ps IH]; intros c k x Hx; simpl in Hx.
  - by apply elem_of_nil in Hx.
  - apply elem_of_cons in Hx as [-> | Hx]; [done | by eapply IH].
Qed.

Lemma passages_nonempty fuel size stride t :
  passages (S fuel) size stride t = [] <-> String.length t = 0.
Proof.
  simpl. destruct (String.length t =? 0)%nat eqn:E.
  - apply Nat.eqb_eq in E. tauto.
  - apply Nat.eqb_neq in E. split; [discriminate | lia].
Qed.

(** An extraction yielding no text yields no passage, and any other text
    yields at least one. *)
Lemma chunker_empty size overlap t :
  chunker size overlap t = [] <-> String.length t = 0.
Proof.
  unfold chunker. destruct (String.length t) as [|n] eqn:E.
  - simpl. tauto.
  - rewrite passages_nonempty. rewrite E. tauto.
Qed.

Lemma empty_consistent : consistent empty.
Proof.
  split; [intros d _; apply lookup_empty |]. split.
  - intros c Hc. by apply elem_of_nil in Hc.
  - intros d doc Hd. unfold empty in Hd. cbn [registry] in Hd.
    by rewrite lookup_empty in Hd.
Qed.

Lemma create_consistent o n st : consistent st -> consistent (create o n st).
Proof.
  intros (Hf & Hix & Hc). unfold consistent, create, chunksReferencing.
  cbn [registry index nextDocument]. split; [| split].
  - intros d Hd. rewrite lookup_insert_ne by lia. apply Hf. lia.
  - intros c Hin. destruct (Hix c Hin) as (doc & Hdoc & Hs).
    exists doc. split; [| done]. rewrite lookup_insert_ne; [done |].
    intros Heq. rewrite <- Heq, Hf in Hdoc by lia. discriminate.
  - intros d doc Hd Hs.
    destruct (decide (nextDocument st = d)) as [<- | Hne].
    + rewrite lookup_insert_eq in Hd. injection Hd as <-. discriminate Hs.
    + rewrite lookup_insert_ne in Hd by done. by apply Hc.
Qed.

(** Changing a document that is not completed into one that is not
    completed keeps the stores consistent. *)
Lemma update_consistent d f st doc :
  consistent st -> registry st !! d = Some doc ->
  status doc <> Completed -> status (f doc) <> Completed ->
  consistent (update d f st).
Proof.
  intros (Hf & Hix & Hc) Hd Hs Hfs. unfold consistent, update, chunksReferencing.
  cbn [registry index nextDocument]. split; [| split].
  - intros d' Hd'. destruct (decide (d = d')) as [<- | Hne].
    + rewrite Hf in Hd by done. discriminate.
    + rewrite lookup_alter_ne by done. by apply Hf.
  - intros c Hin. destruct (Hix c Hin) as (doc' & Hdoc & Hs').
    exists doc'. split; [| done]. rewrite lookup_alter_ne; [done |].
    intros Heq. rewrite <- Heq in Hdoc. congruence.
  - intros d' doc' Hd' Hs'.
    destruct (decide (d = d')) as [<- | Hne].
    + rewrite lookup_alter_eq, Hd in Hd'. injection Hd' as <-. contradiction.
    + rewrite lookup_alter_ne in Hd' by done. by apply Hc.
Qed.

Lemma begin_consistent d st : consistent st -> consistent (begin d st).
Proof.
  intros H. unfold begin. destruct (registry st !! d) as [doc|] eqn:Hd; [| done].
  destruct (status doc) eqn:Hs; try done.
  eapply update_consistent; [done | exact Hd | congruence | simpl; congruence].
Qed.

Lemma ingest_consistent size overlap d e st :
  consistent st -> consistent (ingest size overlap d e st).
Proof.
  intros H. unfold ingest.
  destruct (registry st !! d) as [doc|] eqn:Hd; [| done].
  destruct (status doc) eqn:Hs; try done.
  destruct e as [t|];
    [| eapply update_consistent; [done | exact Hd | congruence | simpl; congruence]].
  destruct (chunker size overlap t) as [|p ps] eqn:Hch;
    [eapply update_consistent; [done | exact Hd | congruence | simpl; congruence] |].
  destruct H as (Hf & Hix & Hc).
  assert (Hnone : forall c, c ∈ index st -> document_id c <> d).
  { intros c Hin Heq. destruct (Hix c Hin) as (doc' & Hdoc & Hs').
    rewrite Heq, Hd in Hdoc. injection Hdoc as <-. congruence. }
  unfold consistent, chunksReferencing. cbn [registry index nextDocument].
  split; [| split].
  - intros d' Hd'. destruct (decide (d = d')) as [<- | Hne].
    + rewrite Hf in Hd by done. discriminate.
    + rewrite lookup_alter_ne by done. by apply Hf.
  - intros c Hin. apply elem_of_app in Hin as [Hin | Hin].
    + destruct (Hix c Hin) as (doc' & Hdoc & Hs').
      exists doc'. split; [| done]. rewrite lookup_alter_ne; [done |].
      intros Heq. by apply (Hnone c Hin).
    + apply chunksOf_owner in Hin. rewrite Hin, lookup_alter_eq, Hd.
      by eexists.
  - intros d' doc' Hd' Hs'. rewrite referencing_app, referencing_chunksOf.
    destruct (decide (d = d')) as [<- | Hne].
    + rewrite lookup_alter_eq, Hd in Hd'. injection Hd' as <-.
      rewrite Nat.eqb_refl, (referencing_none d) by done. simpl. lia.
    + rewrite lookup_alter_ne in Hd' by done.
      apply Nat.eqb_neq in Hne. rewrite Hne, Nat.add_0_r. by apply Hc.
Qed.

Lemma delete_consistent d st : consistent st -> consistent (delete_document d st).
Proof.
  intros (Hf & Hix & Hc). unfold consistent, delete_document, chunksReferencing.
  cbn [registry index nextDocument]. split; [| split].
  - intros d' Hd'. destruct (decide (d = d')) as [<- | Hne].
    + apply lookup_delete_eq.
    + rewrite lookup_delete_ne by done. by apply Hf.
  - intros c Hin. apply elem_of_delete_by_document in Hin as [Hin Hne].
    destruct (Hix c Hin) as (doc & Hdoc & Hs). exists doc.
    split; [| done]. by rewrite lookup_delete_ne.
  - intros d' doc Hd' Hs. destruct (decide (d = d')) as [<- | Hne].
    + by rewrite lookup_delete_eq in Hd'.
    + rewrite lookup_delete_ne in Hd' by done.
      rewrite referencing_delete_other by done. by apply Hc.
Qed.

Lemma exec_consistent size overlap c st :
  consistent st -> consistent (exec size overlap c st).
Proof.
  destruct c; simpl; auto using create_consistent, begin_consistent,
    ingest_consistent, delete_consistent.
Qed.

Lemma history_consistent size overlap cs : consistent (history size overlap cs).
Proof.
  unfold history. induction cs as [|c cs IH] using rev_ind.
  - apply empty_consistent.
  - rewrite foldl_app. simpl. by apply exec_consistent.
Qed.

(** C2: in every state the system reaches, a document whose status is
    completed has a chunk count of at least 1 (which is the number of its
    chunks in the vector index), and after a document is deleted no chunk
    of the index references it. *)
Theorem completed_has_chunks_and_delete_cascades size overlap cs :
  let st := history size overlap cs in
  (forall d doc,
     registry st !! d = Some doc -> status doc = Completed ->
     1 <= chunk_count doc /\ chunk_count doc = chunksReferencing d st)
  /\ (forall d,
        chunksReferencing d (delete_document d st) = 0
        /\ registry (delete_document d st) !! d = None
        /\ forall c, c ∈ index (delete_document d st) -> document_id c <> d).
Proof.
  cbv zeta. destruct (history_consistent size overlap cs) as (_ & _ & Hc).
  split.
  - intros d doc Hd Hs. destruct (Hc d doc Hd Hs). by split.
  - intros d. split; [apply referencing_delete_same |].
    split; [apply lookup_delete_eq |].
    intros c Hin. by apply elem_of_delete_by_document in Hin as [_ Hin].
Qed.

Lemma completed_has_chunks_and_delete_cascades_witness :
  exists doc,
    registry (history 12 4 sampleHistory) !! 0 = Some doc
    /\ status doc = Completed
    /\ 1 <= chunk_count doc
    /\ chunk_count doc = chunksReferencing 0 (history 12 4 sampleHistory).
Proof.
  eexists. split; [vm_compute; reflexivity |]. split; [reflexivity |].
  apply (proj1 (completed_has_chunks_and_delete_cascades 12 4 sampleHistory) 0);
    reflexivity.
Defined.

(** *** Batch submission *)

Lemma submit_spec size overlap extract src st :
  consistent st ->
  consistent (submit size overlap extract src st)
  /\ nextDocument (submit size overlap extract src st) = S (nextDocument st)
  /\ (exists doc,
        registry (submit size overlap extract src st) !! nextDocument st = Some doc
        /\ status doc = outcome size overlap (extract src.2)
        /\ name doc = src.2)
  /\ (forall d, d <> nextDocument st ->
        registry (submit size overlap extract src st) !! d = registry st !! d).
Proof.
  intros H. unfold submit. split.
  { by apply ingest_consistent, begin_consistent, create_consistent. }
  unfold begin, create. cbn [registry nextDocument].
  rewrite lookup_insert_eq. cbn [status].
  unfold ingest, update. cbn [registry nextDocument].
  rewrite lookup_alter_eq, lookup_insert_eq. cbn [fmap option_fmap option_map status].
  unfold outcome.
  destruct (extract src.2) as [t|]; [destruct (chunker size overlap t) eqn:E |];
    cbn [registry nextDocument index].
  all: split; [reflexivity |]; split.
  all: try (eexists; rewrite !lookup_alter_eq, lookup_insert_eq;
            split; [reflexivity | split; reflexivity]).
  all: intros d Hd; by rewrite !lookup_alter_ne, lookup_insert_ne.
Qed.

Lemma submitBatch_spec size overlap extract srcs : forall st,
  consistent st ->
  consistent (submitBatch size overlap extract srcs st)
  /\ nextDocument (submitBatch size overlap extract srcs st)
     = nextDocument st + length srcs
  /\ (forall i src, srcs !! i = Some src ->
        exists doc,
          registry (submitBatch size overlap extract srcs st)
            !! (nextDocument st + i) = Some doc
          /\ status doc = outcome size overlap (extract src.2)
          /\ name doc = src.2)
  /\ (forall d, d < nextDocument st ->
        registry (submitBatch size overlap extract srcs st) !! d
        = registry st !! d).
Proof.
  induction srcs as [|src srcs IH]; intros st H.
  - simpl. split; [done |]. split; [lia |]. split; [| done].
    intros i src' Hi. by rewrite lookup_nil in Hi.
  - destruct (submit_spec size overlap extract src st H)
      as (H1 & Hn & (doc & Hdoc & Hs & Hname) & Hother).
    destruct (IH _ H1) as (H2 & Hn2 & Hitems & Hkeep).
    change (submitBatch size overlap extract (src :: srcs) st)
      with (submitBatch size overlap extract srcs
              (submit size overlap extract src st)).
    split; [done |]. split; [rewrite Hn2, Hn; simpl; lia |]. split.
    + intros [|i] src' Hi; simpl in Hi.
      * injection Hi as <-. exists doc. rewrite Nat.add_0_r.
        rewrite Hkeep by lia. done.
      * destruct (Hitems i src' Hi) as (doc' & Hdoc' & Hs' & Hn').
        exists doc'. rewrite Hn in Hdoc'.
        replace (nextDocument st + S i) with (S (nextDocument st) + i) by lia.
        done.
    + intros d Hd. rewrite Hkeep by lia. apply Hother. lia.
Qed.

(** *** The chat orchestrator *)

Lemma hasCompleted_false st :
  hasCompleted st = false <->
  forall d doc, registry st !! d = Some doc -> status doc <> Completed.
Proof.
  unfold hasCompleted. rewrite <- not_true_iff_false, List.existsb_exists.
  split.
  - intros Hno d doc Hd Hs. apply Hno. exists (d, doc). split.
    + apply list_elem_of_In. by apply elem_of_map_to_list.
    + simpl. by rewrite Hs.
  - intros Hall ([d doc] & Hin & Hs). simpl in Hs.
    apply list_elem_of_In, elem_of_map_to_list in Hin.
    apply (Hall d doc Hin). by destruct (status doc).
Qed.

Lemma orchestrate_without_documents model retrieve req st :
  mode req = Rag ->
  (forall d doc, registry st !! d = Some doc -> status doc <> Completed) ->
  let out := orchestrate model retrieve req st in
  let log := default (titleOf (message req), [])
               (conversations st
                  !! default (nextConversation st) (conversation_id req)) in
  let asked := model (mkPrompt log.2 [] (message req)) in
  context_used out.1 = false
  /\ sources out.1 = []
  /\ out = orchestrate model retrieve
             (mkRequest (message req) (conversation_id req) General) st
  /\ (forall t, asked = Some t ->
        answer out.1 = mkMessage false t [] false)
  /\ (asked = None ->
        from_user (answer out.1) = false /\ cited (answer out.1) = []
        /\ error_marker (answer out.1) = true)
  /\ (error_marker (answer out.1) = false <-> exists t, asked = Some t).
Proof.
  intros Hm Hno. apply hasCompleted_false in Hno. cbv zeta.
  unfold orchestrate. rewrite Hm, Hno. cbn [mode message conversation_id fst].
  split; [reflexivity |]. split; [reflexivity |]. split; [reflexivity |].
  cbn [answer].
  destruct (model _) as [t|].
  - split; [intros t' Ht'; by injection Ht' as <- |].
    split; [discriminate |]. split; [by exists t | done].
  - split; [discriminate |]. split; [done |].
    split; [discriminate | intros [t Ht]; discriminate].
Qed.

Lemma failedHistory_none_completed :
  forall d doc,
    registry (history 12 4 failedHistory) !! d = Some doc ->
    status doc <> Completed.
Proof. apply hasCompleted_false. vm_compute. reflexivity. Qed.

End BackendFacts.

(* ===================================================================== *)
(** ** Claims that span the front end and the back end *)
(* ===================================================================== *)

Section EndToEnd.

(** C3 (amended): a chat request in mode rag while no document is
    completed is answered exactly like a general request (the downgrade is
    silent): context_used is false, no source is attached, and nothing is
    retrieved.  The missing documents never cause an error: the answer is
    a normal assistant message without error marker exactly when the model
    invocation succeeds, and the error-marked assistant message when the
    invocation itself fails.  On the page, the rendered assistant message
    has context_used false whenever the response omits it. *)
Theorem rag_without_documents_is_general :
  (forall model retrieve req st,
     Backend.mode req = Backend.Rag ->
     (forall d doc, Backend.registry st !! d = Some doc ->
                    Backend.status doc <> Backend.Completed) ->
     let out := Backend.orchestrate model retrieve req st in
     let log := default (Backend.titleOf (Backend.message req), [])
                  (Backend.conversations st
                     !! default (Backend.nextConversation st)
                          (Backend.conversation_id req)) in
     let asked := model (Backend.mkPrompt log.2 [] (Backend.message req)) in
     Backend.context_used out.1 = false
     /\ Backend.sources out.1 = []
     /\ out = Backend.orchestrate model retrieve
                (Backend.mkRequest (Backend.message req)
                   (Backend.conversation_id req) Backend.General) st
     /\ (forall t, asked = Some t ->
           Backend.answer out.1 = Backend.mkMessage false t [] false)
     /\ (asked = None ->
           Backend.from_user (Backend.answer out.1) = false
           /\ Backend.cited (Backend.answer out.1) = []
           /\ Backend.error_marker (Backend.answer out.1) = true)
     /\ (Backend.error_marker (Backend.answer out.1) = false
         <-> exists t, asked = Some t))
  /\ (forall env s (response : gmap string JsValue),
        Chat.accepts s -> Chat.reply env = Resolved (JObj response) ->
        response !! "context_used" = None ->
        exists u a,
          Chat.messages (Chat.sendMessage env s)
          = List.filter
              (fun msg =>
                 strictNeq (Chat.id msg)
                   (Chat.id (Chat.tempMessage env
                               (trim (Chat.currentMessage s)))))
              (Chat.messages s) ++ [u; a]
          /\ Chat.role a = JStr (lit "assistant")
          /\ Chat.context_used a = JBool false
          /\ Chat.contextBadgeDisplayed a = false).
Proof.
  split.
  - intros model retrieve req st Hm Hno.
    exact (orchestrate_without_documents model retrieve req st Hm Hno).
  - intros env s response Ha Hr Hc.
    destruct (sendMessage_resolved env s (JObj response) _ Ha Hr
                (chartData_object response)) as (Hm & _ & _).
    eexists _, _. split; [exact Hm |].
    split; [reflexivity |].
    cbn [Chat.context_used Chat.contextBadgeDisplayed Chat.role prop].
    rewrite Hc. split; reflexivity.
Qed.

Lemma rag_without_documents_is_general_witness :
  (forall d doc,
     Backend.registry (Backend.history 12 4 Backend.failedHistory) !! d
     = Some doc ->
     Backend.status doc <> Backend.Completed)
  /\ Backend.orchestrate Backend.sampleModel Backend.eagerRetrieve
       (Backend.mkRequest "What was the revenue?" None Backend.Rag)
       (Backend.history 12 4 Backend.failedHistory)
     = Backend.orchestrate Backend.sampleModel Backend.eagerRetrieve
         (Backend.mkRequest "What was the revenue?" None Backend.General)
         (Backend.history 12 4 Backend.failedHistory)
  /\ Backend.context_used
       (Backend.orchestrate Backend.sampleModel Backend.eagerRetrieve
          (Backend.mkRequest "What was the revenue?" None Backend.Rag)
          (Backend.history 12 4 Backend.failedHistory)).1 = false
  /\ Backend.answer
       (Backend.orchestrate Backend.sampleModel Backend.eagerRetrieve
          (Backend.mkRequest "What was the revenue?" None Backend.Rag)
          (Backend.history 12 4 Backend.failedHistory)).1
     = Backend.mkMessage false "An answer." [] false
  /\ exists u a,
       Chat.messages
         (Chat.sendMessage (Chat.sampleEnv (Resolved (JObj Chat.plainResponse)))
            Chat.sampleState)
       = List.filter
           (fun msg =>
              strictNeq (Chat.id msg)
                (Chat.id (Chat.tempMessage
                            (Chat.sampleEnv (Resolved (JObj Chat.plainResponse)))
                            (trim (Chat.currentMessage Chat.sampleState)))))
           (Chat.messages Chat.sampleState) ++ [u; a]
       /\ Chat.role a = JStr (lit "assistant")
       /\ Chat.context_used a = JBool false
       /\ Chat.contextBadgeDisplayed a = false.
Proof.
  split; [exact failedHistory_none_completed |].
  destruct (proj1 rag_without_documents_is_general Backend.sampleModel
              Backend.eagerRetrieve
              (Backend.mkRequest "What was the revenue?" None Backend.Rag)
              (Backend.history 12 4 Backend.failedHistory) eq_refl
              failedHistory_none_completed) as (H1 & _ & H3 & H4 & _).
  split; [exact H3 |]. split; [exact H1 |].
  split; [exact (H4 "An answer." eq_refl) |].
  assert (Ha : Chat.accepts Chat.sampleState)
    by (split; [vm_compute; discriminate | reflexivity]).
  exact (proj2 rag_without_documents_is_general
           (Chat.sampleEnv (Resolved (JObj Chat.plainResponse)))
           Chat.sampleState Chat.plainResponse Ha eq_refl eq_refl).
Defined.

(** C3 as stated fails: with documents in the registry but none of them
    completed, a request in mode rag whose model invocation fails is
    answered with an error-marked assistant message, not a normal one;
    context_used is false all the same. *)
Lemma rag_without_documents_counterexample :
  let st := Backend.history 12 4 Backend.failedHistory in
  let out := Backend.orchestrate Backend.failingModel Backend.eagerRetrieve
               (Backend.mkRequest "What was the revenue?" None Backend.Rag) st in
  Backend.registry st <> ∅
  /\ Backend.hasCompleted st = false
  /\ Backend.context_used out.1 = false
  /\ Backend.answer out.1
     = Backend.mkMessage false "The assistant could not answer." [] true
  /\ Backend.error_marker (Backend.answer out.1) <> false.
Proof.
  cbv zeta. split; [| split; [| split; [| split]]].
  - intros H. apply (f_equal (fun m => m !! 0)) in H. vm_compute in H.
    discriminate H.
  - vm_compute. reflexivity.
  - vm_compute. reflexivity.
  - vm_compute. reflexivity.
  - vm_compute. discriminate.
Qed.

(** C8: the entered web URLs fan out into exactly the trimmed non-empty
    ones, in their original order, each tagged "web_url", sent in one batch
    request; when every entry is blank nothing is sent.  In the back end
    every source of a batch gets its own document, which ends completed or
    failed with the outcome of its own extraction, whatever happens to the
    other sources of the batch. *)
Theorem handleWebUrlsSubmit_fans_out :
  (forall processed r s (entered : list jsstring),
     KnowledgeBase.webUrls s = KnowledgeBase.Url <$> entered ->
     (Spec.fanOut entered <> [] ->
      Api.ingestionCalls
        (KnowledgeBase.effects (KnowledgeBase.handleWebUrlsSubmit processed r s))
      = Api.ingestionCalls (KnowledgeBase.effects s)
        ++ [("processMultipleSources",
             [JObj (<["sources" := JArr (Spec.fanOut entered)]> ∅)])])
     /\ (Spec.fanOut entered = [] ->
         KnowledgeBase.handleWebUrlsSubmit processed r s = s))
  /\ (forall size overlap extract srcs cs i src,
        let st := Backend.history size overlap cs in
        srcs !! i = Some src ->
        exists doc,
          Backend.registry (Backend.submitBatch size overlap extract srcs st)
            !! (Backend.nextDocument st + i) = Some doc
          /\ Backend.status doc = Backend.outcome size overlap (extract src.2)
          /\ Backend.name doc = src.2).
Proof.
  split.
  - intros processed r s entered Hw.
    exact (handleWebUrlsSubmit_calls processed r s entered Hw).
  - intros size overlap extract srcs cs i src st Hi.
    destruct (submitBatch_spec size overlap extract srcs st
                (history_consistent size overlap cs)) as (_ & _ & Hitems & _).
    exact (Hitems i src Hi).
Qed.

Lemma handleWebUrlsSubmit_fans_out_witness :
  Api.ingestionCalls
    (KnowledgeBase.effects
       (KnowledgeBase.handleWebUrlsSubmit (Resolved JNull)
          KnowledgeBase.sampleReload KnowledgeBase.sampleState))
  = [("processMultipleSources",
      [JObj (<["sources" :=
                JArr [JObj (<["url" := JStr (lit "https://a.example/x")]>
                              (<["type" := JStr (lit "web_url")]> ∅));
                      JObj (<["url" := JStr (lit "https://b.example")]>
                              (<["type" := JStr (lit "web_url")]> ∅))]]> ∅)])]
  /\ exists doc,
       Backend.registry
         (Backend.submitBatch 12 4 Backend.sampleExtract
            [(Backend.WebUrl, "http://down"); (Backend.WebUrl, "http://up")]
            (Backend.history 12 4 Backend.sampleHistory))
         !! (Backend.nextDocument (Backend.history 12 4 Backend.sampleHistory) + 1)
       = Some doc
       /\ Backend.status doc = Backend.Completed.
Proof.
  split.
  - apply (proj1 (proj1 handleWebUrlsSubmit_fans_out (Resolved JNull)
                    KnowledgeBase.sampleReload KnowledgeBase.sampleState
                    [lit " https://a.example/x "; lit "   ";
                     lit "https://b.example"] eq_refl)).
    vm_compute. discriminate.
  - destruct (proj2 handleWebUrlsSubmit_fans_out 12 4 Backend.sampleExtract
                [(Backend.WebUrl, "http://down"); (Backend.WebUrl, "http://up")]
                Backend.sampleHistory 1 (Backend.WebUrl, "http://up") eq_refl)
      as (doc & Hdoc & Hs & _).
    exists doc. split; [exact Hdoc | exact Hs].
Defined.

End EndToEnd.

(* ===================================================================== *)
(** ** Properties of components/TallyDataFetcher.jsx *)
(* ===================================================================== *)

Section TallyFacts.

Import Tally.


(** [stopDataFetching] clears the timer held in [intervalRef], if any, and
    leaves the other live timers alone. *)
Lemma stopDataFetching_clears s :
  intervalRef (stopDataFetching s) = None \/ intervalRef s = Some 0.
Proof.
  unfold stopDataFetching. destruct (intervalRef s) as [[|t]|] eqn:E; simpl.
  - by right.
  - by left.
  - by left.
Qed.

Lemma stopDataFetching_timers s t :
  intervalRef s = Some (S t) ->
  timers (stopDataFetching s)
  = List.filter (fun u => negb (u =? S t)%nat) (timers s).
Proof. intros E. unfold stopDataFetching. rewrite E. reflexivity. Qed.

(** When the only live timer is the one held in [intervalRef], stopping
    leaves no live timer. *)
Lemma stopDataFetching_sequential s t :
  intervalRef s = Some (S t) -> timers s = [S t] ->
  timers (stopDataFetching s) = [] /\ isDataFetching (stopDataFetching s) = false.
Proof.
  intros E Ht. split.
  - rewrite (stopDataFetching_timers s t E), Ht. simpl.
    by rewrite Nat.eqb_refl.
  - unfold stopDataFetching. by rewrite E.
Qed.






(** The service declares the method that fetches the live data and
    neither of the two connection methods. *)
Example tally_methods_declared :
  Api.declared "getTallyLiveData" = true
  /\ Api.declared "connectTallyOdbc" = false
  /\ Api.declared "disconnectTallyOdbc" = false
  /\ forall r, shipped (Connect r) = rejected r
               /\ shipped (Disconnect r) = rejected r.
Proof. repeat split; reflexivity. Qed.






(** What the handlers would do with a service that did connect, which the
    shipped one cannot: [startDataFetching] is called on a connected page
    and [stopDataFetching] while the first fetch is still awaited; when
    that fetch settles the suspended call creates the interval timer, so a
    timer is live although the page shows fetching as stopped.  Likewise a
    first fetch that reports a failure disconnects the page and the timer
    is created all the same. *)
Lemma stop_during_first_fetch :
  let connected := connectToTally (Resolved okReply) initial in
  let stopped := run [CallStart; CallStop] connected in
  let settled := step (StartFetchSettles 0 (Resolved okReply)) stopped in
  let lost := run [CallStart; StartFetchSettles 0 (Resolved failedReply)]
                connected in
  isConnected connected = true
  /\ timers stopped = [] /\ intervalRef stopped = None
  /\ startsAwaiting stopped = [30%Z]
  /\ isDataFetching settled = false
  /\ timers settled = [1] /\ intervalRef settled = Some 1
  /\ actions (step (Tick 1) settled) = actions settled ++ [Fetch (Periodic 1)]
  /\ isConnected lost = false
  /\ timers lost = [1]
  /\ actions (step (Tick 1) lost) = actions lost ++ [Fetch (Periodic 1)].
Proof. cbv zeta. repeat split; vm_compute; reflexivity. Qed.

(** *** TallyAnalytics *)

Lemma jsOr_firstTruthy a b d :
  jsOr (jsOr a b) d = Spec.firstTruthy [a; b] d.
Proof.
  unfold jsOr. simpl. destruct (truthy a) eqn:Ea; [by rewrite Ea |].
  by destruct (truthy b) eqn:Eb; rewrite ?Eb.
Qed.

(** C4 (amended): each concept of a ledger record is resolved through an
    ordered alias list in which the first alias with a truthy value wins:
    the balance is the opening_balance field when that is truthy, otherwise
    the balance field when that is truthy, otherwise 0; the group is the
    parent field when truthy, otherwise the group field when truthy,
    otherwise "N/A".  A field that is absent, or present with the value 0,
    the empty string, null or false, is passed over. *)
Theorem ledger_aliases_first_truthy (l : Ledger) :
  ledgerBalance l
  = Spec.firstTruthy [field l "opening_balance"; field l "balance"] (JNum 0)
  /\ ledgerGroup l
     = Spec.firstTruthy [field l "parent"; field l "group"] (JStr (lit "N/A"))
  /\ (truthy (field l "opening_balance") = true ->
      ledgerBalance l = field l "opening_balance")
  /\ (truthy (field l "opening_balance") = false ->
      truthy (field l "balance") = true ->
      ledgerBalance l = field l "balance")
  /\ (truthy (field l "opening_balance") = false ->
      truthy (field l "balance") = false ->
      ledgerBalance l = JNum 0)
  /\ (truthy (field l "parent") = true -> ledgerGroup l = field l "parent")
  /\ (truthy (field l "parent") = false -> truthy (field l "group") = true ->
      ledgerGroup l = field l "group")
  /\ (truthy (field l "parent") = false -> truthy (field l "group") = false ->
      ledgerGroup l = JStr (lit "N/A")).
Proof.
  unfold ledgerBalance, ledgerGroup. rewrite !jsOr_firstTruthy.
  split; [reflexivity |]. split; [reflexivity |].
  cbn [Spec.firstTruthy].
  repeat split; intros; repeat match goal with
                               | H : truthy _ = _ |- _ => rewrite H; clear H
                               end; reflexivity.
Qed.

Lemma ledger_aliases_first_truthy_witness :
  truthy (field zeroOpeningLedger "opening_balance") = false
  /\ truthy (field zeroOpeningLedger "balance") = true
  /\ ledgerBalance zeroOpeningLedger = field zeroOpeningLedger "balance".
Proof.
  split; [reflexivity |]. split; [reflexivity |].
  apply (proj1 (proj2 (proj2 (proj2 (ledger_aliases_first_truthy
                                        zeroOpeningLedger)))));
    reflexivity.
Defined.

(** C4 as stated fails: a ledger whose opening_balance field is present
    with the value 0 is shown with its balance field, and a ledger whose
    parent field is present but empty is shown with its group field. *)
Lemma ledger_aliases_counterexample :
  zeroOpeningLedger !! "opening_balance" = Some (JNum 0)
  /\ ledgerBalance zeroOpeningLedger = JNum 500
  /\ ledgerBalance zeroOpeningLedger <> JNum 0
  /\ emptyParentLedger !! "parent" = Some (JStr (lit ""))
  /\ ledgerGroup emptyParentLedger = JStr (lit "Assets")
  /\ ledgerGroup emptyParentLedger <> JStr (lit "").
Proof.
  split; [reflexivity |]. split; [reflexivity |].
  split; [vm_compute; discriminate |].
  split; [reflexivity |]. split; [reflexivity |].
  vm_compute. discriminate.
Qed.

End TallyFacts.

(* ===================================================================== *)
(** ** Further properties of the string operations *)
(* ===================================================================== *)

Section StringFacts.

(** [trimStart] splits a string into a run of white space and a rest
    that is empty or starts with another code unit. *)
Lemma trimStart_split (s : jsstring) :
  exists p, s = p ++ trimStart s
            /\ Forall (fun c => isWhiteSpace c = true) p
            /\ match trimStart s with
               | [] => True
               | c :: _ => isWhiteSpace c = false
               end.
Proof.
  induction s as [|c s IH].
  - exists []. by repeat split.
  - simpl. destruct (isWhiteSpace c) eqn:E.
    + destruct IH as (p & Hs & Hp & Hh). exists (c :: p).
      split; [simpl; by f_equal |]. split; [by constructor | done].
    + exists []. repeat split; [constructor | done].
Qed.

Lemma trimStart_fixed (s : jsstring) :
  match s with [] => True | c :: _ => isWhiteSpace c = false end ->
  trimStart s = s.
Proof. destruct s as [|c s]; [done |]. simpl. by intros ->. Qed.

Lemma trimStart_nil (s : jsstring) :
  trimStart s = [] <-> Forall (fun c => isWhiteSpace c = true) s.
Proof.
  induction s as [|c s IH]; [by split |]. simpl.
  destruct (isWhiteSpace c) eqn:E.
  - rewrite IH. split; [by constructor | by inversion 1].
  - split; [discriminate | inversion 1; congruence].
Qed.

(** [trim] gives the empty string exactly for strings made of white
    space only. *)
Lemma trim_nil (s : jsstring) :
  trim s = [] <-> Forall (fun c => isWhiteSpace c = true) s.
Proof.
  unfold trim, trimEnd. split.
  - intros H. apply (f_equal (@rev N)) in H. rewrite rev_involutive in H.
    simpl in H. apply trimStart_nil in H.
    destruct (trimStart_split s) as (p & Hs & Hp & Hh).
    destruct (trimStart s) as [|c t] eqn:E; [by apply trimStart_nil |].
    exfalso. apply Forall_rev in H. rewrite rev_involutive in H.
    inversion H; congruence.
  - intros H. apply trimStart_nil in H. by rewrite H.
Qed.

(** A trimmed string is empty, or starts and ends with a code unit that
    is not white space. *)
Lemma trim_clean (s : jsstring) :
  match trim s with [] => True | c :: _ => isWhiteSpace c = false end
  /\ match rev (trim s) with [] => True | c :: _ => isWhiteSpace c = false end.
Proof.
  unfold trim, trimEnd.
  destruct (trimStart_split s) as (_ & _ & _ & Hhead).
  destruct (trimStart_split (rev (trimStart s))) as (p & Hs & _ & Hlast).
  rewrite rev_involutive. split; [| exact Hlast].
  apply (f_equal (@rev N)) in Hs. rewrite rev_involutive, rev_app_distr in Hs.
  destruct (rev (trimStart (rev (trimStart s)))) as [|c t] eqn:E; [done |].
  rewrite Hs in Hhead. exact Hhead.
Qed.

(** Trimming twice is trimming once. *)
Lemma trim_idempotent (s : jsstring) : trim (trim s) = trim s.
Proof.
  destruct (trim_clean s) as [Hh Hl].
  unfold trim at 1. unfold trimEnd.
  rewrite (trimStart_fixed (trim s)) by exact Hh.
  rewrite (trimStart_fixed (rev (trim s))) by exact Hl.
  apply rev_involutive.
Qed.

End StringFacts.

(* ===================================================================== *)
(** ** Further properties of pages/Chat.jsx *)
(* ===================================================================== *)

Section ChatTurns.

Import Chat.

(** The state [sendMessage] works on once the guard has let it in. *)
Local Abbreviation entered env s :=
  (emit (ApiCall "sendMessage"
           [JStr (trim (currentMessage s)); currentConversationId s;
            JStr (chatMode s)])
     (setMessages
        (fun prev => prev ++ [tempMessage env (trim (currentMessage s))])
        (setLoading true (setCurrentMessage [] s)))).

Local Abbreviation notTemp env s :=
  (fun msg : Message =>
     strictNeq (id msg) (id (tempMessage env (trim (currentMessage s))))).

Lemma filter_twice {A} (p : A -> bool) (l : list A) :
  List.filter p (List.filter p l) = List.filter p l.
Proof.
  induction l as [|a l IH]; [done |]. simpl.
  destruct (p a) eqn:E; simpl; [rewrite E; by f_equal | done].
Qed.

Lemma chartData_none response :
  chartData response = None <-> response = JNull \/ response = JUndefined.
Proof.
  split.
  - intros H. destruct response as [| |b|z|str|l|m]; try (by left);
      try (by right); try discriminate H.
    by rewrite chartData_object in H.
  - by intros [-> | ->].
Qed.

(** The run of [sendMessage] whose response can be read. *)
Lemma sendMessage_resolved_state env s response cd :
  accepts s -> reply env = Resolved response ->
  chartData response = Some cd ->
  sendMessage env s
  = setLoading false
      (let base :=
         setMessages
           (fun prev =>
              prev ++ newMessages env (trim (currentMessage s)) response cd)
           (setMessages (List.filter (notTemp env s)) (entered env s)) in
       if match currentConversation s with
          | None => true
          | Some c =>
              strictNeq (conv_id c)
                (default JUndefined (prop response "conversation_id"))
          end
       then loadConversations (reloaded env)
              (setCurrentConversation
                 (Some (mkConversation
                          (default JUndefined (prop response "conversation_id"))
                          (JStr (title (trim (currentMessage s))))))
                 base)
       else base).
Proof.
  intros Ha Hr Hcd. unfold sendMessage. rewrite (accepts_guard _ Ha).
  unfold sendMessage_try. rewrite Hr, Hcd.
  change (currentConversation (emit _ _)) with (currentConversation s).
  by destruct (match currentConversation s with
               | None => true
               | Some c => strictNeq (conv_id c) _
               end).
Qed.

(** The run of [sendMessage] whose response is [null] or [undefined]. *)
Lemma sendMessage_unreadable_state env s response :
  accepts s -> reply env = Resolved response -> chartData response = None ->
  sendMessage env s
  = setLoading false
      (sendMessage_catch (tempMessage env (trim (currentMessage s)))
         (setMessages (List.filter (notTemp env s)) (entered env s))).
Proof.
  intros Ha Hr Hcd. unfold sendMessage. rewrite (accepts_guard _ Ha).
  unfold sendMessage_try. by rewrite Hr, Hcd.
Qed.

Lemma loadConversations_currentMessage r s :
  currentMessage (loadConversations r s) = currentMessage s.
Proof.
  unfold loadConversations. destruct r as [data|err]; simpl; [|done].
  by destruct (negb (truthy data) || _).
Qed.

Lemma new_ids_differ env s response cd m :
  m ∈ newMessages env (trim (currentMessage s)) response cd ->
  notTemp env s m = true.
Proof.
  intros Hm. unfold newMessages in Hm.
  apply elem_of_cons in Hm as [-> | Hm];
    [| apply list_elem_of_singleton in Hm as ->];
    unfold strictNeq; cbn [id tempMessage strictEq];
    rewrite bool_decide_eq_false_2; try reflexivity;
    cbn [lit app]; intros H; discriminate H.
Qed.

(** What every accepted run of [sendMessage] leaves behind, whatever the
    outcome of the request. *)
Lemma sendMessage_accepted env s :
  accepts s ->
  messages (sendMessage env s)
  = List.filter (notTemp env s) (messages s) ++ added env s
  /\ loading (sendMessage env s) = false
  /\ currentMessage (sendMessage env s) = [].
Proof.
  intros Ha. unfold added.
  destruct (reply env) as [response|err] eqn:Hr.
  - destruct (chartData response) as [cd|] eqn:Hcd.
    + rewrite (sendMessage_resolved_state env s response cd Ha Hr Hcd).
      cbv zeta.
      destruct (match currentConversation s with
                | None => true
                | Some c => strictNeq (conv_id c) _
                end).
      * change (messages (setLoading false ?x)) with (messages x).
        change (currentMessage (setLoading false ?x)) with (currentMessage x).
        rewrite loadConversations_messages, loadConversations_currentMessage.
        cbn [emit messages setMessages setLoading setCurrentMessage
             setCurrentConversation currentMessage loading].
        rewrite (filter_drops_temp _ _
                   (lit "temp-" ++ decimal (now (clock_temp env))))
          by reflexivity.
        repeat split; reflexivity.
      * cbn [emit messages setMessages setLoading setCurrentMessage
             setCurrentConversation currentMessage loading].
        rewrite (filter_drops_temp _ _
                   (lit "temp-" ++ decimal (now (clock_temp env))))
          by reflexivity.
        repeat split; reflexivity.
    + rewrite (sendMessage_unreadable_state env s response Ha Hr Hcd).
      unfold sendMessage_catch.
      cbn [emit messages setMessages setLoading setCurrentMessage
           currentMessage loading].
      rewrite filter_twice.
      rewrite (filter_drops_temp _ _
                 (lit "temp-" ++ decimal (now (clock_temp env))))
        by reflexivity.
      rewrite app_nil_r. repeat split; reflexivity.
  - rewrite (sendMessage_rejected env s err Ha Hr).
    unfold sendMessage_catch.
    cbn [emit messages setMessages setLoading setCurrentMessage
         currentMessage loading].
    rewrite (filter_drops_temp _ _
               (lit "temp-" ++ decimal (now (clock_temp env))))
      by reflexivity.
    rewrite app_nil_r. repeat split; reflexivity.
Qed.

(** X1: [sendMessage] does nothing at all exactly when the typed message
    holds no code unit other than white space or a request is already in
    flight. *)
Theorem sendMessage_noop_iff env s :
  sendMessage env s = s
  <-> Forall (fun c => isWhiteSpace c = true) (currentMessage s)
      \/ loading s = true.
Proof.
  rewrite <- trim_nil. split.
  - intros Hs. destruct (loading s) eqn:Hl; [by right |].
    destruct (trim (currentMessage s)) as [|c t] eqn:Ht; [by left |].
    assert (Ha : accepts s) by (split; [by rewrite Ht | done]).
    destruct (sendMessage_accepted env s Ha) as (_ & _ & Hc).
    rewrite Hs in Hc. rewrite Hc in Ht. discriminate Ht.
  - intros H. unfold sendMessage.
    destruct H as [H | H]; rewrite H; [done |].
    by rewrite orb_true_r.
Qed.

(** X2: after every accepted run of [sendMessage], whether the request
    resolved, rejected or answered [null], the loading flag is released,
    the input is cleared and no message with the temporary id is left in
    the list. *)
Theorem sendMessage_settles env s :
  accepts s ->
  loading (sendMessage env s) = false
  /\ currentMessage (sendMessage env s) = []
  /\ forall m, m ∈ messages (sendMessage env s) ->
       strictNeq (id m) (id (tempMessage env (trim (currentMessage s)))) = true.
Proof.
  intros Ha. destruct (sendMessage_accepted env s Ha) as (Hm & Hl & Hc).
  split; [exact Hl |]. split; [exact Hc |].
  intros m Hin. rewrite Hm in Hin. apply elem_of_app in Hin as [Hin | Hin].
  - apply list_elem_of_In, List.filter_In in Hin. tauto.
  - unfold added in Hin. destruct (reply env) as [response|err];
      [| by apply elem_of_nil in Hin].
    destruct (chartData response) as [cd|]; [| by apply elem_of_nil in Hin].
    by eapply new_ids_differ.
Qed.

Lemma sendMessage_settles_witness :
  accepts sampleState
  /\ loading (sendMessage (sampleEnv (Resolved JNull)) sampleState) = false
  /\ currentMessage (sendMessage (sampleEnv (Resolved JNull)) sampleState) = []
  /\ forall m,
       m ∈ messages (sendMessage (sampleEnv (Resolved JNull)) sampleState) ->
       strictNeq (id m)
         (id (tempMessage (sampleEnv (Resolved JNull))
                (trim (currentMessage sampleState)))) = true.
Proof.
  assert (Ha : accepts sampleState)
    by (split; [vm_compute; discriminate | reflexivity]).
  split; [exact Ha |].
  exact (sendMessage_settles (sampleEnv (Resolved JNull)) sampleState Ha).
Defined.

(** X3: a response that is [null] or [undefined] is handled like a
    rejected request: the two runs end in the same state (temporary
    message removed, error toast shown, nothing appended). *)
Theorem sendMessage_unreadable_is_failure env s response err :
  accepts s -> response = JNull \/ response = JUndefined ->
  sendMessage (withReply (Resolved response) env) s
  = sendMessage (withReply (Rejected err) env) s.
Proof.
  intros Ha Hn. apply chartData_none in Hn.
  rewrite (sendMessage_unreadable_state (withReply (Resolved response) env)
             s response Ha eq_refl Hn).
  rewrite (sendMessage_rejected (withReply (Rejected err) env) s err Ha eq_refl).
  unfold sendMessage_catch, setLoading, setMessages, emit, setCurrentMessage.
  cbn [messages currentMessage conversations currentConversation loading
       conversationsLoading chatMode effects].
  f_equal. by rewrite filter_twice.
Qed.

Lemma sendMessage_unreadable_is_failure_witness :
  accepts sampleState
  /\ sendMessage (withReply (Resolved JNull) (sampleEnv (Resolved JNull)))
       sampleState
     = sendMessage (withReply (Rejected JNull) (sampleEnv (Resolved JNull)))
         sampleState.
Proof.
  assert (Ha : accepts sampleState)
    by (split; [vm_compute; discriminate | reflexivity]).
  split; [exact Ha |].
  exact (sendMessage_unreadable_is_failure (sampleEnv (Resolved JNull))
           sampleState JNull JNull Ha (or_introl eq_refl)).
Defined.

(** X4: a run whose request resolves with an object appends exactly two
    messages, the user's trimmed text followed by the assistant's answer;
    the answer falls back to "No response from assistant." when the
    response has no (or an empty) message, and the sources fall back to the
    empty list.  When no earlier message carries the temporary id, the
    earlier messages are all kept, so the list grows by exactly two. *)
Theorem sendMessage_appends_two env s (response : gmap string JsValue) :
  accepts s -> reply env = Resolved (JObj response) ->
  (forall m, m ∈ messages s ->
     strictNeq (id m) (id (tempMessage env (trim (currentMessage s)))) = true) ->
  exists u a,
    messages (sendMessage env s) = messages s ++ [u; a]
    /\ role u = JStr (lit "user")
    /\ content u = JStr (trim (currentMessage s))
    /\ role a = JStr (lit "assistant")
    /\ content a
       = (if truthy (default JUndefined (response !! "message"))
          then default JUndefined (response !! "message")
          else JStr (lit "No response from assistant."))
    /\ sources a
       = (if truthy (default JUndefined (response !! "sources"))
          then default JUndefined (response !! "sources")
          else JArr []).
Proof.
  intros Ha Hr Hids.
  destruct (sendMessage_accepted env s Ha) as (Hm & _ & _).
  unfold added in Hm. rewrite Hr, chartData_object in Hm.
  rewrite (filter_all _ _ Hids) in Hm.
  eexists _, _. split; [exact Hm |]. repeat split; reflexivity.
Qed.

Lemma sendMessage_appends_two_witness :
  accepts sampleState
  /\ exists u a,
       messages (sendMessage (sampleEnv (Resolved (JObj plainResponse)))
                   sampleState)
       = messages sampleState ++ [u; a]
       /\ role u = JStr (lit "user")
       /\ content u = JStr (trim (currentMessage sampleState))
       /\ role a = JStr (lit "assistant")
       /\ content a
          = (if truthy (default JUndefined (plainResponse !! "message"))
             then default JUndefined (plainResponse !! "message")
             else JStr (lit "No response from assistant."))
       /\ sources a
          = (if truthy (default JUndefined (plainResponse !! "sources"))
             then default JUndefined (plainResponse !! "sources")
             else JArr []).
Proof.
  assert (Ha : accepts sampleState)
    by (split; [vm_compute; discriminate | reflexivity]).
  split; [exact Ha |].
  apply (sendMessage_appends_two (sampleEnv (Resolved (JObj plainResponse)))
           sampleState plainResponse Ha eq_refl).
  intros m Hm. apply list_elem_of_singleton in Hm. subst m. reflexivity.
Defined.

(** X5: a turn inside the current conversation (the response carries the
    id the page already holds) keeps the current conversation with its
    title, keeps the conversation list and the chat mode, and makes no
    request besides the chat request itself: the list is not reloaded. *)
Theorem sendMessage_same_conversation env s response c rid :
  accepts s -> reply env = Resolved response ->
  currentConversation s = Some c ->
  prop response "conversation_id" = Some rid ->
  strictEq (conv_id c) rid = true ->
  currentConversation (sendMessage env s) = Some c
  /\ conversations (sendMessage env s) = conversations s
  /\ chatMode (sendMessage env s) = chatMode s
  /\ effects (sendMessage env s)
     = effects s
       ++ [ApiCall "sendMessage"
             [JStr (trim (currentMessage s)); conv_id c; JStr (chatMode s)]].
Proof.
  intros Ha Hr Hc Hid Heq.
  destruct (chartData_defined _ _ _ Hid) as [cd Hcd].
  rewrite (sendMessage_resolved_state env s response cd Ha Hr Hcd).
  cbv zeta. rewrite Hc, Hid.
  change (default JUndefined (Some rid)) with rid.
  unfold strictNeq. rewrite Heq. cbn [negb].
  unfold currentConversationId. rewrite Hc.
  repeat split; try reflexivity. cbn. by rewrite Hc.
Qed.

Lemma sendMessage_same_conversation_witness :
  let s := setCurrentConversation
             (Some (mkConversation (JNum 7) (JStr (lit "first question"))))
             sampleState in
  accepts s
  /\ currentConversation
       (sendMessage (sampleEnv (Resolved (JObj plainResponse))) s)
     = Some (mkConversation (JNum 7) (JStr (lit "first question"))).
Proof.
  cbv zeta.
  assert (Ha : accepts
                 (setCurrentConversation
                    (Some (mkConversation (JNum 7) (JStr (lit "first question"))))
                    sampleState))
    by (split; [vm_compute; discriminate | reflexivity]).
  split; [exact Ha |].
  exact (proj1 (sendMessage_same_conversation
                  (sampleEnv (Resolved (JObj plainResponse))) _
                  (JObj plainResponse) _ (JNum 7) Ha eq_refl eq_refl eq_refl
                  eq_refl)).
Defined.

(** X6: the title of a conversation comes from its first message and
    later turns keep it: after a first turn that opens conversation [rid]
    and a second turn answered under the same id (a number, string or
    boolean, so that [===] recognises it), the current conversation still
    carries the title made from the first message. *)
Theorem title_survives_second_turn env1 env2 s r1 r2 rid second :
  accepts s -> currentConversation s = None ->
  reply env1 = Resolved r1 -> prop r1 "conversation_id" = Some rid ->
  reply env2 = Resolved r2 -> prop r2 "conversation_id" = Some rid ->
  strictEq rid rid = true ->
  trim second <> [] ->
  currentConversation
    (sendMessage env2 (setCurrentMessage second (sendMessage env1 s)))
  = Some (mkConversation rid (JStr (title (trim (currentMessage s))))).
Proof.
  intros Ha Hnone Hr1 Hid1 Hr2 Hid2 Heq Hsecond.
  destruct (chartData_defined _ _ _ Hid1) as [cd1 Hcd1].
  destruct (sendMessage_resolved env1 s r1 cd1 Ha Hr1 Hcd1) as (_ & Hc1 & Hl1).
  rewrite Hnone, Hid1 in Hc1. change (default JUndefined (Some rid)) with rid in Hc1.
  set (s1 := setCurrentMessage second (sendMessage env1 s)).
  assert (Ha1 : accepts s1) by (split; [exact Hsecond | exact Hl1]).
  assert (Hcur : currentConversation s1
                 = Some (mkConversation rid (JStr (title (trim (currentMessage s))))))
    by exact Hc1.
  exact (proj1 (sendMessage_same_conversation env2 s1 r2 _ rid Ha1 Hr2 Hcur
                  Hid2 Heq)).
Qed.

Lemma title_survives_second_turn_witness :
  accepts sampleState
  /\ currentConversation
       (sendMessage (sampleEnv (Resolved (JObj chartResponse)))
          (setCurrentMessage (lit "and the expenses?")
             (sendMessage (sampleEnv (Resolved (JObj plainResponse)))
                sampleState)))
     = Some (mkConversation (JNum 7)
               (JStr (title (trim (currentMessage sampleState))))).
Proof.
  assert (Ha : accepts sampleState)
    by (split; [vm_compute; discriminate | reflexivity]).
  split; [exact Ha |].
  apply (title_survives_second_turn
           (sampleEnv (Resolved (JObj plainResponse)))
           (sampleEnv (Resolved (JObj chartResponse))) sampleState
           (JObj plainResponse) (JObj chartResponse) (JNum 7)
           (lit "and the expenses?") Ha eq_refl eq_refl eq_refl eq_refl eq_refl
           eq_refl).
  vm_compute. discriminate.
Defined.

(** X7: after "New Chat" the next answered message always opens a
    conversation of its own: the message list is exactly the user's
    message and the answer, and the current conversation is the one of the
    response, titled from this message. *)
Theorem new_chat_then_send env s response rid :
  accepts s -> reply env = Resolved response ->
  prop response "conversation_id" = Some rid ->
  exists cd,
    chartData response = Some cd
    /\ messages (sendMessage env (startNewConversation s))
       = newMessages env (trim (currentMessage s)) response cd
    /\ currentConversation (sendMessage env (startNewConversation s))
       = Some (mkConversation rid (JStr (title (trim (currentMessage s))))).
Proof.
  intros Ha Hr Hid.
  destruct (chartData_defined _ _ _ Hid) as [cd Hcd]. exists cd.
  split; [exact Hcd |].
  assert (Ha' : accepts (startNewConversation s)) by exact Ha.
  destruct (sendMessage_resolved env (startNewConversation s) response cd
              Ha' Hr Hcd) as (Hm & Hc & _).
  split; [exact Hm |]. rewrite Hc, Hid. reflexivity.
Qed.

Lemma new_chat_then_send_witness :
  accepts sampleState
  /\ exists cd,
       chartData (JObj plainResponse) = Some cd
       /\ messages (sendMessage (sampleEnv (Resolved (JObj plainResponse)))
                      (startNewConversation sampleState))
          = newMessages (sampleEnv (Resolved (JObj plainResponse)))
              (trim (currentMessage sampleState)) (JObj plainResponse) cd
       /\ currentConversation
            (sendMessage (sampleEnv (Resolved (JObj plainResponse)))
               (startNewConversation sampleState))
          = Some (mkConversation (JNum 7)
                    (JStr (title (trim (currentMessage sampleState))))).
Proof.
  assert (Ha : accepts sampleState)
    by (split; [vm_compute; discriminate | reflexivity]).
  split; [exact Ha |].
  exact (new_chat_then_send (sampleEnv (Resolved (JObj plainResponse)))
           sampleState (JObj plainResponse) (JNum 7) Ha eq_refl eq_refl).
Defined.

(** X8: when a turn opens a conversation and the reload of the
    conversation list fails, the turn is not lost: both messages are in the
    list and the new conversation is current; the failure only shows the
    toast "Failed to load chat history" and leaves the conversation list
    and the chat mode as they were. *)
Theorem reload_failure_keeps_turn env s (response : gmap string JsValue) err :
  accepts s -> reply env = Resolved (JObj response) ->
  currentConversation s = None -> reloaded env = Rejected err ->
  messages (sendMessage env s)
  = List.filter (notTemp env s) (messages s)
    ++ newMessages env (trim (currentMessage s)) (JObj response)
         (Spec.chartPayload response)
  /\ currentConversation (sendMessage env s)
     = Some (mkConversation (default JUndefined (response !! "conversation_id"))
               (JStr (title (trim (currentMessage s)))))
  /\ conversations (sendMessage env s) = conversations s
  /\ chatMode (sendMessage env s) = chatMode s
  /\ effects (sendMessage env s)
     = effects s
       ++ [ApiCall "sendMessage"
             [JStr (trim (currentMessage s)); JUndefined; JStr (chatMode s)];
           ApiCall "getConversations" [];
           Toast TError (lit "Failed to load chat history")].
Proof.
  intros Ha Hr Hnone Hrel.
  destruct (sendMessage_resolved env s (JObj response) _ Ha Hr
              (chartData_object response)) as (Hm & Hc & _).
  rewrite Hnone in Hc. split; [exact Hm |]. split; [exact Hc |].
  rewrite (sendMessage_resolved_state env s (JObj response) _ Ha Hr
             (chartData_object response)).
  cbv zeta. rewrite Hnone, Hrel.
  unfold currentConversationId. rewrite Hnone.
  repeat split; try reflexivity.
  cbn. by rewrite <- !app_assoc.
Qed.

Lemma reload_failure_keeps_turn_witness :
  let env := mkEnv (mkClock 5 (lit "t")) (mkClock 6 (lit "t"))
               (mkClock 6 (lit "t")) (Resolved (JObj plainResponse))
               (Rejected JNull) in
  accepts sampleState
  /\ currentConversation (sendMessage env sampleState)
     = Some (mkConversation
               (default JUndefined (plainResponse !! "conversation_id"))
               (JStr (title (trim (currentMessage sampleState))))).
Proof.
  cbv zeta.
  assert (Ha : accepts sampleState)
    by (split; [vm_compute; discriminate | reflexivity]).
  split; [exact Ha |].
  exact (proj1 (proj2 (reload_failure_keeps_turn
                         (mkEnv (mkClock 5 (lit "t")) (mkClock 6 (lit "t"))
                            (mkClock 6 (lit "t"))
                            (Resolved (JObj plainResponse)) (Rejected JNull))
                         sampleState plainResponse JNull Ha eq_refl eq_refl
                         eq_refl))).
Defined.

End ChatTurns.

(* ===================================================================== *)
(** ** Further properties of pages/KnowledgeBase.jsx *)
(* ===================================================================== *)

Section KnowledgeBaseMore.

Import KnowledgeBase.

(** Building the failure text throws exactly on a [null] or [undefined]
    error. *)
Lemma errorDetail_throws (err : JsValue) :
  Api.errorDetail err = None <-> err = JNull \/ err = JUndefined.
Proof.
  unfold Api.errorDetail.
  destruct err; simpl; split; intros H;
    try discriminate H; try (by left); try (by right); try reflexivity;
    destruct H as [H | H]; discriminate H.
Qed.

(** An error without a response (the request never reached the server)
    is reported by its message. *)
Lemma errorDetail_network (m : gmap string JsValue) :
  m !! "response" = None ->
  Api.errorDetail (JObj m) = Some (default JUndefined (m !! "message")).
Proof.
  intros H. unfold Api.errorDetail. simpl. by rewrite H.
Qed.

(** An error whose response carries a truthy detail is reported by that
    detail. *)
Lemma errorDetail_server (m resp data : gmap string JsValue) (d : JsValue) :
  m !! "response" = Some (JObj resp) ->
  resp !! "data" = Some (JObj data) ->
  data !! "detail" = Some d -> truthy d = true ->
  Api.errorDetail (JObj m) = Some d.
Proof.
  intros Hr Hd Hdet Ht. unfold Api.errorDetail. simpl.
  rewrite Hr. simpl. rewrite Hd. simpl. rewrite Hdet. simpl.
  unfold jsOr. by rewrite Ht.
Qed.

(** X9: what a submitted file URL leaves behind.  The processing flag is
    released in both outcomes and the web URL fields are untouched.  When
    the request resolves the field is cleared and the document list is
    reloaded; when it rejects the typed URL is kept for another try, the
    documents and statistics stay as they were and nothing is reloaded.
    A rejection with an error value shows the toast "Processing failed: "
    with the detail built from it; a rejection with [null] or [undefined]
    makes the catch block throw while building the text, so no toast
    follows the request. *)
Theorem handleFileUrlSubmit_outcomes processed r s :
  trim (fileUrl s) <> [] ->
  let s' := handleFileUrlSubmit processed r s in
  let started :=
    [Toast TLoading (fileUrlBranch (fileUrl s)).1.2;
     ApiCall (fileUrlBranch (fileUrl s)).1.1 [JStr (fileUrl s)]] in
  isProcessing s' = false
  /\ webUrls s' = webUrls s
  /\ (forall v, processed = Resolved v ->
        fileUrl s' = []
        /\ exists before after,
             effects s'
             = before ++ ApiCall "getDocuments" []
                 :: ApiCall "getDocumentStats" [] :: after)
  /\ (forall err, processed = Rejected err ->
        fileUrl s' = fileUrl s
        /\ documents s' = documents s /\ stats s' = stats s
        /\ loading s' = loading s
        /\ (err <> JNull -> err <> JUndefined ->
            exists detail,
              Api.errorDetail err = Some detail
              /\ effects s'
                 = effects s ++ started
                   ++ [ToastWith TError (lit "Processing failed: ") detail])
        /\ (err = JNull \/ err = JUndefined ->
            effects s' = effects s ++ started)).
Proof.
  intros Hnb. cbv zeta. unfold handleFileUrlSubmit.
  rewrite blank_guard, bool_decide_eq_false_2 by done.
  change (fileUrl (setIsProcessing true s)) with (fileUrl s).
  destruct (fileUrlBranch (fileUrl s)) as [[method loadingText] successText].
  cbn [fst snd]. split; [by destruct processed as [v|err]; [| destruct (Api.errorDetail err)] |].
  split.
  { destruct processed as [v|err]; [| by destruct (Api.errorDetail err)].
    change (webUrls (setIsProcessing false ?x)) with (webUrls x).
    by rewrite loadKnowledgeBase_webUrls. }
  split.
  - intros v ->. unfold loadKnowledgeBase. split.
    + by destruct (docsReply r).
    + exists (effects s
              ++ [Toast TLoading loadingText;
                  ApiCall method [JStr (fileUrl s)];
                  Toast TSuccess successText]).
      destruct (docsReply r); cbn [effects emit setIsProcessing setLoading
        setFileUrl setDocuments setStats].
      * exists []. by rewrite <- !app_assoc.
      * exists [Toast TError (lit "Failed to load knowledge base")].
        by rewrite <- !app_assoc.
  - intros err ->. pose proof (errorDetail_throws err) as Hthrows.
    destruct (Api.errorDetail err) as [detail|].
    + repeat split; try reflexivity.
      * intros _ _. exists detail. split; [reflexivity |].
        cbn [effects emit setIsProcessing]. by rewrite <- !app_assoc.
      * intros Hnull. apply Hthrows in Hnull. discriminate.
    + repeat split; try reflexivity.
      * intros Hn Hu. destruct (proj1 Hthrows eq_refl); contradiction.
      * intros _. cbn [effects emit setIsProcessing]. by rewrite <- !app_assoc.
Qed.

Lemma handleFileUrlSubmit_outcomes_witness :
  trim (fileUrl sampleState) <> []
  /\ fileUrl (handleFileUrlSubmit (Rejected networkError) sampleReload sampleState)
     = fileUrl sampleState
  /\ effects (handleFileUrlSubmit (Rejected networkError) sampleReload sampleState)
     = [Toast TLoading (lit "Processing Google Drive file...");
        ApiCall "processGoogleDriveFile"
          [JStr (lit "https://drive.google.com/file/d/abc/view")];
        ToastWith TError (lit "Processing failed: ")
          (JStr (lit "Network Error"))]
  /\ effects (handleFileUrlSubmit (Rejected JNull) sampleReload sampleState)
     = [Toast TLoading (lit "Processing Google Drive file...");
        ApiCall "processGoogleDriveFile"
          [JStr (lit "https://drive.google.com/file/d/abc/view")]].
Proof.
  assert (H : trim (fileUrl sampleState) <> []) by (vm_compute; discriminate).
  split; [exact H |].
  destruct (proj2 (proj2 (proj2 (handleFileUrlSubmit_outcomes
                                   (Rejected networkError) sampleReload
                                   sampleState H))) networkError eq_refl)
    as (Hurl & _ & _ & _ & Htoast & _).
  split; [exact Hurl |].
  destruct Htoast as (detail & Hd & He); [discriminate | discriminate |].
  split.
  - rewrite He. vm_compute in Hd. injection Hd as <-. reflexivity.
  - exact (proj2 (proj2 (proj2 (proj2 (proj2
             (proj2 (proj2 (proj2 (handleFileUrlSubmit_outcomes
                                     (Rejected JNull) sampleReload
                                     sampleState H))) JNull eq_refl)))))
             (or_introl eq_refl)).
Defined.

Lemma validUrls_nonblank (a : list Slot) : forall urls,
  validUrls a = Some urls -> forall u, u ∈ urls -> trim u <> [].
Proof.
  induction a as [|x a IH]; intros urls H u Hu.
  - injection H as <-. by apply elem_of_nil in Hu.
  - destruct x as [| |v]; simpl in H; [by eapply IH | discriminate |].
    destruct (validUrls a) as [rest|]; [| discriminate]. simpl in H.
    destruct (trim v) as [|c t] eqn:E; simpl in H; injection H as <-.
    + by eapply IH.
    + apply elem_of_cons in Hu as [-> | Hu]; [by rewrite E | by eapply IH].
Qed.

Lemma handleWebUrlsSubmit_request processed r s u us :
  validUrls (webUrls s) = Some (u :: us) ->
  exists rest,
    effects (handleWebUrlsSubmit processed r s)
    = effects s
      ++ ApiCall "processMultipleSources" [batchBody (u :: us)] :: rest.
Proof.
  intros Hv. unfold handleWebUrlsSubmit. rewrite Hv.
  destruct processed as [v|err].
  - unfold loadKnowledgeBase.
    destruct (docsReply r); cbn [effects emit setIsProcessing setLoading
      setWebUrls setDocuments setStats].
    + exists [Toast TSuccess (lit "Web URLs processed!");
              ApiCall "getDocuments" []; ApiCall "getDocumentStats" []].
      by rewrite <- !app_assoc.
    + exists [Toast TSuccess (lit "Web URLs processed!");
              ApiCall "getDocuments" []; ApiCall "getDocumentStats" [];
              Toast TError (lit "Failed to load knowledge base")].
      by rewrite <- !app_assoc.
  - destruct (Api.errorDetail err) as [detail|];
      cbn [effects emit setIsProcessing].
    + exists [ToastWith TError (lit "Web URL processing failed: ") detail].
      by rewrite <- !app_assoc.
    + by exists [].
Qed.

(** X10: every URL of a batch request is a trimmed, non-empty string: it
    is not empty, it neither starts nor ends with white space, and
    trimming it again changes nothing. *)
Theorem batch_urls_are_trimmed processed r s urls :
  validUrls (webUrls s) = Some urls -> urls <> [] ->
  (exists rest,
     effects (handleWebUrlsSubmit processed r s)
     = effects s ++ ApiCall "processMultipleSources" [batchBody urls] :: rest)
  /\ forall v, v ∈ source <$> urls ->
       exists u, v = JObj (<["url" := JStr u]>
                             (<["type" := JStr (lit "web_url")]> ∅))
                 /\ u <> [] /\ trim u = u
                 /\ match u with [] => True | c :: _ => isWhiteSpace c = false end
                 /\ match rev u with [] => True | c :: _ => isWhiteSpace c = false end.
Proof.
  intros Hv Hne. split.
  - destruct urls as [|u us]; [done |].
    by apply handleWebUrlsSubmit_request.
  - intros v Hin. apply list_elem_of_fmap in Hin as (u & -> & Hu).
    exists (trim u). split; [reflexivity |].
    split; [by eapply validUrls_nonblank |].
    split; [apply trim_idempotent | apply trim_clean].
Qed.

Lemma batch_urls_are_trimmed_witness :
  validUrls (webUrls sampleState)
  = Some [lit " https://a.example/x "; lit "https://b.example"]
  /\ forall v,
       v ∈ source <$> [lit " https://a.example/x "; lit "https://b.example"] ->
       exists u, v = JObj (<["url" := JStr u]>
                             (<["type" := JStr (lit "web_url")]> ∅))
                 /\ u <> [] /\ trim u = u
                 /\ match u with [] => True | c :: _ => isWhiteSpace c = false end
                 /\ match rev u with [] => True | c :: _ => isWhiteSpace c = false end.
Proof.
  assert (H : validUrls (webUrls sampleState)
              = Some [lit " https://a.example/x "; lit "https://b.example"])
    by reflexivity.
  split; [exact H |].
  refine (proj2 (batch_urls_are_trimmed (Resolved JNull) sampleReload
                   sampleState _ H _)).
  discriminate.
Defined.

Lemma validUrls_allUrls (a : list Slot) :
  allUrls a -> exists urls, validUrls a = Some urls /\ length urls <= length a.
Proof.
  unfold allUrls. induction 1 as [|x a Hx _ (urls & Hv & Hl)].
  - exists []. split; [reflexivity | done].
  - destruct x as [| |u]; try contradiction.
    cbn [validUrls]. rewrite Hv. cbn [mbind option_bind].
    destruct (truthy (JStr (trim u))); eexists; (split; [reflexivity |]);
      simpl; lia.
Qed.

(** X11: on the page (any sequence of field operations issued on rendered
    fields) reading the fields for a batch never throws, and a batch never
    holds more than five sources. *)
Theorem page_batch_at_most_five ops s' :
  run ops initial = Some s' ->
  exists urls, validUrls (webUrls s') = Some urls /\ length urls <= 5.
Proof.
  intros Hrun.
  destruct (run_fieldsOk ops initial s' initial_fieldsOk Hrun) as [Hu Hl].
  destruct (validUrls_allUrls _ Hu) as (urls & Hv & Hlen).
  exists urls. split; [exact Hv | lia].
Qed.

Lemma page_batch_at_most_five_witness :
  exists s',
    run [Update 0 (lit "https://a.example"); Add; Update 1 (lit " ")] initial
    = Some s'
    /\ exists urls, validUrls (webUrls s') = Some urls /\ length urls <= 5.
Proof.
  eexists. split; [vm_compute; reflexivity |].
  apply (page_batch_at_most_five
           [Update 0 (lit "https://a.example"); Add; Update 1 (lit " ")]).
  vm_compute. reflexivity.
Defined.

(** X12: a batch that was sent resets the fields to a single empty one
    when the request resolves and keeps everything the user typed when it
    rejects; the file URL is untouched and the processing flag is released
    in both cases.  A rejection with an error value shows the toast
    "Web URL processing failed: " with the detail built from it; a
    rejection with [null] or [undefined] makes the catch block throw
    while building the text, so no toast follows the request. *)
Theorem handleWebUrlsSubmit_outcomes processed r s u us :
  validUrls (webUrls s) = Some (u :: us) ->
  let s' := handleWebUrlsSubmit processed r s in
  let request := ApiCall "processMultipleSources" [batchBody (u :: us)] in
  isProcessing s' = false
  /\ fileUrl s' = fileUrl s
  /\ (forall v, processed = Resolved v -> webUrls s' = [Url (lit "")])
  /\ (forall err, processed = Rejected err ->
        webUrls s' = webUrls s
        /\ documents s' = documents s
        /\ (err <> JNull -> err <> JUndefined ->
            exists detail,
              Api.errorDetail err = Some detail
              /\ effects s'
                 = effects s
                   ++ [request;
                       ToastWith TError (lit "Web URL processing failed: ")
                         detail])
        /\ (err = JNull \/ err = JUndefined ->
            effects s' = effects s ++ [request])).
Proof.
  intros Hv. cbv zeta. unfold handleWebUrlsSubmit. rewrite Hv.
  split; [by destruct processed as [v|err]; [| destruct (Api.errorDetail err)] |].
  split.
  { destruct processed as [v|err]; [| by destruct (Api.errorDetail err)].
    unfold loadKnowledgeBase. by destruct (docsReply r). }
  split.
  - intros v ->. change (webUrls (setIsProcessing false ?x)) with (webUrls x).
    by rewrite loadKnowledgeBase_webUrls.
  - intros err ->. pose proof (errorDetail_throws err) as Hthrows.
    destruct (Api.errorDetail err) as [detail|].
    + repeat split; try reflexivity.
      * intros _ _. exists detail. split; [reflexivity |].
        cbn [effects emit setIsProcessing]. by rewrite <- !app_assoc.
      * intros Hnull. apply Hthrows in Hnull. discriminate.
    + repeat split; try reflexivity.
      intros Hn Hu. destruct (proj1 Hthrows eq_refl); contradiction.
Qed.

Lemma handleWebUrlsSubmit_outcomes_witness :
  validUrls (webUrls sampleState)
  = Some [lit " https://a.example/x "; lit "https://b.example"]
  /\ webUrls (handleWebUrlsSubmit (Rejected serverError) sampleReload sampleState)
     = webUrls sampleState
  /\ effects (handleWebUrlsSubmit (Rejected serverError) sampleReload sampleState)
     = [ApiCall "processMultipleSources"
          [batchBody [lit " https://a.example/x "; lit "https://b.example"]];
        ToastWith TError (lit "Web URL processing failed: ")
          (JStr (lit "Unsupported link"))]
  /\ effects (handleWebUrlsSubmit (Rejected JUndefined) sampleReload sampleState)
     = [ApiCall "processMultipleSources"
          [batchBody [lit " https://a.example/x "; lit "https://b.example"]]].
Proof.
  assert (H : validUrls (webUrls sampleState)
              = Some [lit " https://a.example/x "; lit "https://b.example"])
    by reflexivity.
  split; [exact H |].
  destruct (proj2 (proj2 (proj2 (handleWebUrlsSubmit_outcomes
                                   (Rejected serverError) sampleReload
                                   sampleState _ _ H))) serverError eq_refl)
    as (Hurls & _ & Htoast & _).
  split; [exact Hurls |].
  destruct Htoast as (detail & Hd & He); [discriminate | discriminate |].
  split.
  - rewrite He. vm_compute in Hd. injection Hd as <-. reflexivity.
  - exact (proj2 (proj2 (proj2
             (proj2 (proj2 (proj2 (handleWebUrlsSubmit_outcomes
                                     (Rejected JUndefined) sampleReload
                                     sampleState _ _ H))) JUndefined eq_refl)))
             (or_intror eq_refl)).
Defined.

Lemma filterOut_delete (a : list Slot) : forall index k,
  allUrls a ->
  filterOut index k a = if bool_decide (k <= index) then delete (index - k) a else a.
Proof.
  unfold allUrls. induction a as [|x a IH]; intros index k H.
  - simpl. by case_bool_decide.
  - inversion H as [|? ? Hx Ha]; subst. destruct x as [| |u]; try contradiction.
    simpl. rewrite (IH index (S k) Ha).
    destruct (k =? index)%nat eqn:E.
    + apply Nat.eqb_eq in E. subst k.
      rewrite (bool_decide_eq_false_2 (S index <= index)) by lia.
      rewrite bool_decide_eq_true_2 by lia. by rewrite Nat.sub_diag.
    + apply Nat.eqb_neq in E. repeat case_bool_decide; try lia; [| done].
      replace (index - k) with (S (index - S k)) by lia. reflexivity.
Qed.

(** X13: on the page, removing a field deletes exactly the entry at that
    position and keeps every other entry, in order; with a single field
    left, or a position past the end, nothing changes. *)
Theorem removeWebUrlField_deletes index s :
  allUrls (webUrls s) ->
  webUrls (removeWebUrlField index s)
  = if (1 <? length (webUrls s))%nat then delete index (webUrls s)
    else webUrls s.
Proof.
  intros Hu. unfold removeWebUrlField.
  destruct (1 <? length (webUrls s))%nat; [| reflexivity].
  cbn [webUrls setWebUrls]. rewrite (filterOut_delete _ index 0 Hu).
  rewrite bool_decide_eq_true_2 by lia. by rewrite Nat.sub_0_r.
Qed.

Lemma removeWebUrlField_deletes_witness :
  allUrls (webUrls sampleState)
  /\ webUrls (removeWebUrlField 1 sampleState)
     = [Url (lit " https://a.example/x "); Url (lit "https://b.example")].
Proof.
  assert (H : allUrls (webUrls sampleState)) by (repeat constructor).
  split; [exact H |].
  exact (removeWebUrlField_deletes 1 sampleState H).
Defined.

(** X14: on the page, typing into field [index] replaces that entry and
    no other: reading the same position gives the typed text back and
    every other position reads as before. *)
Theorem updateWebUrl_lookup index value s :
  allUrls (webUrls s) -> index < length (webUrls s) ->
  webUrls (updateWebUrl index value s) !! index = Some (Url value)
  /\ (forall j, j <> index ->
        webUrls (updateWebUrl index value s) !! j = webUrls s !! j)
  /\ allUrls (webUrls (updateWebUrl index value s)).
Proof.
  intros Hu Hi. unfold updateWebUrl. cbn [webUrls setWebUrls].
  rewrite spread_allUrls by done. rewrite assign_in_range by done.
  split; [by apply list_lookup_insert_eq |]. split.
  - intros j Hj. by apply list_lookup_insert_ne.
  - by apply Forall_insert.
Qed.

Lemma updateWebUrl_lookup_witness :
  allUrls (webUrls sampleState) /\ 1 < length (webUrls sampleState)
  /\ webUrls (updateWebUrl 1 (lit "https://c.example") sampleState) !! 1
     = Some (Url (lit "https://c.example")).
Proof.
  assert (H : allUrls (webUrls sampleState)) by (repeat constructor).
  assert (H1 : 1 < length (webUrls sampleState)) by (simpl; lia).
  split; [exact H |]. split; [exact H1 |].
  exact (proj1 (updateWebUrl_lookup 1 (lit "https://c.example") sampleState H H1)).
Defined.

(** X15: on the page, "Add Another URL" keeps every entry and appends one
    empty field while fewer than five are shown, and removing that new
    field again gives the page back as it was. *)
Theorem add_then_remove_last s :
  allUrls (webUrls s) -> 1 <= length (webUrls s) < 5 ->
  webUrls (addWebUrlField s) = webUrls s ++ [Url (lit "")]
  /\ removeWebUrlField (length (webUrls s)) (addWebUrlField s) = s.
Proof.
  intros Hu [Hl1 Hl5]. unfold addWebUrlField.
  apply Nat.ltb_lt in Hl5. rewrite Hl5. cbn [webUrls setWebUrls].
  rewrite spread_allUrls by done. split; [reflexivity |].
  unfold removeWebUrlField. cbn [webUrls setWebUrls].
  rewrite length_app. simpl.
  replace (1 <? length (webUrls s) + 1)%nat with true
    by (symmetry; apply Nat.ltb_lt; lia).
  rewrite filterOut_delete
    by (apply Forall_app; split; [done | by repeat constructor]).
  rewrite bool_decide_eq_true_2 by lia. rewrite Nat.sub_0_r.
  replace (delete (length (webUrls s)) (webUrls s ++ [Url (lit "")]))
    with (webUrls s).
  - by destruct s.
  - clear. induction (webUrls s) as [|x a IH]; [done |]. simpl. by f_equal.
Qed.

Lemma add_then_remove_last_witness :
  allUrls (webUrls sampleState) /\ 1 <= length (webUrls sampleState) < 5
  /\ removeWebUrlField (length (webUrls sampleState))
       (addWebUrlField sampleState) = sampleState.
Proof.
  assert (H : allUrls (webUrls sampleState)) by (repeat constructor).
  assert (H1 : 1 <= length (webUrls sampleState) < 5) by (simpl; lia).
  split; [exact H |]. split; [exact H1 |].
  exact (proj2 (add_then_remove_last sampleState H H1)).
Defined.

End KnowledgeBaseMore.

(* ===================================================================== *)
(** ** Further properties of components/TallyDataFetcher.jsx *)
(* ===================================================================== *)

Section TallyMore.

Import Tally.

Lemma tidy_same s s' :
  intervalRef s' = intervalRef s -> timers s' = timers s ->
  nextTimer s' = nextTimer s -> tidy s -> tidy s'.
Proof. unfold tidy. by intros -> -> ->. Qed.

Lemma fetchTallyData_resume_frame r s :
  intervalRef (fetchTallyData_resume r s) = intervalRef s
  /\ timers (fetchTallyData_resume r s) = timers s
  /\ nextTimer (fetchTallyData_resume r s) = nextTimer s
  /\ isDataFetching (fetchTallyData_resume r s) = isDataFetching s
  /\ startsAwaiting (fetchTallyData_resume r s) = startsAwaiting s.
Proof.
  unfold fetchTallyData_resume. destruct r as [response|err]; [| done].
  destruct (prop response "success") as [ok|]; [| done].
  by destruct (truthy ok).
Qed.

Lemma connectToTally_frame r s :
  intervalRef (connectToTally r s) = intervalRef s
  /\ timers (connectToTally r s) = timers s
  /\ nextTimer (connectToTally r s) = nextTimer s.
Proof.
  unfold connectToTally.
  destruct r as [response|err]; [| by destruct (prop err "message")].
  destruct (prop response "success") as [ok|]; [| done].
  by destruct (truthy ok).
Qed.

Lemma stopDataFetching_tidy s :
  tidy s ->
  timers (stopDataFetching s) = []
  /\ intervalRef (stopDataFetching s) = None
  /\ nextTimer (stopDataFetching s) = nextTimer s
  /\ isDataFetching (stopDataFetching s) = false.
Proof.
  unfold tidy, stopDataFetching. intros [H Hn].
  destruct (intervalRef s) as [t|] eqn:E.
  - destruct H as [Ht Hts]. destruct t as [|t]; [done |].
    cbn [Nat.eqb negb]. cbn. rewrite Hts. simpl. by rewrite Nat.eqb_refl.
  - cbn. by rewrite E.
Qed.

(** X16: the page keeps at most one live interval timer, the one held in
    [intervalRef], as long as a suspended [startDataFetching] never
    resumes while a timer is already held: the property holds initially
    and every event keeps it under that condition.  In such a state
    [stopDataFetching] and a successful [disconnectFromTally] leave no
    live timer. *)
Theorem polling_stays_tidy :
  tidy initial
  /\ (forall e s,
        tidy s ->
        (forall k r, e = StartFetchSettles k r -> intervalRef s = None) ->
        tidy (step e s))
  /\ (forall s, tidy s ->
        timers (stopDataFetching s) = []
        /\ intervalRef (stopDataFetching s) = None
        /\ isDataFetching (stopDataFetching s) = false)
  /\ (forall s v, tidy s ->
        timers (disconnectFromTally (Resolved v) s) = []
        /\ isConnected (disconnectFromTally (Resolved v) s) = false).
Proof.
  split; [by split |]. split; [| split].
  - intros e s Ht Hstart.
    destruct e as [r|r| |k r| |t|r]; cbn [step].
    + destruct (connectToTally_frame r s) as (H1 & H2 & H3).
      by apply (tidy_same s).
    + destruct r as [v|err];
        [| unfold disconnectFromTally; destruct (prop err "message");
           [by apply (tidy_same s) | done]].
      unfold disconnectFromTally.
      destruct (stopDataFetching_tidy (setIsConnected false s) Ht)
        as (H1 & H2 & H3 & _).
      unfold tidy. cbn [intervalRef timers nextTimer showMessage act].
      rewrite H1, H2, H3. split; [done | by destruct Ht].
    + unfold startDataFetching_call.
      destruct (isConnected s); by apply (tidy_same s).
    + specialize (Hstart k r eq_refl). unfold startDataFetching_resume.
      destruct (startsAwaiting s !! k) as [seconds|]; [| done].
      destruct Ht as [Ht Hn]. rewrite Hstart in Ht.
      set (s1 := fetchTallyData_resume r
                   (setAwaiting (delete k (startsAwaiting s)) (ticksAwaiting s) s)).
      destruct (fetchTallyData_resume_frame r
                  (setAwaiting (delete k (startsAwaiting s)) (ticksAwaiting s) s))
        as (_ & H2 & H3 & _).
      fold s1 in H2, H3. cbn [timers nextTimer setAwaiting] in H2, H3.
      unfold setInterval, tidy.
      cbn [intervalRef timers nextTimer setIntervalRef act setTimers].
      rewrite H2, H3, Ht. by repeat split.
    + destruct (stopDataFetching_tidy s Ht) as (H1 & H2 & H3 & _).
      unfold tidy. rewrite H1, H2, H3. split; [done | by destruct Ht].
    + unfold tick. destruct (bool_decide (t ∈ timers s)); [| done].
      by apply (tidy_same s).
    + unfold tick_resume. destruct (ticksAwaiting s) as [|n]; [done |].
      destruct (fetchTallyData_resume_frame r
                  (setAwaiting (startsAwaiting s) n s)) as (H1 & H2 & H3 & _).
      by apply (tidy_same s).
  - intros s Ht. destruct (stopDataFetching_tidy s Ht) as (H1 & H2 & _ & H4).
    done.
  - intros s v Ht. unfold disconnectFromTally.
    destruct (stopDataFetching_tidy (setIsConnected false s) Ht)
      as (H1 & _ & _ & _).
    split; [exact H1 |].
    cbn [isConnected showMessage act]. unfold stopDataFetching.
    cbn [intervalRef setIsConnected].
    destruct (intervalRef s) as [[|t]|]; reflexivity.
Qed.

Lemma polling_stays_tidy_witness :
  tidy (run [Connect (Resolved okReply); CallStart;
             StartFetchSettles 0 (Resolved okReply); Tick 1] initial)
  /\ timers (stopDataFetching
               (run [Connect (Resolved okReply); CallStart;
                     StartFetchSettles 0 (Resolved okReply); Tick 1] initial))
     = [].
Proof.
  assert (H : tidy (run [Connect (Resolved okReply); CallStart;
                         StartFetchSettles 0 (Resolved okReply)] initial)).
  { apply (proj1 (proj2 polling_stays_tidy)
             (StartFetchSettles 0 (Resolved okReply))
             (run [Connect (Resolved okReply); CallStart] initial)).
    - split; [reflexivity | discriminate].
    - intros k r _. reflexivity. }
  assert (H' : tidy (run [Connect (Resolved okReply); CallStart;
                          StartFetchSettles 0 (Resolved okReply); Tick 1]
                       initial)).
  { apply (proj1 (proj2 polling_stays_tidy) (Tick 1) _ H).
    intros k r Hk. discriminate Hk. }
  split; [exact H' |].
  exact (proj1 (proj1 (proj2 (proj2 polling_stays_tidy)) _ H')).
Defined.

Lemma step_connected e s :
  isConnected (step e s) = true -> isConnected s = true \/ connects e.
Proof.
  destruct e as [r|r| |k r| |t|r]; cbn [step].
  - unfold connectToTally, connects. destruct r as [response|err];
      [| destruct (prop err "message"); [discriminate | by left]].
    destruct (prop response "success") as [ok|] eqn:Hp; [| discriminate].
    destruct (truthy ok) eqn:Hok; [| discriminate].
    intros _. right. by exists response, ok.
  - destruct r as [v|err];
      [| unfold disconnectFromTally; destruct (prop err "message"); by left].
    unfold disconnectFromTally, stopDataFetching.
    cbn [intervalRef setIsConnected].
    destruct (intervalRef s) as [[|t]|]; discriminate.
  - unfold startDataFetching_call. intros H. left. revert H.
    destruct (negb (isConnected s)); exact id.
  - unfold startDataFetching_resume.
    destruct (startsAwaiting s !! k) as [seconds|]; [| by left].
    unfold fetchTallyData_resume. destruct r as [response|err];
      [| discriminate].
    destruct (prop response "success") as [ok|]; [| discriminate].
    destruct (truthy ok); [by left | discriminate].
  - unfold stopDataFetching. destruct (intervalRef s) as [[|t]|]; by left.
  - unfold tick. destruct (bool_decide (t ∈ timers s)); by left.
  - unfold tick_resume. destruct (ticksAwaiting s) as [|n]; [by left |].
    unfold fetchTallyData_resume. destruct r as [response|err];
      [| discriminate].
    destruct (prop response "success") as [ok|]; [| discriminate].
    destruct (truthy ok); [by left | discriminate].
Qed.

(** X17: only a successful [connectToTally] makes the page connected: if
    the page is connected after a run of events, it was connected before
    or the run holds a connection request that resolved with a truthy
    [success].  No fetch, timer tick, start or stop ever sets the flag. *)
Theorem connected_only_by_connect es s :
  isConnected (run es s) = true ->
  isConnected s = true \/ Exists connects es.
Proof.
  unfold run. induction es as [|e es IH] using rev_ind; intros H.
  - by left.
  - rewrite foldl_app in H. simpl in H.
    apply step_connected in H as [H | H].
    + destruct (IH H) as [H' | H']; [by left | right].
      apply Exists_app. by left.
    + right. apply Exists_app. right. by constructor.
Qed.

Lemma connected_only_by_connect_witness :
  isConnected (run [CallStart; Connect (Resolved okReply); Tick 3] initial)
  = true
  /\ (isConnected initial = true
      \/ Exists connects [CallStart; Connect (Resolved okReply); Tick 3]).
Proof.
  assert (H : isConnected
                (run [CallStart; Connect (Resolved okReply); Tick 3] initial)
              = true) by reflexivity.
  split; [exact H |].
  exact (connected_only_by_connect
           [CallStart; Connect (Resolved okReply); Tick 3] initial H).
Defined.

(** X18: what a settled fetch does to the page.  It never touches the
    timer, [intervalRef] or the fetching flag.  A successful answer
    replaces the displayed data and leaves the connection flag alone; any
    other outcome (rejection, [null] answer, falsy [success]) marks the
    page disconnected and keeps the last data on display, so a failed poll
    neither clears the data nor stops the polling. *)
Theorem fetch_outcome r s :
  timers (fetchTallyData_resume r s) = timers s
  /\ intervalRef (fetchTallyData_resume r s) = intervalRef s
  /\ isDataFetching (fetchTallyData_resume r s) = isDataFetching s
  /\ (succeeded r = true ->
      isConnected (fetchTallyData_resume r s) = isConnected s
      /\ exists response,
           r = Resolved response
           /\ realTimeData (fetchTallyData_resume r s)
              = default JUndefined (prop response "data"))
  /\ (succeeded r = false ->
      isConnected (fetchTallyData_resume r s) = false
      /\ realTimeData (fetchTallyData_resume r s) = realTimeData s).
Proof.
  destruct (fetchTallyData_resume_frame r s) as (H1 & H2 & _ & H4 & _).
  split; [exact H2 |]. split; [exact H1 |]. split; [exact H4 |].
  unfold succeeded, fetchTallyData_resume.
  destruct r as [response|err]; [| by split].
  destruct (prop response "success") as [ok|]; [| by split].
  destruct (truthy ok); split; try discriminate; intros _.
  - split; [reflexivity |]. by exists response.
  - by split.
Qed.

Lemma fetch_outcome_witness :
  succeeded (Resolved failedReply) = false
  /\ isConnected
       (fetchTallyData_resume (Resolved failedReply)
          (connectToTally (Resolved okReply) initial)) = false
  /\ realTimeData
       (fetchTallyData_resume (Resolved failedReply)
          (connectToTally (Resolved okReply) initial))
     = realTimeData (connectToTally (Resolved okReply) initial).
Proof.
  assert (H : succeeded (Resolved failedReply) = false) by reflexivity.
  split; [exact H |].
  exact (proj2 (proj2 (proj2 (proj2 (fetch_outcome (Resolved failedReply)
                                       (connectToTally (Resolved okReply)
                                          initial))))) H).
Defined.

End TallyMore.

(* ===================================================================== *)
(** ** Properties of TallyAnalytics *)
(* ===================================================================== *)

Section AnalyticsFacts.

Import Analytics.

Lemma extractMetrics_shape result mt src :
  extractMetrics result = Some (mt, src) ->
  (mt = JNull /\ src = JStr (lit "unknown"))
  \/ (truthy mt = true /\ truthy src = true).
Proof.
  unfold extractMetrics.
  destruct (prop result "status") as [status|]; [| discriminate].
  destruct (prop result "success") as [success|]; [| discriminate].
  cbn [mbind option_bind].
  assert (Hor : forall a, truthy (jsOr a (JStr (lit "tally_live"))) = true).
  { intros a. unfold jsOr. by destruct (truthy a) eqn:E. }
  destruct (truthy (jsOr _ success)); [| intros [= <- <-]; by left].
  destruct (truthy (default JUndefined (prop result "metrics"))) eqn:E1.
  { intros [= <- <-]. right. by rewrite E1, Hor. }
  destruct (truthy (optional (default JUndefined (prop result "data")) "metrics"))
    eqn:E2.
  { intros [= <- <-]. right. by rewrite E2, Hor. }
  destruct (truthy (default JUndefined (prop result "data"))
            && String.eqb (typeof (default JUndefined (prop result "data")))
                 "object") eqn:E3.
  { intros [= <- <-]. right. apply andb_true_iff in E3 as [E3 _].
    by rewrite E3, Hor. }
  intros [= <- <-]. by left.
Qed.

Lemma loadTallyData_selected l v m s :
  truthy (selectedCompany s) = true ->
  loadTallyData l v m s
  = setLoading false
      (let s1 :=
         emit (ApiCall "getTallyFinancialMetrics" [companyParams s])
           (emit (ApiCall "getTallyVouchers" [voucherParams s])
              (emit (ApiCall "getTallyLedgers" [companyParams s])
                 (setLoading true s))) in
       match loadTallyData_try l v m s1 with
       | Some s' => s'
       | None => emit (Toast TError (lit "Failed to load Tally data")) s1
       end).
Proof.
  intros H. unfold loadTallyData.
  change (selectedCompany (setLoading true s)) with (selectedCompany s).
  by rewrite H.
Qed.

Lemma loadTallyData_try_effects l v m s s' :
  loadTallyData_try l v m s = Some s' ->
  loading s' = loading s /\ refreshing s' = refreshing s
  /\ (effects s' = effects s
      \/ exists text, effects s' = effects s ++ [Toast TSuccess text])
  /\ ((financialData s' = JNull /\ dataSource s' = JStr (lit "unknown"))
      \/ (truthy (financialData s') = true /\ truthy (dataSource s') = true)).
Proof.
  unfold loadTallyData_try.
  destruct (extractList "ledgers" (getTallyLedgers l)) as [ld|]; [| discriminate].
  destruct (extractList "vouchers" (getTallyVouchers v)) as [vd|]; [| discriminate].
  destruct (extractMetrics (getTallyFinancialMetrics m)) as [[mt src]|] eqn:Hm;
    [| discriminate].
  cbn [mbind option_bind]. intros Hs'. injection Hs' as <-.
  destruct (extractMetrics_shape _ _ _ Hm) as [[-> ->] | [Hmt Hsrc]].
  - match goal with
    | |- context [strictEq ?a ?b] => destruct (strictEq a b) eqn:E
    end.
    { exfalso. unfold strictEq in E. apply bool_decide_eq_true_1 in E.
      vm_compute in E. discriminate E. }
    cbn [truthy].
    split; [reflexivity |]. split; [reflexivity |]. split; by left.
  - rewrite Hmt.
    match goal with
    | |- context [strictEq ?a ?b] => destruct (strictEq a b)
    end;
      (split; [reflexivity |]); (split; [reflexivity |]);
      (split; [right; by eexists | right; split; [exact Hmt | exact Hsrc]]).
Qed.

(** X19: [loadTallyData] always releases the loading flag.  Without a
    selected company it makes no request, leaves the data on display and
    only shows "Please select a company".  With one it makes exactly the
    three requests, each carrying that company, followed by at most one
    toast. *)
Theorem loadTallyData_requests l v m s :
  loading (loadTallyData l v m s) = false
  /\ (truthy (selectedCompany s) = false ->
      effects (loadTallyData l v m s)
      = effects s ++ [Toast TError (lit "Please select a company")]
      /\ ledgers (loadTallyData l v m s) = ledgers s
      /\ vouchers (loadTallyData l v m s) = vouchers s
      /\ financialData (loadTallyData l v m s) = financialData s
      /\ dataSource (loadTallyData l v m s) = dataSource s)
  /\ (truthy (selectedCompany s) = true ->
      exists rest,
        effects (loadTallyData l v m s)
        = effects s
          ++ [ApiCall "getTallyLedgers" [companyParams s];
              ApiCall "getTallyVouchers" [voucherParams s];
              ApiCall "getTallyFinancialMetrics" [companyParams s]]
          ++ rest
        /\ (rest = [] \/ exists kind text, rest = [Toast kind text])).
Proof.
  split; [reflexivity |]. split.
  - intros H. unfold loadTallyData.
    change (selectedCompany (setLoading true s)) with (selectedCompany s).
    rewrite H. repeat split; reflexivity.
  - intros H. rewrite (loadTallyData_selected l v m s H). cbv zeta.
    destruct (loadTallyData_try l v m _) as [s'|] eqn:Ht.
    + destruct (loadTallyData_try_effects _ _ _ _ _ Ht) as (_ & _ & He & _).
      change (effects (setLoading false s')) with (effects s').
      destruct He as [He | [text He]]; rewrite He;
        cbn [effects emit setLoading]; rewrite <- !app_assoc.
      * exists []. split; [reflexivity | by left].
      * exists [Toast TSuccess text]. split; [reflexivity | right; by eexists _, _].
    + exists [Toast TError (lit "Failed to load Tally data")].
      split; [| right; by eexists _, _].
      cbn [effects emit setLoading]. by rewrite <- !app_assoc.
Qed.

Lemma loadTallyData_requests_witness :
  truthy (selectedCompany initial) = false
  /\ effects (loadTallyData (Rejected JNull) (Rejected JNull) (Rejected JNull)
                initial)
     = effects initial ++ [Toast TError (lit "Please select a company")].
Proof.
  assert (H : truthy (selectedCompany initial) = false) by reflexivity.
  split; [exact H |].
  exact (proj1 (proj1 (proj2 (loadTallyData_requests (Rejected JNull)
                                (Rejected JNull) (Rejected JNull) initial)) H)).
Defined.

(** X20: when all three requests fail, the fallbacks of the service make
    the dashboard empty without any notice: no ledgers, no vouchers, no
    metrics, source "unknown", and no toast at all, neither an error nor a
    success. *)
Theorem loadTallyData_all_failed e1 e2 e3 s :
  truthy (selectedCompany s) = true ->
  let s' := loadTallyData (Rejected e1) (Rejected e2) (Rejected e3) s in
  ledgers s' = JArr [] /\ vouchers s' = JArr []
  /\ financialData s' = JNull /\ dataSource s' = JStr (lit "unknown")
  /\ loading s' = false
  /\ effects s'
     = effects s
       ++ [ApiCall "getTallyLedgers" [companyParams s];
           ApiCall "getTallyVouchers" [voucherParams s];
           ApiCall "getTallyFinancialMetrics" [companyParams s]].
Proof.
  intros H. cbv zeta. rewrite (loadTallyData_selected _ _ _ s H).
  repeat split; try reflexivity.
  cbv zeta.
  change (loadTallyData_try (Rejected e1) (Rejected e2) (Rejected e3) ?x)
    with (Some (setData (JArr []) (JArr []) JNull (JStr (lit "unknown")) x)).
  cbn [effects emit setLoading setData]. by rewrite <- !app_assoc.
Qed.

Lemma loadTallyData_all_failed_witness :
  truthy (selectedCompany sampleState) = true
  /\ financialData
       (loadTallyData (Rejected JNull) (Rejected JNull) (Rejected JNull)
          sampleState) = JNull.
Proof.
  assert (H : truthy (selectedCompany sampleState) = true) by reflexivity.
  split; [exact H |].
  exact (proj1 (proj2 (proj2 (loadTallyData_all_failed JNull JNull JNull
                                sampleState H)))).
Defined.

(** X21: after [loadTallyData] the metrics and their source go together:
    either both are as before (nothing was loaded), or the metrics are
    [null] with source "unknown", or both are truthy.  So metrics are never
    shown under the source "unknown" the component falls back to, and the
    loading flag is released in every case. *)
Theorem metrics_and_source_agree l v m s :
  let s' := loadTallyData l v m s in
  (financialData s' = financialData s /\ dataSource s' = dataSource s)
  \/ (financialData s' = JNull /\ dataSource s' = JStr (lit "unknown"))
  \/ (truthy (financialData s') = true /\ truthy (dataSource s') = true).
Proof.
  cbv zeta. destruct (truthy (selectedCompany s)) eqn:H.
  - rewrite (loadTallyData_selected l v m s H). cbv zeta.
    destruct (loadTallyData_try l v m _) as [s'|] eqn:Ht.
    + destruct (loadTallyData_try_effects _ _ _ _ _ Ht) as (_ & _ & _ & Hs).
      right. exact Hs.
    + left. by split.
  - left. unfold loadTallyData.
    change (selectedCompany (setLoading true s)) with (selectedCompany s).
    rewrite H. by split.
Qed.

Lemma null_result_throws l v m s :
  l = Resolved JNull \/ v = Resolved JNull \/ m = Resolved JNull ->
  loadTallyData_try l v m s = None.
Proof.
  unfold loadTallyData_try. intros [-> | [-> | ->]]; [reflexivity | |].
  - by destruct (extractList "ledgers" (getTallyLedgers l)).
  - destruct (extractList "ledgers" (getTallyLedgers l)); [| done].
    by destruct (extractList "vouchers" (getTallyVouchers v)).
Qed.

(** X22: [handleRefresh] announces success whatever happened: when one of
    the three answers is [null], loading fails with "Failed to load Tally
    data", the data on display is left as it was, and the very next toast
    is still "Data refreshed successfully". *)
Theorem handleRefresh_reports_success_after_failure l v m s :
  truthy (selectedCompany s) = true ->
  l = Resolved JNull \/ v = Resolved JNull \/ m = Resolved JNull ->
  let s' := handleRefresh l v m s in
  effects s'
  = effects s
    ++ [ApiCall "getTallyLedgers" [companyParams s];
        ApiCall "getTallyVouchers" [voucherParams s];
        ApiCall "getTallyFinancialMetrics" [companyParams s];
        Toast TError (lit "Failed to load Tally data");
        Toast TSuccess (lit "Data refreshed successfully")]
  /\ ledgers s' = ledgers s /\ vouchers s' = vouchers s
  /\ financialData s' = financialData s /\ dataSource s' = dataSource s
  /\ loading s' = false /\ refreshing s' = false.
Proof.
  intros H Hnull. cbv zeta. unfold handleRefresh.
  rewrite (loadTallyData_selected l v m (setRefreshing true s))
    by exact H.
  cbv zeta. rewrite (null_result_throws l v m _ Hnull).
  repeat split; try reflexivity.
  cbn [effects emit setLoading setRefreshing]. by rewrite <- !app_assoc.
Qed.

Lemma handleRefresh_reports_success_after_failure_witness :
  truthy (selectedCompany sampleState) = true
  /\ financialData
       (handleRefresh (Resolved JNull) (Rejected JNull) (Rejected JNull)
          sampleState)
     = financialData sampleState.
Proof.
  assert (H : truthy (selectedCompany sampleState) = true) by reflexivity.
  split; [exact H |].
  exact (proj1 (proj2 (proj2 (proj2
           (handleRefresh_reports_success_after_failure (Resolved JNull)
              (Rejected JNull) (Rejected JNull) sampleState H
              (or_introl eq_refl)))))).
Defined.

(** X23: the ledger chart shows at most ten ledgers, all of them named
    (a truthy [name] or [ledger_name]), taken in their original order from
    the ledger list; entries that are [null] or unnamed are passed over,
    and when at most ten ledgers are named all of them are shown. *)
Theorem topLedgers_bounds (ls : list JsValue) :
  length (topLedgers ls) <= 10
  /\ length (topLedgers ls) <= length ls
  /\ Forall (fun l => named l = true) (topLedgers ls)
  /\ sublist (topLedgers ls) ls
  /\ (length (List.filter named ls) <= 10 ->
      topLedgers ls = List.filter named ls)
  /\ (forall l, l ∈ topLedgers ls -> l <> JNull /\ l <> JUndefined).
Proof.
  unfold topLedgers.
  assert (Hsub : sublist (List.filter named ls) ls).
  { induction ls as [|l ls IH]; [constructor |]. simpl.
    destruct (named l); by constructor. }
  assert (Hall : Forall (fun l => named l = true) (List.filter named ls)).
  { apply Forall_forall. intros l Hl.
    apply list_elem_of_In, List.filter_In in Hl. tauto. }
  split; [rewrite length_take; lia |]. split.
  { rewrite length_take. apply sublist_length in Hsub. lia. }
  split; [by apply Forall_take |]. split.
  { etrans; [apply sublist_take | exact Hsub]. }
  split; [intros H; by apply take_ge |].
  intros l Hl. apply elem_of_take in Hl as (i & Hl & _).
  apply list_elem_of_lookup_2 in Hl.
  rewrite Forall_forall in Hall. specialize (Hall l Hl).
  split; intros ->; discriminate Hall.
Qed.

Lemma topLedgers_bounds_witness :
  length (List.filter named
            [JNull; JObj (<["name" := JStr (lit "Cash")]> ∅);
             JObj (<["ledger_name" := JStr (lit "Sales")]> ∅);
             JObj (<["name" := JStr (lit "")]> ∅)]) <= 10
  /\ topLedgers
       [JNull; JObj (<["name" := JStr (lit "Cash")]> ∅);
        JObj (<["ledger_name" := JStr (lit "Sales")]> ∅);
        JObj (<["name" := JStr (lit "")]> ∅)]
     = [JObj (<["name" := JStr (lit "Cash")]> ∅);
        JObj (<["ledger_name" := JStr (lit "Sales")]> ∅)].
Proof.
  assert (H : length (List.filter named
                        [JNull; JObj (<["name" := JStr (lit "Cash")]> ∅);
                         JObj (<["ledger_name" := JStr (lit "Sales")]> ∅);
                         JObj (<["name" := JStr (lit "")]> ∅)]) <= 10)
    by (vm_compute; lia).
  split; [exact H |].
  exact (proj1 (proj2 (proj2 (proj2 (proj2 (topLedgers_bounds _)))) ) H).
Defined.

End AnalyticsFacts.

(* ===================================================================== *)
(** ** Properties of App.jsx and contexts/AuthContext.jsx *)
(* ===================================================================== *)

Section AppFacts.

Import App.

(** X24: the theme survives a reload.  Once the effect has stored the
    mode, the initialiser restores it as a boolean with the same
    truthiness, whatever the system preference says (or whether the
    browser has [matchMedia] at all); the [dark] class follows the same
    truthiness, the other keys of localStorage are untouched, and toggling
    twice gives the mode back. *)
Theorem darkMode_round_trip (d : DarkMode) (st : Storage) (matchMedia : option bool) :
  initialDarkMode (syncDarkMode d st).1 matchMedia = Some (default false d)
  /\ (syncDarkMode d st).2 = default false d
  /\ (forall k, k <> "darkMode" -> (syncDarkMode d st).1 !! k = st !! k)
  /\ toggleDarkMode (toggleDarkMode d) = Some (default false d)
  /\ (st !! "darkMode" = None -> initialDarkMode st matchMedia = matchMedia).
Proof.
  unfold initialDarkMode, syncDarkMode. cbn [fst snd].
  rewrite lookup_insert_eq. split.
  { f_equal. destruct d as [[|]|]; cbn [stored default from_option];
      [by apply bool_decide_eq_true_2 | |];
      apply bool_decide_eq_false_2; intros H; vm_compute in H; discriminate H. }
  split; [reflexivity |]. split.
  { intros k Hk. by rewrite lookup_insert_ne. }
  split; [by destruct d as [[|]|] |].
  by intros ->.
Qed.

Lemma darkMode_round_trip_witness :
  (∅ : Storage) !! "darkMode" = None
  /\ initialDarkMode ∅ (Some true) = Some true.
Proof.
  assert (H : (∅ : Storage) !! "darkMode" = None) by reflexivity.
  split; [exact H |].
  exact (proj2 (proj2 (proj2 (proj2 (darkMode_round_trip None ∅ (Some true))))) H).
Defined.

(** X25: how a session is restored.  [initializeAuth] always ends the
    loading phase.  Starting signed out, the user ends up authenticated
    exactly when a token and a saved user are both stored and the token
    check resolves, and then the user is the one the server returned.  When
    the check rejects, both keys are removed (and only those); when a key is
    missing, no request is made and localStorage is left as it is. *)
Theorem initializeAuth_restores current (st : Storage) :
  let a := initializeAuth current (initialAuth st) in
  let filled k := exists c t, st !! k = Some (c :: t) in
  loading a = false
  /\ (isAuthenticated a = true
      <-> filled "token" /\ filled "user"
          /\ exists userData, current = Resolved userData /\ user a = userData)
  /\ (filled "token" -> filled "user" ->
      forall err, current = Rejected err ->
        storage a !! "token" = None /\ storage a !! "user" = None
        /\ forall k, k <> "token" -> k <> "user" -> storage a !! k = st !! k)
  /\ (~ (filled "token" /\ filled "user") ->
      effects a = [] /\ storage a = st /\ isAuthenticated a = false).
Proof.
  cbv zeta. unfold initializeAuth, initialAuth.
  cbn [storage user loading isAuthenticated effects].
  destruct (st !! "token") as [[|c1 t1]|] eqn:Et;
    destruct (st !! "user") as [[|c2 t2]|] eqn:Eu; cbn [andb];
    try (split; [reflexivity |]; split;
         [split; [discriminate | intros ((? & ? & ?) & (? & ? & ?) & _); congruence]
         |]; split;
         [intros (? & ? & ?) (? & ? & ?); congruence | by intros _]).
  destruct current as [userData|err];
    cbn [storage user loading isAuthenticated effects].
  - split; [reflexivity |]. split.
    + split; [| done]. intros _.
      split; [by eexists _, _ |]. split; [by eexists _, _ | by eexists].
    + split; [intros _ _ err H; discriminate H |].
      intros H. exfalso. apply H. split; by eexists _, _.
  - split; [reflexivity |]. split.
    + split; [discriminate |]. intros (_ & _ & ? & H & _). discriminate H.
    + split.
      * intros _ _ err' _. split; [| split].
        -- rewrite lookup_delete_ne by done. apply lookup_delete_eq.
        -- apply lookup_delete_eq.
        -- intros k H1 H2. by rewrite !lookup_delete_ne.
      * intros H. exfalso. apply H. split; by eexists _, _.
Qed.

Lemma initializeAuth_restores_witness :
  (exists c t, sampleStorage !! "token" = Some (c :: t))
  /\ (exists c t, sampleStorage !! "user" = Some (c :: t))
  /\ storage (initializeAuth (Rejected JNull) (initialAuth sampleStorage))
       !! "token" = None
  /\ storage (initializeAuth (Rejected JNull) (initialAuth sampleStorage))
       !! "darkMode" = Some (lit "true").
Proof.
  assert (H1 : exists c t, sampleStorage !! "token" = Some (c :: t))
    by (eexists _, _; reflexivity).
  assert (H2 : exists c t, sampleStorage !! "user" = Some (c :: t))
    by (eexists _, _; reflexivity).
  split; [exact H1 |]. split; [exact H2 |].
  destruct (proj1 (proj2 (proj2 (initializeAuth_restores (Rejected JNull)
                                   sampleStorage))) H1 H2 JNull eq_refl)
    as (Ht & _ & Hk).
  split; [exact Ht |].
  rewrite (Hk "darkMode") by discriminate. reflexivity.
Defined.

(** X26: signing out is final.  After [logout] neither token nor saved
    user is stored, every other key (the theme, for one) is kept, and a
    reload of the page restores no session: [initializeAuth] makes no
    request and leaves the user signed out, whatever the server would
    answer. *)
Theorem logout_then_reload a current :
  isAuthenticated (logout a) = false
  /\ user (logout a) = JNull
  /\ storage (logout a) !! "token" = None
  /\ storage (logout a) !! "user" = None
  /\ (forall k, k <> "token" -> k <> "user" ->
        storage (logout a) !! k = storage a !! k)
  /\ initializeAuth current (initialAuth (storage (logout a)))
     = mkAuth JNull false false (storage (logout a)) [].
Proof.
  unfold logout. cbn [storage user isAuthenticated].
  assert (Ht : delete "user" (delete "token" (storage a)) !! "token" = None).
  { rewrite lookup_delete_ne by done. apply lookup_delete_eq. }
  split; [reflexivity |]. split; [reflexivity |]. split; [exact Ht |].
  split; [apply lookup_delete_eq |]. split.
  { intros k H1 H2. by rewrite !lookup_delete_ne. }
  unfold initializeAuth, initialAuth. cbn [storage user loading isAuthenticated
    effects]. by rewrite Ht.
Qed.

Lemma logout_then_reload_witness :
  ("darkMode" : string) <> "token" /\ ("darkMode" : string) <> "user"
  /\ storage (logout (initialAuth sampleStorage)) !! "darkMode"
     = storage (initialAuth sampleStorage) !! "darkMode".
Proof.
  assert (H1 : ("darkMode" : string) <> "token") by discriminate.
  assert (H2 : ("darkMode" : string) <> "user") by discriminate.
  split; [exact H1 |]. split; [exact H2 |].
  exact (proj1 (proj2 (proj2 (proj2 (proj2
           (logout_then_reload (initialAuth sampleStorage) (Rejected JNull))))))
           "darkMode" H1 H2).
Defined.

Lemma element_steps a r :
  loading a = false ->
  exists v, render 2 a r = Some v
    /\ (isAuthenticated a = true ->
        v = Page (match r with
                  | LoginRoute | RegisterRoute | RootRoute | UnknownRoute =>
                      DashboardRoute
                  | _ => r
                  end))
    /\ (isAuthenticated a = false ->
        v = Page (match r with RegisterRoute => RegisterRoute | _ => LoginRoute end)).
Proof.
  intros Hl.
  destruct (isAuthenticated a) eqn:Ha; destruct r;
    do 3 (cbn [render]; unfold element, PublicRoute, ProtectedRoute;
          rewrite ?Hl, ?Ha);
    eexists; (split; [reflexivity |]); split; intros H; try discriminate H;
    reflexivity.
Qed.

(** X27: the route guards.  While the session is being restored every
    route shows the spinner.  Afterwards every route settles within two
    redirects: a signed-in user gets the protected page asked for, or the
    dashboard for the login, register, root and unknown routes; a
    signed-out user only ever gets the login page, or the register page
    when that was asked for, and never a protected page. *)
Theorem routes_settle a r :
  exists v,
    render 2 a r = Some v
    /\ (loading a = true -> v = Spinner)
    /\ (loading a = false -> isAuthenticated a = true ->
        v = Page (match r with
                  | LoginRoute | RegisterRoute | RootRoute | UnknownRoute =>
                      DashboardRoute
                  | _ => r
                  end))
    /\ (loading a = false -> isAuthenticated a = false ->
        v = Page (match r with RegisterRoute => RegisterRoute | _ => LoginRoute end)).
Proof.
  destruct (loading a) eqn:Hl.
  - exists Spinner. split.
    + destruct r;
        do 3 (cbn [render]; unfold element, PublicRoute, ProtectedRoute;
              rewrite ?Hl);
        reflexivity.
    + split; [done |]. split; intros H; discriminate H.
  - destruct (element_steps a r Hl) as (v & Hv & H1 & H2).
    exists v. split; [exact Hv |]. split; [intros H; discriminate H |].
    split; intros _; assumption.
Qed.

Lemma routes_settle_witness :
  exists v,
    render 2 (logout (initialAuth sampleStorage)) ChatRoute = Some v
    /\ (loading (logout (initialAuth sampleStorage)) = true -> v = Spinner).
Proof.
  destruct (routes_settle (logout (initialAuth sampleStorage)) ChatRoute)
    as (v & Hv & Hs & _).
  exists v. split; [exact Hv | exact Hs].
Defined.

End AppFacts.

(* ===================================================================== *)
(** ** The two upload components side by side *)
(* ===================================================================== *)

Section UploadFacts.

(** X28: the Knowledge Base page and the stand-alone upload component
    read the web URL fields in the same way and send the same list of
    sources, but not in the same envelope: the page posts an object with a
    [sources] property, the component posts the bare array.  The component
    moreover stays silent on a resolved request without data: the fields
    are kept and neither callback is called. *)
Theorem upload_components_differ_in_envelope processed r posted
    (k : KnowledgeBase.State) (u : Upload.State) url urls :
  KnowledgeBase.webUrls k = Upload.webUrls u ->
  KnowledgeBase.validUrls (Upload.webUrls u) = Some (url :: urls) ->
  (exists rest,
     KnowledgeBase.effects (KnowledgeBase.handleWebUrlsSubmit processed r k)
     = KnowledgeBase.effects k
       ++ ApiCall "processMultipleSources"
            [JObj (<["sources" := JArr (KnowledgeBase.source <$> url :: urls)]> ∅)]
          :: rest)
  /\ (exists rest,
        Upload.events (Upload.handleWebUrlsSubmit posted u)
        = Upload.events u
          ++ Upload.Post "/api/v1/documents/process-multiple-sources"
               (JArr (KnowledgeBase.source <$> url :: urls))
             :: rest)
  /\ (forall data, posted = Resolved data -> truthy data = false ->
        Upload.handleWebUrlsSubmit posted u
        = Upload.mkState false (Upload.webUrls u)
            (Upload.events u
             ++ [Upload.Post "/api/v1/documents/process-multiple-sources"
                   (JArr (KnowledgeBase.source <$> url :: urls))])).
Proof.
  intros Hsame Hv. split; [| split].
  - rewrite <- Hsame in Hv.
    exact (handleWebUrlsSubmit_request processed r k url urls Hv).
  - unfold Upload.handleWebUrlsSubmit. rewrite Hv.
    destruct posted as [data|err];
      [destruct (truthy data) | destruct (Upload.failure err) as [message|]];
      cbn [Upload.events].
    + exists [Upload.OnUploadSuccess data]. by rewrite <- app_assoc.
    + by exists [].
    + exists [Upload.OnError message]. by rewrite <- app_assoc.
    + by exists [].
  - intros data -> Hd. unfold Upload.handleWebUrlsSubmit. by rewrite Hv, Hd.
Qed.

Lemma upload_components_differ_in_envelope_witness :
  let u := Upload.mkState false (KnowledgeBase.webUrls KnowledgeBase.sampleState) [] in
  KnowledgeBase.webUrls KnowledgeBase.sampleState = Upload.webUrls u
  /\ Upload.handleWebUrlsSubmit (Resolved JNull) u
     = Upload.mkState false (Upload.webUrls u)
         [Upload.Post "/api/v1/documents/process-multiple-sources"
            (JArr (KnowledgeBase.source
                     <$> [lit " https://a.example/x "; lit "https://b.example"]))].
Proof.
  cbv zeta. split; [reflexivity |].
  exact (proj2 (proj2 (upload_components_differ_in_envelope (Resolved JNull)
                         KnowledgeBase.sampleReload (Resolved JNull)
                         KnowledgeBase.sampleState
                         (Upload.mkState false
                            (KnowledgeBase.webUrls KnowledgeBase.sampleState) [])
                         _ _ eq_refl eq_refl)) JNull eq_refl eq_refl).
Defined.

End UploadFacts.
